(** * EduHealth: the payment lifecycle and its webhook reconciliation

    A shallow embedding of the payment code of the EduHealth backend
    ([src/app.py], [src/paystack_integration.py]): the gateway client
    [PaystackPayment], the four request handlers that reconcile a payment
    ([payment_success], [paystack_webhook], [verify_payment],
    [payment_webhook] with [handle_paystack_webhook]) and
    [initialize_payment].

    Conventions.
    - A Python value that comes from JSON is a [json]; a Python exception is
      an [exn] and code that may raise returns a [result].
    - The database is a record of two tables, each a list of rows in
      insertion order.  A request handler is a function from the database
      before the request to a response and the database after it: a handler
      commits once, at its end, so an exception before the commit leaves the
      stored rows as they were.
    - [datetime.utcnow()] is a parameter [utcnow], a count of microseconds;
      [datetime.now()] is a parameter [now], a calendar record.
    - What the network answers to [requests.get] / [requests.post] is a
      parameter of type [http_outcome]. *)

From Stdlib Require Import ZArith QArith List String Ascii Bool Lia.
From Stdlib Require Import Strings.Byte DecimalString DecimalZ.
Import ListNotations.
Local Open Scope string_scope.
Local Open Scope Z_scope.
Set Warnings "-register-all".
Set Default Proof Using "Type".


(** ** Python values *)

(** The exception classes the payment code can meet.  [str(e)] is the
    message each carries. *)
Inductive exn : Type :=
| ValueError (msg : string)
| TypeError (msg : string)
| AttributeError (msg : string)
| KeyError (msg : string)
| IntegrityError (msg : string)
| RequestException (msg : string)
| HTTPException (code : Z) (msg : string)
| OtherException (msg : string).

Definition str_exn (e : exn) : string :=
  match e with
  | ValueError m | TypeError m | AttributeError m | KeyError m
  | IntegrityError m | RequestException m | OtherException m => m
  | HTTPException _ m => m
  end.

(** [isinstance(e, requests.exceptions.RequestException)] *)
Definition is_RequestException (e : exn) : bool :=
  match e with RequestException _ => true | _ => false end.

Inductive result (A : Type) : Type :=
| Return (a : A)
| Raise (e : exn).
Arguments Return {A} a.
Arguments Raise {A} e.

Definition bind {A B : Type} (m : result A) (k : A -> result B) : result B :=
  match m with
  | Return a => k a
  | Raise e => Raise e
  end.

Notation "x <- m ;; k" := (bind m (fun x => k))
  (at level 61, m at next level, right associativity).

(** [try: body  except requests.exceptions.RequestException as e: handler] *)
Definition try_except_RequestException {A : Type}
    (body : result A) (handler : exn -> result A) : result A :=
  match body with
  | Return a => Return a
  | Raise e => if is_RequestException e then handler e else Raise e
  end.

(** [try: body  except Exception as e: handler] *)
Definition try_except_Exception {A B : Type}
    (body : result A) (done : A -> B) (handler : exn -> B) : B :=
  match body with
  | Return a => done a
  | Raise e => handler e
  end.

(** A value decoded from JSON.  A [JObj] is a Python dict: its items in
    insertion order, with distinct keys.  A character of a [string] stands
    for the code point of the same number (0..255).  JSON numbers with a
    fraction are not represented. *)
Inductive json : Type :=
| JNull
| JBool (b : bool)
| JInt (z : Z)
| JStr (s : string)
| JArr (items : list json)
| JObj (items : list (string * json)).

Fixpoint assoc (k : string) (items : list (string * json)) : option json :=
  match items with
  | [] => None
  | (k', v) :: rest => if String.eqb k' k then Some v else assoc k rest
  end.

(** [d.get(k, default)]; only a dict has the method. *)
Definition dict_get (d : json) (k : string) (default : json) : result json :=
  match d with
  | JObj items =>
      Return (match assoc k items with Some v => v | None => default end)
  | _ => Raise (AttributeError "object has no attribute 'get'")
  end.

(** [d[k]] with a string key. *)
Definition getitem (d : json) (k : string) : result json :=
  match d with
  | JObj items =>
      match assoc k items with
      | Some v => Return v
      | None => Raise (KeyError k)
      end
  | JStr _ | JArr _ => Raise (TypeError "indices must be integers")
  | JNull | JBool _ | JInt _ => Raise (TypeError "object is not subscriptable")
  end.

(** [v == 'literal'] *)
Definition eq_str (v : json) (s : string) : bool :=
  match v with
  | JStr s' => String.eqb s' s
  | _ => false
  end.

(** Truth value of [v] in an [if]. *)
Definition truthy (v : json) : bool :=
  match v with
  | JNull => false
  | JBool b => b
  | JInt z => negb (z =? 0)
  | JStr s => negb (String.eqb s EmptyString)
  | JArr items => match items with [] => false | _ => true end
  | JObj items => match items with [] => false | _ => true end
  end.

(** ** The database ([src/app.py], lines 52-68 and 123-134) *)

(** [users.subscription_type]: ['free'] is the column default, ['premium']
    the only value the code writes. *)
Inductive subscription : Type := free | premium.

(** [payment_transactions.status]: ['pending'] is the column default;
    ['completed'] and ['failed'] are the other two values the code writes. *)
Inductive Status : Type := pending | completed | failed.

Definition Status_eqb (a b : Status) : bool :=
  match a, b with
  | pending, pending | completed, completed | failed, failed => true
  | _, _ => false
  end.

(** Microseconds since the epoch, for [datetime.utcnow()]. *)
Definition timestamp : Type := Z.

(** [timedelta(days=n)] *)
Definition timedelta_days (n : Z) : Z := n * 86400000000.

Record User : Type := mkUser {
  id : string;
  email : string;
  subscription_type : subscription;
  subscription_expires : option timestamp
}.

Record PaymentTransaction : Type := mkPaymentTransaction {
  user_id : string;
  paystack_reference : string;     (* unique=True, nullable=False *)
  amount : Q;
  currency : string;               (* default='USD' *)
  status : Status;
  plan_type : option string        (* nullable *)
}.

Record DB : Type := mkDB {
  users : list User;
  payment_transactions : list PaymentTransaction
}.

(** [Model.query.filter_by(...).first()] *)
Definition first {A : Type} (p : A -> bool) (rows : list A) : option A :=
  find p rows.

(** The row [first p rows] returns, rewritten by [f]; the other rows stay. *)
Fixpoint update_first {A : Type} (p : A -> bool) (f : A -> A) (rows : list A)
    : list A :=
  match rows with
  | [] => []
  | r :: rest => if p r then f r :: rest else r :: update_first p f rest
  end.

Definition by_reference (reference : string) (t : PaymentTransaction) : bool :=
  String.eqb (paystack_reference t) reference.

Definition by_reference_and_user (reference uid : string)
    (t : PaymentTransaction) : bool :=
  String.eqb (paystack_reference t) reference && String.eqb (user_id t) uid.

Definition by_id (uid : string) (u : User) : bool := String.eqb (id u) uid.

Definition by_email (e : string) (u : User) : bool := String.eqb (email u) e.

Definition set_status (s : Status) (t : PaymentTransaction)
    : PaymentTransaction :=
  {| user_id := user_id t;
     paystack_reference := paystack_reference t;
     amount := amount t;
     currency := currency t;
     status := s;
     plan_type := plan_type t |}.

(** [u.subscription_type = 'premium'; u.subscription_expires = expires] *)
Definition set_premium (expires : timestamp) (u : User) : User :=
  {| id := id u;
     email := email u;
     subscription_type := premium;
     subscription_expires := Some expires |}.

(** [payment.plan_type == 'annual'] on a stored row. *)
Definition is_annual (p : option string) : bool :=
  match p with
  | Some s => String.eqb s "annual"
  | None => false
  end.

(** [days=365 if payment.plan_type == 'annual' else 30] *)
Definition plan_days (p : option string) : Z :=
  if is_annual p then 365 else 30.

(** [db.session.add(t)] followed by the commit: the INSERT is refused when a
    stored row already holds the reference (the UNIQUE constraint of
    [paystack_reference]). *)
Definition insert_transaction (t : PaymentTransaction) (d : DB) : result DB :=
  if existsb (by_reference (paystack_reference t)) (payment_transactions d)
  then Raise (IntegrityError
                "UNIQUE constraint failed: payment_transactions.paystack_reference")
  else Return {| users := users d;
                 payment_transactions := payment_transactions d ++ [t] |}.

(** ** HMAC-SHA512 ([hmac.new(key, msg, hashlib.sha512).hexdigest()])

    The library function [verify_webhook_signature] calls, written out after
    FIPS 180-4 and RFC 2104 so that a signature can be computed.  A 64-bit
    word is a [Z] reduced modulo [2^64]. *)
Module SHA512.
Local Open Scope list_scope.

Definition byte_to_Z (b : byte) : Z := Z.of_N (Byte.to_N b).

Definition byte_of_Z (z : Z) : byte :=
  match Byte.of_N (Z.to_N (z mod 256)) with
  | Some b => b
  | None => x00
  end.

Definition mask64 : Z := 2 ^ 64 - 1.

Definition add64 (a b : Z) : Z := (a + b) mod 2 ^ 64.

Definition rotr (n x : Z) : Z :=
  Z.lor (Z.shiftr x n) (Z.land (Z.shiftl x (64 - n)) mask64).

Definition Ch (x y z : Z) : Z :=
  Z.lxor (Z.land x y) (Z.land (Z.lxor x mask64) z).

Definition Maj (x y z : Z) : Z :=
  Z.lxor (Z.lxor (Z.land x y) (Z.land x z)) (Z.land y z).

Definition Sigma0 (x : Z) : Z :=
  Z.lxor (Z.lxor (rotr 28 x) (rotr 34 x)) (rotr 39 x).

Definition Sigma1 (x : Z) : Z :=
  Z.lxor (Z.lxor (rotr 14 x) (rotr 18 x)) (rotr 41 x).

Definition sigma0 (x : Z) : Z :=
  Z.lxor (Z.lxor (rotr 1 x) (rotr 8 x)) (Z.shiftr x 7).

Definition sigma1 (x : Z) : Z :=
  Z.lxor (Z.lxor (rotr 19 x) (rotr 61 x)) (Z.shiftr x 6).

Definition K : list Z := [
    0x428a2f98d728ae22; 0x7137449123ef65cd; 0xb5c0fbcfec4d3b2f; 0xe9b5dba58189dbbc;
    0x3956c25bf348b538; 0x59f111f1b605d019; 0x923f82a4af194f9b; 0xab1c5ed5da6d8118;
    0xd807aa98a3030242; 0x12835b0145706fbe; 0x243185be4ee4b28c; 0x550c7dc3d5ffb4e2;
    0x72be5d74f27b896f; 0x80deb1fe3b1696b1; 0x9bdc06a725c71235; 0xc19bf174cf692694;
    0xe49b69c19ef14ad2; 0xefbe4786384f25e3; 0x0fc19dc68b8cd5b5; 0x240ca1cc77ac9c65;
    0x2de92c6f592b0275; 0x4a7484aa6ea6e483; 0x5cb0a9dcbd41fbd4; 0x76f988da831153b5;
    0x983e5152ee66dfab; 0xa831c66d2db43210; 0xb00327c898fb213f; 0xbf597fc7beef0ee4;
    0xc6e00bf33da88fc2; 0xd5a79147930aa725; 0x06ca6351e003826f; 0x142929670a0e6e70;
    0x27b70a8546d22ffc; 0x2e1b21385c26c926; 0x4d2c6dfc5ac42aed; 0x53380d139d95b3df;
    0x650a73548baf63de; 0x766a0abb3c77b2a8; 0x81c2c92e47edaee6; 0x92722c851482353b;
    0xa2bfe8a14cf10364; 0xa81a664bbc423001; 0xc24b8b70d0f89791; 0xc76c51a30654be30;
    0xd192e819d6ef5218; 0xd69906245565a910; 0xf40e35855771202a; 0x106aa07032bbd1b8;
    0x19a4c116b8d2d0c8; 0x1e376c085141ab53; 0x2748774cdf8eeb99; 0x34b0bcb5e19b48a8;
    0x391c0cb3c5c95a63; 0x4ed8aa4ae3418acb; 0x5b9cca4f7763e373; 0x682e6ff3d6b2b8a3;
    0x748f82ee5defb2fc; 0x78a5636f43172f60; 0x84c87814a1f0ab72; 0x8cc702081a6439ec;
    0x90befffa23631e28; 0xa4506cebde82bde9; 0xbef9a3f7b2c67915; 0xc67178f2e372532b;
    0xca273eceea26619c; 0xd186b8c721c0c207; 0xeada7dd6cde0eb1e; 0xf57d4f7fee6ed178;
    0x06f067aa72176fba; 0x0a637dc5a2c898a6; 0x113f9804bef90dae; 0x1b710b35131c471b;
    0x28db77f523047d84; 0x32caab7b40c72493; 0x3c9ebe0a15c9bebc; 0x431d67c49c100d4c;
    0x4cc5d4becb3e42b6; 0x597f299cfc657e2a; 0x5fcb6fab3ad6faec; 0x6c44198c4a475817  ].

Definition H0 : list Z := [
    0x6a09e667f3bcc908; 0xbb67ae8584caa73b; 0x3c6ef372fe94f82b; 0xa54ff53a5f1d36f1;
    0x510e527fade682d1; 0x9b05688c2b3e6c1f; 0x1f83d9abfb41bd6b; 0x5be0cd19137e2179  ].

(** Big-endian value of a run of bytes. *)
Definition be_to_Z (bs : list byte) : Z :=
  fold_left (fun acc b => acc * 256 + byte_to_Z b) bs 0.

(** The [n] low bytes of [z], most significant first. *)
Fixpoint Z_to_be (n : nat) (z : Z) : list byte :=
  match n with
  | O => []
  | S n' => Z_to_be n' (z / 256) ++ [byte_of_Z z]
  end.

(** [n] words of 8 bytes each from the front of [bs]. *)
Fixpoint words (n : nat) (bs : list byte) : list Z :=
  match n with
  | O => []
  | S n' => be_to_Z (firstn 8 bs) :: words n' (skipn 8 bs)
  end.

Definition nthZ (i : nat) (l : list Z) : Z := nth i l 0.

(** The 80 rounds over the round constants [ks].  [w] is the window of the
    16 latest schedule words, the current one first. *)
Fixpoint rounds (ks : list Z) (w : list Z) (s : list Z) : list Z :=
  match ks with
  | [] => s
  | k :: ks' =>
      let a := nthZ 0 s in let b := nthZ 1 s in
      let c := nthZ 2 s in let d := nthZ 3 s in
      let e := nthZ 4 s in let f := nthZ 5 s in
      let g := nthZ 6 s in let h := nthZ 7 s in
      let t1 := add64 (add64 (add64 (add64 h (Sigma1 e)) (Ch e f g)) k)
                      (nthZ 0 w) in
      let t2 := add64 (Sigma0 a) (Maj a b c) in
      let wn := add64 (add64 (add64 (sigma1 (nthZ 14 w)) (nthZ 9 w))
                             (sigma0 (nthZ 1 w))) (nthZ 0 w) in
      rounds ks' (tl w ++ [wn])
             [add64 t1 t2; a; b; c; add64 d t1; e; f; g]
  end.

Fixpoint add_lists (xs ys : list Z) : list Z :=
  match xs, ys with
  | x :: xs', y :: ys' => add64 x y :: add_lists xs' ys'
  | _, _ => []
  end.

Definition compress (h : list Z) (block : list byte) : list Z :=
  add_lists h (rounds K (words 16 block) h).

Fixpoint blocks (n : nat) (h : list Z) (bs : list byte) : list Z :=
  match n with
  | O => h
  | S n' => blocks n' (compress h (firstn 128 bs)) (skipn 128 bs)
  end.

Definition pad (msg : list byte) : list byte :=
  let len := Z.of_nat (List.length msg) in
  let zeros := Z.to_nat ((111 - len) mod 128) in
  msg ++ [x80] ++ repeat x00 zeros ++ Z_to_be 16 (len * 8).

Definition sha512 (msg : list byte) : list byte :=
  let m := pad msg in
  flat_map (Z_to_be 8) (blocks (Nat.div (List.length m) 128) H0 m).

Definition xor_bytes (c : Z) (bs : list byte) : list byte :=
  map (fun b => byte_of_Z (Z.lxor (byte_to_Z b) c)) bs.

(** [hmac.new(key, msg, hashlib.sha512).digest()] *)
Definition hmac (key msg : list byte) : list byte :=
  let k := if (128 <? Z.of_nat (List.length key)) then sha512 key else key in
  let k := k ++ repeat x00 (128 - List.length k) in
  sha512 (xor_bytes 0x5c k ++ sha512 (xor_bytes 0x36 k ++ msg)).

Definition hex_digit (z : Z) : ascii :=
  ascii_of_nat (Z.to_nat (if z <? 10 then 48 + z else 87 + z)).

(** [bytes.hex()]: two lower-case digits per byte. *)
Fixpoint hex (bs : list byte) : string :=
  match bs with
  | [] => EmptyString
  | b :: rest =>
      String (hex_digit (byte_to_Z b / 16))
        (String (hex_digit (byte_to_Z b mod 16)) (hex rest))
  end.

Definition hexdigest (key msg : list byte) : string := hex (hmac key msg).

End SHA512.


(** ** Text and bytes *)

Definition quote : ascii := "034"%char.
Definition backslash : ascii := "092"%char.

Definition char1 (c : ascii) : string := String c EmptyString.

(** [str(z)] for an int. *)
Definition str_int (z : Z) : string := NilZero.string_of_int (Z.to_int z).

(** One character of a string inside [json.dumps] (ensure_ascii is on):
    the quote, the backslash and the five short escapes, and four hex digits
    for every other character outside [' '..'~']. *)
Definition escape_char (c : ascii) : string :=
  let n := Z.of_nat (nat_of_ascii c) in
  if n =? 34 then String backslash (char1 quote)
  else if n =? 92 then String backslash (char1 backslash)
  else if n =? 8 then String backslash "b"
  else if n =? 12 then String backslash "f"
  else if n =? 10 then String backslash "n"
  else if n =? 13 then String backslash "r"
  else if n =? 9 then String backslash "t"
  else if (32 <=? n) && (n <=? 126) then char1 c
  else String backslash
         (String "u" (String "0" (String "0"
            (String (SHA512.hex_digit (n / 16))
               (char1 (SHA512.hex_digit (n mod 16))))))).

Fixpoint escape (s : string) : string :=
  match s with
  | EmptyString => EmptyString
  | String c rest => escape_char c ++ escape rest
  end.

Definition dumps_str (s : string) : string :=
  String quote (escape s ++ char1 quote).

(** [json.dumps(v, separators=(',', ':'))] *)
Fixpoint dumps (v : json) : string :=
  match v with
  | JNull => "null"
  | JBool true => "true"
  | JBool false => "false"
  | JInt z => str_int z
  | JStr s => dumps_str s
  | JArr items =>
      "[" ++ (fix join (l : list json) : string :=
                match l with
                | [] => EmptyString
                | x :: rest =>
                    match rest with
                    | [] => dumps x
                    | _ :: _ => dumps x ++ "," ++ join rest
                    end
                end) items ++ "]"
  | JObj items =>
      "{" ++ (fix join (l : list (string * json)) : string :=
                match l with
                | [] => EmptyString
                | (k, x) :: rest =>
                    match rest with
                    | [] => dumps_str k ++ ":" ++ dumps x
                    | _ :: _ => dumps_str k ++ ":" ++ dumps x ++ "," ++ join rest
                    end
                end) items ++ "}"
  end.

(** [s.encode('utf-8')] for code points below 256. *)
Fixpoint encode_utf8 (s : string) : list byte :=
  match s with
  | EmptyString => []
  | String c rest =>
      let n := Z.of_nat (nat_of_ascii c) in
      if n <? 128 then SHA512.byte_of_Z n :: encode_utf8 rest
      else SHA512.byte_of_Z (192 + n / 64)
             :: SHA512.byte_of_Z (128 + n mod 64) :: encode_utf8 rest
  end.

(** [s.isascii()] *)
Fixpoint isascii (s : string) : bool :=
  match s with
  | EmptyString => true
  | String c rest => (Z.of_nat (nat_of_ascii c) <? 128) && isascii rest
  end.

(** [hmac.compare_digest(a, b)] with [a] a hex digest: it takes two ASCII
    strings and tells whether they are equal. *)
Definition compare_digest (a : string) (b : option string) : result bool :=
  match b with
  | None =>
      Raise (TypeError "unsupported operand types(s) or combination of types")
  | Some s =>
      if isascii s then Return (String.eqb a s)
      else Raise (TypeError
                    "comparing strings with non-ASCII characters is not supported")
  end.

(** ** Calendar time and the transaction reference *)

(** [datetime.now()] *)
Record datetime : Type := mkDatetime {
  year : Z; month : Z; day : Z;
  hour : Z; minute : Z; second : Z;
  microsecond : Z
}.

Definition digit (n : Z) : ascii := ascii_of_nat (Z.to_nat (48 + n mod 10)).

Definition pad2 (n : Z) : string := String (digit (n / 10)) (char1 (digit n)).

Definition pad4 (n : Z) : string :=
  String (digit (n / 1000)) (String (digit (n / 100)) (pad2 n)).

(** [now.strftime('%Y%m%d%H%M%S')] *)
Definition strftime_YmdHMS (now : datetime) : string :=
  pad4 (year now) ++ pad2 (month now) ++ pad2 (day now)
  ++ pad2 (hour now) ++ pad2 (minute now) ++ pad2 (second now).

(** The reference of [initialize_transaction] (line 36):
    [f"eduhealth_{datetime.now().strftime('%Y%m%d%H%M%S')}_{hash(email) % 10000}"].
    [hash] is Python's string hash, fixed within one process. *)
Definition make_reference (hash : string -> Z) (now : datetime)
    (email : string) : string :=
  "eduhealth_" ++ strftime_YmdHMS now ++ "_" ++ str_int (hash email mod 10000).

(** A [datetime] whose year prints as four digits. *)
Definition valid_datetime (t : datetime) : Prop :=
  1000 <= year t <= 9999 /\ 1 <= month t <= 12 /\ 1 <= day t <= 31
  /\ 0 <= hour t <= 23 /\ 0 <= minute t <= 59 /\ 0 <= second t <= 59
  /\ 0 <= microsecond t <= 999999.

(** Two moments of the same second. *)
Definition same_second (a b : datetime) : Prop :=
  year a = year b /\ month a = month b /\ day a = day b
  /\ hour a = hour b /\ minute a = minute b /\ second a = second b.

(** ** The gateway client ([src/paystack_integration.py], class
    [PaystackPayment]) *)

Record PaystackPayment : Type := mkPaystackPayment {
  public_key : string;
  secret_key : string
}.

Definition base_url : string := "https://api.paystack.co".

(** What [requests.post] / [requests.get] hands back: a response, with its
    status code and what [response.json()] does, or an exception raised by
    the call itself. *)
Record Response : Type := mkResponse {
  status_code : Z;
  response_json : result json
}.

Definition http_outcome : Type := result Response.

(** [response.raise_for_status()] *)
Definition raise_for_status (r : Response) : result unit :=
  if (400 <=? status_code r) && (status_code r <? 600)
  then Raise (RequestException "HTTPError")
  else Return tt.

(** [int(x)] of a number: the fraction is dropped. *)
Definition int_of_Q (x : Q) : Z := Z.quot (Qnum x) (Z.pos (Qden x)).

(** [a or b] *)
Definition py_or (a b : json) : json := if truthy a then a else b.

(** The request body [initialize_transaction] builds (lines 26-50).  The
    amount is a float in the source; the arithmetic is done here on
    rationals. *)
Definition initialize_payload (hash : string -> Z) (now : datetime)
    (email : string) (amount : Q) (plan_type callback_url : json) : json :=
  let amount_zar := (amount * 18)%Q in
  let amount_cents := int_of_Q (amount_zar * 100)%Q in
  JObj [ ("email", JStr email);
         ("amount", JInt amount_cents);
         ("currency", JStr "ZAR");
         ("reference", JStr (make_reference hash now email));
         ("callback_url",
            py_or callback_url (JStr "http://127.0.0.1:5000/payment/success"));
         ("metadata",
            JObj [ ("plan_type", plan_type);
                   ("platform", JStr "eduhealth");
                   ("custom_fields",
                      JArr [ JObj [ ("display_name", JStr "Plan Type");
                                    ("variable_name", JStr "plan_type");
                                    ("value", plan_type) ] ]) ]);
         ("channels",
            JArr [ JStr "card"; JStr "bank"; JStr "ussd"; JStr "qr";
                   JStr "mobile_money"; JStr "bank_transfer" ]) ].

(** [PaystackPayment.initialize_transaction] (lines 16-65), called with a
    float amount.  The [error] entry of the first error dict is
    [str(response_data)] in the source; it holds the value itself here. *)
Definition initialize_transaction (self : PaystackPayment)
    (requests_post : string -> json -> http_outcome)
    (hash : string -> Z) (now : datetime)
    (email : string) (amount : Q) (plan_type callback_url : json)
    : result json :=
  let url := base_url ++ "/transaction/initialize" in
  let payload := initialize_payload hash now email amount plan_type callback_url in
  try_except_RequestException
    (response <- requests_post url payload ;;
     response_data <- response_json response ;;
     ok <- (if status_code response =? 200
            then s <- dict_get response_data "status" JNull ;; Return (truthy s)
            else Return false) ;;
     if ok then Return response_data
     else
       error_msg <- dict_get response_data "message" (JStr "Unknown error") ;;
       Return (JObj [ ("status", JBool false);
                      ("message", error_msg);
                      ("error", response_data) ]))
    (fun e =>
       Return (JObj [ ("status", JBool false);
                      ("message", JStr "Payment initialization failed");
                      ("error", JStr (str_exn e)) ])).

(** [PaystackPayment.verify_transaction] (lines 67-83) *)
Definition verify_transaction (self : PaystackPayment)
    (requests_get : string -> http_outcome) (reference : string)
    : result json :=
  let url := base_url ++ "/transaction/verify/" ++ reference in
  try_except_RequestException
    (response <- requests_get url ;;
     _ <- raise_for_status response ;;
     response_json response)
    (fun e =>
       Return (JObj [ ("status", JBool false);
                      ("message", JStr "Payment verification failed");
                      ("error", JStr (str_exn e)) ])).

(** [PaystackPayment.verify_webhook_signature] (lines 137-146) *)
Definition verify_webhook_signature (self : PaystackPayment)
    (payload : list byte) (signature : option string) : result bool :=
  let computed_signature :=
    SHA512.hexdigest (encode_utf8 (secret_key self)) payload in
  compare_digest computed_signature signature.

(** The class has no method [verify_webhook]: looking the attribute up, as
    [paystack_webhook] does ([src/app.py], line 484), raises. *)
Definition verify_webhook (self : PaystackPayment)
    (payload : list byte) (signature : option string) : result bool :=
  Raise (AttributeError
           "'PaystackPayment' object has no attribute 'verify_webhook'").

(** The process environment, as far as [init_paystack_payment] reads it. *)
Record Env : Type := mkEnv {
  PAYSTACK_PUBLIC_KEY : option string;
  PAYSTACK_SECRET_KEY : option string
}.

(** [not os.getenv(name)]: the variable is unset or empty. *)
Definition env_missing (v : option string) : bool :=
  match v with
  | None => true
  | Some s => String.eqb s EmptyString
  end.

(** [os.getenv(name)] once it is known to be set. *)
Definition getenv_str (v : option string) : string :=
  match v with
  | Some s => s
  | None => EmptyString
  end.

(** [init_paystack_payment] (lines 168-181) *)
Definition init_paystack_payment (env : Env) : result PaystackPayment :=
  if env_missing (PAYSTACK_PUBLIC_KEY env)
     || env_missing (PAYSTACK_SECRET_KEY env)
  then Raise (ValueError "Missing Paystack API keys in environment variables")
  else Return {| public_key := getenv_str (PAYSTACK_PUBLIC_KEY env);
                 secret_key := getenv_str (PAYSTACK_SECRET_KEY env) |}.

(** ** Values bound to SQL text columns *)

(** A Python value from JSON bound to a text column of SQLite: a string is
    stored as it is, a number as its decimal text, [None] as NULL; a list or
    a dict cannot be bound and the statement fails. *)
Definition bind_text (v : json) : result (option string) :=
  match v with
  | JNull => Return None
  | JStr s => Return (Some s)
  | JInt z => Return (Some (str_int z))
  | JBool b => Return (Some (if b then "1" else "0"))
  | JArr _ | JObj _ =>
      Raise (OtherException "Error binding parameter: type is not supported")
  end.

(** [x / 100] for a value from JSON ([True] and [False] are 1 and 0). *)
Definition div_100 (v : json) : result Q :=
  match v with
  | JInt z => Return (inject_Z z / 100)%Q
  | JBool b => Return (inject_Z (if b then 1 else 0) / 100)%Q
  | _ => Raise (TypeError "unsupported operand type(s) for /")
  end.

(** [User.query.filter_by(email=v).first()] *)
Definition first_user_by_email (v : json) (d : DB) : result (option User) :=
  e <- bind_text v ;;
  Return (match e with
          | Some s => first (by_email s) (users d)
          | None => None
          end).

(** [PaymentTransaction.query.filter_by(paystack_reference=v).first()] with
    a value from JSON. *)
Definition first_payment_by_reference (v : json) (d : DB)
    : result (option PaymentTransaction) :=
  r <- bind_text v ;;
  Return (match r with
          | Some s => first (by_reference s) (payment_transactions d)
          | None => None
          end).

(** ** Requests and responses *)

Inductive body : Type :=
| jsonify (v : json)
| render_template (name : string) (context : list (string * bool))
| error_page.

(** What a view returns: the body and the HTTP status ([200] when the view
    names none). *)
Record response : Type := mkResponse' {
  response_body : body;
  response_code : Z
}.

(** An exception no handler of the view caught: Flask answers with the
    status of an [HTTPException], and with 500 for any other. *)
Definition unhandled (e : exn) : response :=
  match e with
  | HTTPException c _ => {| response_body := error_page; response_code := c |}
  | _ => {| response_body := error_page; response_code := 500 |}
  end.

(** The inbound webhook request: the signature header, the body as it came
    ([request.get_data()]) and what [request.get_json()] does with it. *)
Record Request : Type := mkRequest {
  X_Paystack_Signature : option string;
  get_data : list byte;
  get_json : result json
}.

Definition error_dict (msg : string) : json := JObj [ ("error", JStr msg) ].

(** [payment.user]: the row the foreign key names; [None] has no attribute
    to assign. *)
Definition payment_user (p : PaymentTransaction) (d : DB) : result User :=
  match first (by_id (user_id p)) (users d) with
  | Some u => Return u
  | None =>
      Raise (AttributeError
               "'NoneType' object has no attribute 'subscription_type'")
  end.

(** The two writes of a success transition, as [payment_success] and
    [paystack_webhook] make them on the row [filter_by(paystack_reference=
    reference).first()] returned: the status, then the subscription of
    [payment.user]. *)
Definition complete_payment (utcnow : timestamp) (reference : string)
    (p : PaymentTransaction) (d : DB) : result DB :=
  u <- payment_user p d ;;
  let expires := utcnow + timedelta_days (plan_days (plan_type p)) in
  Return {| users := update_first (by_id (id u)) (set_premium expires) (users d);
            payment_transactions :=
              update_first (by_reference reference) (set_status completed)
                           (payment_transactions d) |}.

(** [verification.get('status') and verification['data']['status'] == 'success'] *)
Definition gateway_says_success (verification : json) : result bool :=
  s <- dict_get verification "status" JNull ;;
  if truthy s then
    data <- getitem verification "data" ;;
    st <- getitem data "status" ;;
    Return (eq_str st "success")
  else Return false.

(** ** The request handlers of [src/app.py] *)

(** [payment_success] (lines 450-473).  [reference] is
    [request.args.get('reference')]. *)
Definition payment_success (paystack : option PaystackPayment)
    (requests_get : string -> http_outcome) (utcnow : timestamp)
    (reference : option string) (d : DB) : response * DB :=
  let payment_error :=
    {| response_body := render_template "index.html" [("payment_error", true)];
       response_code := 200 |} in
  let payment_ok :=
    {| response_body := render_template "index.html" [("payment_success", true)];
       response_code := 200 |} in
  match reference, paystack with
  | Some reference, Some paystack =>
      if String.eqb reference EmptyString then (payment_error, d)
      else
        try_except_Exception
          (verification <- verify_transaction paystack requests_get reference ;;
           ok <- gateway_says_success verification ;;
           if ok then
             match first (by_reference reference) (payment_transactions d) with
             | Some payment =>
                 d' <- complete_payment utcnow reference payment d ;;
                 Return (payment_ok, d')
             | None => Return (payment_ok, d)
             end
           else Return (payment_error, d))
          (fun r => r)
          (fun e => (unhandled e, d))
  | _, _ => (payment_error, d)
  end.

(** [paystack_webhook] (lines 475-509), the first view registered for
    [/api/payment/webhook]. *)
Definition paystack_webhook (paystack : option PaystackPayment)
    (utcnow : timestamp) (request : Request) (d : DB) : response * DB :=
  let invalid :=
    {| response_body := jsonify (error_dict "Invalid webhook");
       response_code := 400 |} in
  match paystack with
  | None =>
      ({| response_body := jsonify (error_dict "Payment system not configured");
          response_code := 500 |}, d)
  | Some paystack =>
      try_except_Exception
        (let signature := X_Paystack_Signature request in
         let payload := get_data request in
         valid <- verify_webhook paystack payload signature ;;
         if valid then
           data <- get_json request ;;
           event <- getitem data "event" ;;
           if eq_str event "charge.success" then
             inner <- getitem data "data" ;;
             reference <- getitem inner "reference" ;;
             r <- bind_text reference ;;
             match r with
             | Some r =>
                 match first (by_reference r) (payment_transactions d) with
                 | Some payment =>
                     d' <- complete_payment utcnow r payment d ;;
                     Return ({| response_body :=
                                  jsonify (JObj [("status", JStr "success")]);
                                response_code := 200 |}, d')
                 | None => Return (invalid, d)
                 end
             | None => Return (invalid, d)
             end
           else Return (invalid, d)
         else Return (invalid, d))
        (fun r => r)
        (fun e =>
           ({| response_body := jsonify (error_dict "Webhook processing failed");
               response_code := 500 |}, d))
  end.

(** [verify_payment] (lines 511-550).  The view is [login_required]: it runs
    for a logged-in [current_user], a row of [users].  The [expires] entry of
    the answer is [isoformat()] text in the source; it holds the timestamp
    here. *)
Definition verify_payment (paystack : option PaystackPayment)
    (requests_get : string -> http_outcome) (utcnow : timestamp)
    (current_user : User) (reference : string) (d : DB) : response * DB :=
  let failed_response :=
    {| response_body := jsonify (error_dict "Payment verification failed");
       response_code := 400 |} in
  match paystack with
  | None =>
      ({| response_body := jsonify (error_dict "Payment system not configured");
          response_code := 500 |}, d)
  | Some paystack =>
      try_except_Exception
        (response <- verify_transaction paystack requests_get reference ;;
         ok <- gateway_says_success response ;;
         if ok then
           match first (by_reference_and_user reference (id current_user))
                       (payment_transactions d) with
           | Some payment =>
               let expires :=
                 if is_annual (plan_type payment)
                 then utcnow + timedelta_days 365
                 else utcnow + timedelta_days 30 in
               Return
                 ({| response_body :=
                       jsonify
                         (JObj [ ("message",
                                    JStr "Payment verified and subscription activated!");
                                 ("subscription_type", JStr "premium");
                                 ("expires", JInt expires) ]);
                     response_code := 200 |},
                  {| users :=
                       update_first (by_id (id current_user))
                                    (set_premium expires) (users d);
                     payment_transactions :=
                       update_first
                         (by_reference_and_user reference (id current_user))
                         (set_status completed) (payment_transactions d) |})
           | None => Return (failed_response, d)
           end
         else Return (failed_response, d))
        (fun r => r)
        (fun e =>
           ({| response_body := jsonify (error_dict "Payment verification failed");
               response_code := 500 |}, d))
  end.

(** [99.99 if plan_type == 'annual' else 9.99] (line 420) *)
Definition plan_amount (plan_type : json) : Q :=
  if eq_str plan_type "annual" then (9999 # 100)%Q else (999 # 100)%Q.

(** [initialize_payment] (lines 411-448), [login_required].  [data] is
    [request.get_json()]. *)
Definition initialize_payment (paystack : option PaystackPayment)
    (requests_post : string -> json -> http_outcome)
    (hash : string -> Z) (now : datetime)
    (current_user : User) (data : result json) (d : DB) : response * DB :=
  match paystack with
  | None =>
      ({| response_body := jsonify (error_dict "Payment system not configured");
          response_code := 500 |}, d)
  | Some paystack =>
      try_except_Exception
        (data <- data ;;
         plan_type <- dict_get data "plan_type" (JStr "monthly") ;;
         Return (data, plan_type))
        (fun '(data, plan_type) =>
           let amount := plan_amount plan_type in
           try_except_Exception
             (callback_url <- dict_get data "callback_url" JNull ;;
              response <- initialize_transaction paystack requests_post hash now
                            (email current_user) amount plan_type callback_url ;;
              s <- dict_get response "status" JNull ;;
              if truthy s then
                rdata <- getitem response "data" ;;
                reference <- getitem rdata "reference" ;;
                r <- bind_text reference ;;
                p <- bind_text plan_type ;;
                match r with
                | Some r =>
                    d' <- insert_transaction
                            {| user_id := id current_user;
                               paystack_reference := r;
                               amount := amount;
                               currency := "USD";
                               status := pending;
                               plan_type := p |} d ;;
                    Return ({| response_body := jsonify response;
                               response_code := 200 |}, d')
                | None =>
                    Raise (IntegrityError
                             "NOT NULL constraint failed: payment_transactions.paystack_reference")
                end
              else
                m <- dict_get response "message"
                       (JStr "Payment initialization failed") ;;
                Return ({| response_body := jsonify (JObj [ ("error", m) ]);
                           response_code := 400 |}, d))
             (fun r => r)
             (fun e =>
                ({| response_body :=
                      jsonify (error_dict "Payment initialization failed");
                    response_code := 500 |}, d)))
        (fun e => (unhandled e, d))
  end.

(** ** The webhook handler of [src/paystack_integration.py] *)

Definition status_dict (s msg : string) : json :=
  JObj [ ("status", JStr s); ("message", JStr msg) ].

(** The fields the [charge.success] branch reads from [data] (lines
    199-203), in the order it reads them. *)
Record charge_fields : Type := mkChargeFields {
  cf_reference : json;
  cf_customer_email : json;
  cf_amount : Q;
  cf_plan_type : json
}.

Definition read_charge (data : json) : result charge_fields :=
  reference <- dict_get data "reference" JNull ;;
  customer <- dict_get data "customer" (JObj []) ;;
  customer_email <- dict_get customer "email" JNull ;;
  amount_minor <- dict_get data "amount" (JInt 0) ;;
  amount <- div_100 amount_minor ;;
  metadata <- dict_get data "metadata" (JObj []) ;;
  plan_type <- dict_get metadata "plan_type" (JStr "monthly") ;;
  Return {| cf_reference := reference;
            cf_customer_email := customer_email;
            cf_amount := amount;
            cf_plan_type := plan_type |}.

(** The [charge.success] branch (lines 197-230).  [None] when no user has
    the customer's email: the function then falls through to its last
    [return]. *)
Definition charge_success (utcnow : timestamp) (data : json) (d : DB)
    : result (option (json * DB)) :=
  c <- read_charge data ;;
  user <- first_user_by_email (cf_customer_email c) d ;;
  match user with
  | Some user =>
      r <- bind_text (cf_reference c) ;;
      p <- bind_text (cf_plan_type c) ;;
      match r with
      | Some r =>
          d' <- insert_transaction
                  {| user_id := id user;
                     paystack_reference := r;
                     amount := cf_amount c;
                     currency := "USD";
                     status := completed;
                     plan_type := p |} d ;;
          let expires :=
            if eq_str (cf_plan_type c) "annual"
            then utcnow + timedelta_days 365
            else utcnow + timedelta_days 30 in
          Return (Some (status_dict "success" "Subscription activated",
                        {| users := update_first (by_id (id user))
                                      (set_premium expires) (users d');
                           payment_transactions := payment_transactions d' |}))
      | None =>
          Raise (IntegrityError
                   "NOT NULL constraint failed: payment_transactions.paystack_reference")
      end
  | None => Return None
  end.

(** The [charge.failed] branch (lines 232-244). *)
Definition charge_failed (data : json) (d : DB) : result (json * DB) :=
  reference <- dict_get data "reference" JNull ;;
  payment <- first_payment_by_reference reference d ;;
  match payment with
  | Some payment =>
      Return (status_dict "failed" "Payment failed",
              {| users := users d;
                 payment_transactions :=
                   update_first (by_reference (paystack_reference payment))
                                (set_status failed) (payment_transactions d) |})
  | None => Return (status_dict "failed" "Payment failed", d)
  end.

(** What follows the signature check (lines 194-244 and 250). *)
Definition dispatch (utcnow : timestamp) (webhook_data : json) (d : DB)
    : result (json * DB) :=
  let processed := JObj [ ("status", JStr "processed") ] in
  event <- dict_get webhook_data "event" JNull ;;
  data <- dict_get webhook_data "data" (JObj []) ;;
  if eq_str event "charge.success" then
    r <- charge_success utcnow data d ;;
    Return (match r with Some r => r | None => (processed, d) end)
  else if eq_str event "charge.failed" then charge_failed data d
  else Return (processed, d).

(** [handle_paystack_webhook] (lines 183-250): the dict it returns and the
    database after it. *)
Definition handle_paystack_webhook (env : Env) (utcnow : timestamp)
    (webhook_data : json) (signature : option string) (d : DB) : json * DB :=
  try_except_Exception
    (paystack <- init_paystack_payment env ;;
     let payload := encode_utf8 (dumps webhook_data) in
     valid <- verify_webhook_signature paystack payload signature ;;
     if negb valid then Return (status_dict "error" "Invalid signature", d)
     else dispatch utcnow webhook_data d)
    (fun r => r)
    (fun e => (status_dict "error" (str_exn e), d)).

(** [payment_webhook] ([src/app.py], lines 552-565), the second view
    registered for [/api/payment/webhook]. *)
Definition payment_webhook (paystack : option PaystackPayment) (env : Env)
    (utcnow : timestamp) (request : Request) (d : DB) : response * DB :=
  match paystack with
  | None =>
      ({| response_body := jsonify (error_dict "Payment system not configured");
          response_code := 500 |}, d)
  | Some _ =>
      let signature := X_Paystack_Signature request in
      match get_json request with
      | Raise e => (unhandled e, d)
      | Return webhook_data =>
          let '(result, d') :=
            handle_paystack_webhook env utcnow webhook_data signature d in
          ({| response_body := jsonify result; response_code := 200 |}, d')
      end
  end.

(** ** The handlers as one transition system *)

(** One inbound request to a payment view, with what the outside world
    answers while it is served. *)
Inductive operation : Type :=
| InitializePayment (requests_post : string -> json -> http_outcome)
    (hash : string -> Z) (now : datetime) (current_user : User)
    (data : result json)
| PaymentSuccess (requests_get : string -> http_outcome) (utcnow : timestamp)
    (reference : option string)
| PaystackWebhook (utcnow : timestamp) (request : Request)
| VerifyPayment (requests_get : string -> http_outcome) (utcnow : timestamp)
    (current_user : User) (reference : string)
| PaymentWebhook (env : Env) (utcnow : timestamp) (request : Request).

(** The view that serves the request, under the process-wide client
    [paystack] of [src/app.py] (lines 34-38). *)
Definition serve (paystack : option PaystackPayment) (o : operation) (d : DB)
    : response * DB :=
  match o with
  | InitializePayment requests_post hash now current_user data =>
      initialize_payment paystack requests_post hash now current_user data d
  | PaymentSuccess requests_get utcnow reference =>
      payment_success paystack requests_get utcnow reference d
  | PaystackWebhook utcnow request =>
      paystack_webhook paystack utcnow request d
  | VerifyPayment requests_get utcnow current_user reference =>
      verify_payment paystack requests_get utcnow current_user reference d
  | PaymentWebhook env utcnow request =>
      payment_webhook paystack env utcnow request d
  end.

(** The requests that reconcile a payment: every one but the initialization. *)
Definition reconciles (o : operation) : bool :=
  match o with
  | InitializePayment _ _ _ _ _ => false
  | _ => true
  end.

Definition terminal (s : Status) : bool :=
  match s with
  | pending => false
  | completed | failed => true
  end.

(** What serving one request may do to the ledger: nothing; set the status
    of the first row a query returned to [completed] or [failed]; or add a
    row whose reference no stored row holds. *)
Inductive ledger_step (before : list PaymentTransaction)
    : list PaymentTransaction -> Prop :=
| ledger_same : ledger_step before before
| ledger_settle (q : PaymentTransaction -> bool) (s : Status) :
    terminal s = true ->
    ledger_step before (update_first q (set_status s) before)
| ledger_insert (t : PaymentTransaction) :
    first (by_reference (paystack_reference t)) before = None ->
    ledger_step before (before ++ [t]).

(** What serving one request may do to the users: nothing, or make the first
    row with some id premium until some time. *)
Inductive users_step (before : list User) : list User -> Prop :=
| users_same : users_step before before
| users_upgrade (uid : string) (expires : timestamp) :
    users_step before (update_first (by_id uid) (set_premium expires) before).

(** ** A small deployment, used by the examples *)
Module Example.

Definition paystack : PaystackPayment :=
  {| public_key := "pk_test_1"; secret_key := "sk_test_1" |}.

Definition env : Env :=
  {| PAYSTACK_PUBLIC_KEY := Some "pk_test_1";
     PAYSTACK_SECRET_KEY := Some "sk_test_1" |}.

Definition alice : User :=
  {| id := "u1"; email := "alice@x.com";
     subscription_type := free; subscription_expires := None |}.

Definition bob : User :=
  {| id := "u2"; email := "bob@x.com";
     subscription_type := free; subscription_expires := None |}.

(** The row [initialize_payment] stores for a monthly plan. *)
Definition tx (reference : string) (s : Status) : PaymentTransaction :=
  {| user_id := "u1"; paystack_reference := reference;
     amount := (999 # 100)%Q; currency := "USD";
     status := s; plan_type := Some "monthly" |}.

Definition db (s : Status) : DB :=
  {| users := [alice; bob]; payment_transactions := [tx "R1" s] |}.

(** The gateway reports the payment as settled. *)
Definition gateway_success (url : string) : http_outcome :=
  Return {| status_code := 200;
            response_json :=
              Return (JObj [ ("status", JBool true);
                             ("data", JObj [ ("status", JStr "success");
                                             ("amount", JInt 17982) ]) ]) |}.

(** The body of a webhook delivery. *)
Definition charge (event reference customer_email : string)
    (metadata : list (string * json)) : json :=
  JObj [ ("event", JStr event);
         ("data", JObj [ ("reference", JStr reference);
                         ("amount", JInt 17982);
                         ("customer", JObj [ ("email", JStr customer_email) ]);
                         ("metadata", JObj metadata) ]) ].

(** The signature the gateway computes over the bytes it sends. *)
Definition sign (raw : list byte) : string :=
  SHA512.hexdigest (encode_utf8 (secret_key paystack)) raw.

(** A delivery whose body is the compact serialization of [v], signed by the
    gateway. *)
Definition delivery (v : json) : Request :=
  {| X_Paystack_Signature := Some (sign (encode_utf8 (dumps v)));
     get_data := encode_utf8 (dumps v);
     get_json := Return v |}.

Definition day : Z := 86400000000.

(** A row whose plan type is neither of the two the application offers. *)
Definition tx_weekly : PaymentTransaction :=
  {| user_id := "u1"; paystack_reference := "R1";
     amount := (999 # 100)%Q; currency := "USD";
     status := pending; plan_type := Some "weekly" |}.

Definition db_weekly : DB :=
  {| users := [alice; bob]; payment_transactions := [tx_weekly] |}.

(** The gateway accepts an initialization and echoes its reference. *)
Definition accepted (payload : json) : json :=
  JObj [ ("status", JBool true);
         ("message", JStr "Authorization URL created");
         ("data",
            JObj [ ("authorization_url", JStr "https://checkout.paystack.com/0");
                   ("reference",
                      match payload with
                      | JObj items =>
                          match assoc "reference" items with
                          | Some r => r
                          | None => JNull
                          end
                      | _ => JNull
                      end) ]) ].

Definition gateway_accepts (url : string) (payload : json) : http_outcome :=
  Return {| status_code := 200; response_json := Return (accepted payload) |}.

Definition hash (s : string) : Z := 424242.

Definition now : datetime := mkDatetime 2026 11 3 9 5 7 100.

End Example.

(** ** The premium gate ([src/app.py], lines 137-150) *)

(** [premium_required]: the decorated view [f] runs for a logged-in user
    whose subscription is not free and has not expired.  [current_user] is
    [None] for an anonymous visitor. *)
Definition premium_required (f : unit -> response) (utcnow : timestamp)
    (current_user : option User) : response :=
  match current_user with
  | None =>
      {| response_body := jsonify (error_dict "Authentication required");
         response_code := 401 |}
  | Some u =>
      match subscription_type u with
      | free =>
          {| response_body := jsonify (error_dict "Premium subscription required");
             response_code := 403 |}
      | premium =>
          match subscription_expires u with
          | Some expires =>
              if expires <? utcnow
              then {| response_body := jsonify (error_dict "Subscription expired");
                      response_code := 403 |}
              else f tt
          | None => f tt
          end
      end
  end.

(** The process-wide client of [src/app.py] (lines 34-38): [None] when
    [init_paystack_payment] raises [ValueError]. *)
Definition app_paystack (env : Env) : result (option PaystackPayment) :=
  match init_paystack_payment env with
  | Return p => Return (Some p)
  | Raise (ValueError _) => Return None
  | Raise e => Raise e
  end.

(** ** Courses ([src/app.py], lines 70-98 and 239-268) *)

Module Course.
Record t : Type := mk {
  id : string;
  title : string;
  description : option string;
  category : option string;
  difficulty_level : option string;
  estimated_hours : option Z;
  premium_required : option bool    (* default=False *)
}.
End Course.

Module LearningProgress.
Record t : Type := mk {
  user_id : string;
  course_id : string;
  progress_percentage : option Q    (* a float column, default=0.0 *)
}.
End LearningProgress.

(** One dict of [course_list]. *)
Record course_data : Type := mkCourseData {
  cd_id : string;
  cd_title : string;
  cd_description : option string;
  cd_category : option string;
  cd_difficulty_level : option string;
  cd_estimated_hours : option Z;
  cd_premium_required : option bool;
  cd_progress_percentage : option Q
}.

(** Truth value of a nullable boolean column. *)
Definition is_true (b : option bool) : bool :=
  match b with
  | Some true => true
  | _ => false
  end.

Definition is_free (u : User) : bool :=
  match subscription_type u with
  | free => true
  | premium => false
  end.

Definition by_user_and_course (uid cid : string) (p : LearningProgress.t) : bool :=
  String.eqb (LearningProgress.user_id p) uid
  && String.eqb (LearningProgress.course_id p) cid.

(** [progress.progress_percentage if progress else 0] *)
Definition progress_of (uid cid : string) (rows : list LearningProgress.t)
    : option Q :=
  match first (by_user_and_course uid cid) rows with
  | Some progress => LearningProgress.progress_percentage progress
  | None => Some 0%Q
  end.

(** [get_courses] (lines 239-268), [login_required]: the list it hands to
    [jsonify]. *)
Definition get_courses (current_user : User) (courses : list Course.t)
    (progress : list LearningProgress.t) : list course_data :=
  fold_left
    (fun course_list course =>
       if is_true (Course.premium_required course) && is_free current_user
       then course_list
       else
         (course_list
          ++ [ {| cd_id := Course.id course;
                  cd_title := Course.title course;
                  cd_description := Course.description course;
                  cd_category := Course.category course;
                  cd_difficulty_level := Course.difficulty_level course;
                  cd_estimated_hours := Course.estimated_hours course;
                  cd_premium_required := Course.premium_required course;
                  cd_progress_percentage :=
                    progress_of (id current_user) (Course.id course) progress |} ])%list)
    courses [].

(** ** The wellness summary ([src/app.py], lines 100-110 and 304-331) *)

Module WellnessLog.
Record t : Type := mk {
  user_id : string;
  activity_type : string;
  duration_minutes : option Z;
  logged_at : timestamp
}.
End WellnessLog.

(** [log.duration_minutes or 0] *)
Definition minutes_or_0 (log : WellnessLog.t) : Z :=
  match WellnessLog.duration_minutes log with
  | Some m => m
  | None => 0
  end.

(** The query of lines 308-312: the user's logs of the last seven days. *)
Definition last_week (utcnow : timestamp) (uid : string)
    (logs : list WellnessLog.t) : list WellnessLog.t :=
  let week_ago := utcnow - timedelta_days 7 in
  filter (fun log => String.eqb (WellnessLog.user_id log) uid
                     && (week_ago <=? WellnessLog.logged_at log)) logs.

(** One round of the loop of lines 319-324 on the dict [activity_breakdown]:
    the entry of [activity_type] is created when missing, then counted. *)
Fixpoint count_activity (activity_type : string) (minutes : Z)
    (breakdown : list (string * (Z * Z))) : list (string * (Z * Z)) :=
  match breakdown with
  | [] => [(activity_type, (0 + 1, 0 + minutes))]
  | (k, (count, total)) :: rest =>
      if String.eqb k activity_type
      then (k, (count + 1, total + minutes)) :: rest
      else (k, (count, total)) :: count_activity activity_type minutes rest
  end.

Definition activity_breakdown (logs : list WellnessLog.t)
    : list (string * (Z * Z)) :=
  fold_left
    (fun breakdown log =>
       count_activity (WellnessLog.activity_type log) (minutes_or_0 log) breakdown)
    logs [].

(** [sum(log.duration_minutes or 0 for log in wellness_logs)] *)
Definition total_minutes (logs : list WellnessLog.t) : Z :=
  fold_left (fun acc log => acc + minutes_or_0 log) logs 0.

(** [get_wellness_summary] (lines 304-331), [login_required]: the dict it
    hands to [jsonify]. *)
Definition get_wellness_summary (utcnow : timestamp) (current_user : User)
    (logs : list WellnessLog.t) : json :=
  let wellness_logs := last_week utcnow (id current_user) logs in
  let total_activities := Z.of_nat (List.length wellness_logs) in
  JObj [ ("total_activities", JInt total_activities);
         ("total_minutes", JInt (total_minutes wellness_logs));
         ("activity_breakdown",
            JObj (map (fun '(k, (count, total)) =>
                         (k, JObj [ ("count", JInt count);
                                    ("total_minutes", JInt total) ]))
                      (activity_breakdown wellness_logs)));
         ("week_summary",
            JStr ("You've completed " ++ str_int total_activities
                  ++ " wellness activities this week!")) ].

(** ** The kind of a chat message ([src/app.py], lines 342-347) *)

(** [c.lower()] for a code point below 256. *)
Definition lower_char (c : ascii) : ascii :=
  let n := Z.of_nat (nat_of_ascii c) in
  if ((65 <=? n) && (n <=? 90))
     || ((192 <=? n) && (n <=? 222) && negb (n =? 215))
  then ascii_of_nat (Z.to_nat (n + 32))
  else c.

Fixpoint lower (s : string) : string :=
  match s with
  | EmptyString => EmptyString
  | String c rest => String (lower_char c) (lower rest)
  end.

(** [word in s] *)
Fixpoint contains (word s : string) : bool :=
  String.prefix word s
  || match s with
     | EmptyString => false
     | String _ rest => contains word rest
     end.

(** [any(word in s for word in words)] *)
Definition any_in (words : list string) (s : string) : bool :=
  existsb (fun word => contains word s) words.

(** [interaction_type] as [ai_chat] sets it for a non-empty message. *)
Definition interaction_type (user_message : string) : string :=
  if any_in ["learn"; "study"; "course"; "progress"] (lower user_message)
  then "learning"
  else if any_in ["stress"; "wellness"; "exercise"; "meditation"]
                 (lower user_message)
  then "wellness"
  else "general".

(** ** The other calls of the gateway client ([src/paystack_integration.py],
    lines 85-135 and 148-166) *)

From Stdlib Require Floats Uint63.

(** The binary64 number of a small integer. *)
Definition float_of_Z (z : Z) : PrimFloat.float :=
  PrimFloat.of_uint63 (Uint63.of_Z z).

(** The float Python reads in a price written with two decimals, such as
    [9.99]: the binary64 number nearest to [cents / 100]. *)
Definition float_of_cents (cents : Z) : PrimFloat.float :=
  PrimFloat.div (float_of_Z cents) (float_of_Z 100).

(** [int(x)] of a float: the fraction is dropped; infinities and NaN have no
    integer. *)
Definition int_of_float (x : PrimFloat.float) : result Z :=
  match FloatOps.Prim2SF x with
  | SpecFloat.S754_zero _ => Return 0
  | SpecFloat.S754_finite negative m e =>
      let magnitude :=
        if 0 <=? e then Z.shiftl (Z.pos m) e else Z.shiftr (Z.pos m) (- e) in
      Return (if negative then - magnitude else magnitude)
  | SpecFloat.S754_infinity _ =>
      Raise (OtherException "cannot convert float infinity to integer")
  | SpecFloat.S754_nan =>
      Raise (ValueError "cannot convert float NaN to integer")
  end.

(** Lines 29-30 of [initialize_transaction], in floating point as the source
    computes them: [amount_zar = amount * 18] and
    [amount_cents = int(amount_zar * 100)]. *)
Definition amount_cents (amount : PrimFloat.float) : result Z :=
  let amount_zar := PrimFloat.mul amount (float_of_Z 18) in
  int_of_float (PrimFloat.mul amount_zar (float_of_Z 100)).

(** Line 96 of [create_plan], for a float amount:
    [amount_kobo = int(float(amount) * 100)]. *)
Definition amount_kobo (amount : PrimFloat.float) : result Z :=
  int_of_float (PrimFloat.mul amount (float_of_Z 100)).

Definition failure_dict (message : string) (e : exn) : json :=
  JObj [ ("status", JBool false);
         ("message", JStr message);
         ("error", JStr (str_exn e)) ].

(** [PaystackPayment.create_plan] (lines 85-111), called with a float
    amount. *)
Definition create_plan (self : PaystackPayment)
    (requests_post : string -> json -> http_outcome)
    (name : json) (amount : PrimFloat.float) (interval : json) : result json :=
  let url := base_url ++ "/plan" in
  kobo <- amount_kobo amount ;;
  let payload := JObj [ ("name", name);
                        ("amount", JInt kobo);
                        ("interval", interval);
                        ("currency", JStr "USD") ] in
  try_except_RequestException
    (response <- requests_post url payload ;;
     _ <- raise_for_status response ;;
     response_json response)
    (fun e => Return (failure_dict "Plan creation failed" e)).

(** [PaystackPayment.create_subscription] (lines 113-135) *)
Definition create_subscription (self : PaystackPayment)
    (requests_post : string -> json -> http_outcome)
    (customer_code plan_code authorization_code : json) : result json :=
  let url := base_url ++ "/subscription" in
  let payload := JObj [ ("customer", customer_code);
                        ("plan", plan_code);
                        ("authorization", authorization_code) ] in
  try_except_RequestException
    (response <- requests_post url payload ;;
     _ <- raise_for_status response ;;
     response_json response)
    (fun e => Return (failure_dict "Subscription creation failed" e)).

(** [PaystackPayment.get_banks] (lines 148-166).  The transport takes the
    URL and the query parameters. *)
Definition get_banks (self : PaystackPayment)
    (requests_get : string -> json -> http_outcome) (country : json)
    : result json :=
  let url := base_url ++ "/bank" in
  let params := JObj [ ("country", country) ] in
  try_except_RequestException
    (response <- requests_get url params ;;
     _ <- raise_for_status response ;;
     response_json response)
    (fun e => Return (failure_dict "Failed to fetch banks" e)).

(** The prices from 0 to [n - 1] cents above [cents] all pass [check]. *)
Fixpoint all_prices (check : Z -> bool) (n : nat) (cents : Z) : bool :=
  match n with
  | O => true
  | S k => check cents && all_prices check k (cents + 1)
  end.

(** [amount_cents] of a price of [cents] is [18 * cents] or one less. *)
Definition cents_lose_at_most_one (cents : Z) : bool :=
  match amount_cents (float_of_cents cents) with
  | Return a => (a =? 18 * cents) || (a =? 18 * cents - 1)
  | Raise _ => false
  end.

(** [amount_kobo] of a price of [cents] is [cents] or one less. *)
Definition kobo_lose_at_most_one (cents : Z) : bool :=
  match amount_kobo (float_of_cents cents) with
  | Return a => (a =? cents) || (a =? cents - 1)
  | Raise _ => false
  end.

(** ** Rows for the examples of the other views *)
Module Sample.

(** The third and fourth sample courses of [init_db] (lines 614-629), and a
    course whose flag is NULL. *)
Definition web : Course.t :=
  Course.mk "c3" "Web Development Basics"
    (Some "HTML, CSS, and JavaScript fundamentals")
    (Some "Web Development") (Some "Beginner") (Some 35) (Some false).

Definition ml : Course.t :=
  Course.mk "c4" "Machine Learning Essentials"
    (Some "Core concepts of machine learning")
    (Some "AI/ML") (Some "Advanced") (Some 80) (Some true).

Definition draft : Course.t :=
  Course.mk "c9" "Draft" None None None None None.

Definition courses : list Course.t := [web; ml; draft].

Definition progress : list LearningProgress.t :=
  [ LearningProgress.mk "u1" "c3" (Some (1 # 2)%Q);
    LearningProgress.mk "u2" "c3" (Some (3 # 4)%Q) ].

Definition carol : User :=
  {| id := "u3"; email := "carol@x.com";
     subscription_type := premium;
     subscription_expires := Some (10 * Example.day) |}.

Definition logs : list WellnessLog.t :=
  [ WellnessLog.mk "u1" "meditation" (Some 10) (95 * Example.day);
    WellnessLog.mk "u1" "exercise" None (96 * Example.day);
    WellnessLog.mk "u2" "exercise" (Some 30) (97 * Example.day);
    WellnessLog.mk "u1" "meditation" (Some 15) (98 * Example.day);
    WellnessLog.mk "u1" "sleep" (Some 480) (80 * Example.day) ].

End Sample.

(** The logs of one activity type. *)
Definition of_type (a : string) (log : WellnessLog.t) : bool :=
  String.eqb (WellnessLog.activity_type log) a.

(** What the three calls promise about a request whose outcome is [outcome]:
    a network failure and an HTTP error status are answered with the failure
    dict of [message], any other response with its JSON, and no
    [RequestException] leaves the call. *)
Definition answers_failures_with (message : string) (outcome : http_outcome)
    (call : result json) : Prop :=
  (forall m, outcome = Raise (RequestException m) ->
     call = Return (failure_dict message (RequestException m)))
  /\ (forall resp, outcome = Return resp ->
        400 <= status_code resp < 600 ->
        exists m, call = Return (failure_dict message (RequestException m)))
  /\ (forall resp v, outcome = Return resp ->
        ~ (400 <= status_code resp < 600) ->
        response_json resp = Return v ->
        call = Return v)
  /\ (forall e, call = Raise e -> is_RequestException e = false).

(** * Properties *)

(** ** Rows and their updates *)

Lemma set_status_same (t : PaymentTransaction) : set_status (status t) t = t.
Proof. destruct t; reflexivity. Qed.

Lemma status_set_status (s : Status) (t : PaymentTransaction) :
  status (set_status s t) = s.
Proof. reflexivity. Qed.

Lemma by_reference_set_status (r : string) (s : Status) (t : PaymentTransaction) :
  by_reference r (set_status s t) = by_reference r t.
Proof. reflexivity. Qed.

Lemma by_id_set_premium (uid : string) (e : timestamp) (u : User) :
  by_id uid (set_premium e u) = by_id uid u.
Proof. reflexivity. Qed.

Section Rows.
Context {A : Type} (p : A -> bool) (f : A -> A).

Lemma first_Some (rows : list A) (r : A) :
  first p rows = Some r -> p r = true /\ In r rows.
Proof.
  unfold first. intros H. split.
  - apply (find_some _ _ H).
  - apply (find_some _ _ H).
Qed.

Lemma update_first_none (rows : list A) :
  first p rows = None -> update_first p f rows = rows.
Proof.
  unfold first. induction rows as [|r rest IH]; simpl; [reflexivity|].
  destruct (p r); [discriminate|]. intros H. now rewrite IH.
Qed.

Lemma update_first_fixed (rows : list A) (r : A) :
  first p rows = Some r -> f r = r -> update_first p f rows = rows.
Proof.
  unfold first. induction rows as [|x rest IH]; simpl; [discriminate|].
  destruct (p x).
  - intros [= ->] ->. reflexivity.
  - intros H1 H2. now rewrite IH.
Qed.

Lemma first_update_first (rows : list A) (r : A) :
  first p rows = Some r -> p (f r) = true ->
  first p (update_first p f rows) = Some (f r).
Proof.
  unfold first. induction rows as [|x rest IH]; simpl; [discriminate|].
  destruct (p x) eqn:E.
  - intros [= ->] H. simpl. now rewrite H.
  - intros H1 H2. simpl. rewrite E. now apply IH.
Qed.

Lemma length_update_first (rows : list A) :
  List.length (update_first p f rows) = List.length rows.
Proof.
  induction rows as [|x rest IH]; simpl; [reflexivity|].
  destruct (p x); simpl; congruence.
Qed.

(** A row keeps its place: it is left alone or it is the one rewritten. *)
Lemma nth_error_update_first (rows : list A) (i : nat) (r : A) :
  nth_error rows i = Some r ->
  nth_error (update_first p f rows) i = Some r
  \/ nth_error (update_first p f rows) i = Some (f r).
Proof.
  revert i. induction rows as [|x rest IH]; intros [|i]; simpl;
    try discriminate.
  - intros [= ->]. destruct (p r); simpl; auto.
  - intros H. destruct (p x); simpl; auto.
Qed.

Lemma map_update_first {B : Type} (g : A -> B) (rows : list A) :
  (forall r, g (f r) = g r) ->
  map g (update_first p f rows) = map g rows.
Proof.
  intros Hg. induction rows as [|x rest IH]; simpl; [reflexivity|].
  destruct (p x); simpl; now rewrite ?Hg, ?IH.
Qed.
End Rows.

(** The first row with the reference, when it is the user's, is also the
    first row with the reference and the user. *)
Lemma first_by_reference_and_user (reference uid : string)
    (rows : list PaymentTransaction) (t : PaymentTransaction) :
  first (by_reference reference) rows = Some t ->
  user_id t = uid ->
  first (by_reference_and_user reference uid) rows = Some t.
Proof.
  unfold first, by_reference_and_user, by_reference.
  induction rows as [|x rest IH]; simpl; [discriminate|].
  destruct (String.eqb (paystack_reference x) reference); simpl.
  - intros [= ->] ->. now rewrite String.eqb_refl.
  - auto.
Qed.

Lemma first_by_id_id (uid : string) (rows : list User) (u : User) :
  first (by_id uid) rows = Some u -> id u = uid.
Proof.
  intros H. apply first_Some in H as [H _].
  now apply String.eqb_eq in H.
Qed.

(** ** The poll paths *)

Lemma expires_plan_days (utcnow : timestamp) (p : option string) :
  (if is_annual p then utcnow + timedelta_days 365
   else utcnow + timedelta_days 30)
  = utcnow + timedelta_days (plan_days p).
Proof. unfold plan_days. now destruct (is_annual p). Qed.

(** [verify_payment] when the gateway reports success and the user's
    transaction is found. *)
Lemma verify_payment_found ps get utcnow cu R d v p :
  verify_transaction ps get R = Return v ->
  gateway_says_success v = Return true ->
  first (by_reference_and_user R (id cu)) (payment_transactions d) = Some p ->
  let expires := utcnow + timedelta_days (plan_days (plan_type p)) in
  verify_payment (Some ps) get utcnow cu R d
  = ({| response_body :=
          jsonify (JObj [ ("message",
                             JStr "Payment verified and subscription activated!");
                          ("subscription_type", JStr "premium");
                          ("expires", JInt expires) ]);
        response_code := 200 |},
     {| users := update_first (by_id (id cu)) (set_premium expires) (users d);
        payment_transactions :=
          update_first (by_reference_and_user R (id cu))
                       (set_status completed) (payment_transactions d) |}).
Proof.
  intros Hv Hok Hp. unfold verify_payment.
  rewrite Hv. simpl. rewrite Hok. simpl. rewrite Hp. simpl.
  now rewrite expires_plan_days.
Qed.

(** [verify_payment] when the gateway reports success and the user has no
    transaction with the reference. *)
Lemma verify_payment_not_found ps get utcnow cu R d v :
  verify_transaction ps get R = Return v ->
  gateway_says_success v = Return true ->
  first (by_reference_and_user R (id cu)) (payment_transactions d) = None ->
  verify_payment (Some ps) get utcnow cu R d
  = ({| response_body := jsonify (error_dict "Payment verification failed");
        response_code := 400 |}, d).
Proof.
  intros Hv Hok Hp. unfold verify_payment.
  rewrite Hv. simpl. rewrite Hok. simpl. now rewrite Hp.
Qed.

(** [payment_success] when the gateway reports success, the transaction is
    found and its user exists. *)
Lemma payment_success_found ps get utcnow R d v p u :
  String.eqb R EmptyString = false ->
  verify_transaction ps get R = Return v ->
  gateway_says_success v = Return true ->
  first (by_reference R) (payment_transactions d) = Some p ->
  first (by_id (user_id p)) (users d) = Some u ->
  let expires := utcnow + timedelta_days (plan_days (plan_type p)) in
  payment_success (Some ps) get utcnow (Some R) d
  = ({| response_body :=
          render_template "index.html" [("payment_success", true)];
        response_code := 200 |},
     {| users := update_first (by_id (id u)) (set_premium expires) (users d);
        payment_transactions :=
          update_first (by_reference R) (set_status completed)
                       (payment_transactions d) |}).
Proof.
  intros HR Hv Hok Hp Hu. unfold payment_success.
  rewrite HR.
  rewrite Hv. simpl. rewrite Hok. simpl. rewrite Hp. simpl.
  unfold complete_payment, payment_user. rewrite Hu. reflexivity.
Qed.

(** [payment_success] when the gateway reports success and no transaction
    has the reference: the success page, and nothing written. *)
Lemma payment_success_not_found ps get utcnow R d v :
  String.eqb R EmptyString = false ->
  verify_transaction ps get R = Return v ->
  gateway_says_success v = Return true ->
  first (by_reference R) (payment_transactions d) = None ->
  payment_success (Some ps) get utcnow (Some R) d
  = ({| response_body :=
          render_template "index.html" [("payment_success", true)];
        response_code := 200 |}, d).
Proof.
  intros HR Hv Hok Hp. unfold payment_success.
  rewrite HR.
  rewrite Hv. simpl. rewrite Hok. simpl. now rewrite Hp.
Qed.

Lemma gateway_success_says_success (R : string) :
  exists v, verify_transaction Example.paystack Example.gateway_success R
            = Return v
            /\ gateway_says_success v = Return true.
Proof. eexists. split; reflexivity. Qed.

(** ** C1: a second success transition *)

(** C1, the claim as stated fails: [verify_payment] served twice for the
    same reference, one day and then five days after the epoch.  The second
    call answers 200, the ledger still holds one completed row, and the
    user's expiry has moved from day 31 to day 35. *)
Lemma second_verify_moves_expiry :
  let serve1 := verify_payment (Some Example.paystack) Example.gateway_success
                  (1 * Example.day) Example.alice "R1" (Example.db pending) in
  let serve2 := verify_payment (Some Example.paystack) Example.gateway_success
                  (5 * Example.day) Example.alice "R1" (snd serve1) in
  map status (payment_transactions (snd serve1)) = [completed]
  /\ map subscription_expires (users (snd serve1))
     = [Some (31 * Example.day); None]
  /\ response_code (fst serve2) = 200
  /\ map status (payment_transactions (snd serve2)) = [completed]
  /\ map subscription_expires (users (snd serve2))
     = [Some (35 * Example.day); None].
Proof. vm_compute. repeat split; reflexivity. Qed.

(** C1 (amended): for a reference whose transaction is already completed, a
    further poll success transition ([verify_payment] by the owner, or
    [payment_success]) answers success and leaves the ledger exactly as it
    was, but it does write the owner's subscription again: premium, expiring
    the plan's duration after the time of this latest call. *)
Theorem success_again_keeps_ledger_rewrites_expiry ps get utcnow R d v p u :
  String.eqb R EmptyString = false ->
  verify_transaction ps get R = Return v ->
  gateway_says_success v = Return true ->
  first (by_reference R) (payment_transactions d) = Some p ->
  status p = completed ->
  first (by_id (user_id p)) (users d) = Some u ->
  let expires := utcnow + timedelta_days (plan_days (plan_type p)) in
  let d' := {| users := update_first (by_id (id u)) (set_premium expires) (users d);
               payment_transactions := payment_transactions d |} in
  response_code (fst (verify_payment (Some ps) get utcnow u R d)) = 200
  /\ snd (verify_payment (Some ps) get utcnow u R d) = d'
  /\ payment_success (Some ps) get utcnow (Some R) d
     = ({| response_body :=
             render_template "index.html" [("payment_success", true)];
           response_code := 200 |}, d')
  /\ first (by_id (id u)) (users d') = Some (set_premium expires u).
Proof.
  intros HR Hv Hok Hp Hst Hu expires d'.
  pose proof (first_by_id_id _ _ _ Hu) as Hid.
  assert (Hp' : first (by_reference_and_user R (id u)) (payment_transactions d)
                = Some p)
    by (apply first_by_reference_and_user; auto).
  assert (Hfix : set_status completed p = p)
    by (rewrite <- Hst; apply set_status_same).
  rewrite (verify_payment_found _ _ utcnow _ _ _ _ _ Hv Hok Hp').
  rewrite (payment_success_found _ _ utcnow _ _ _ _ _ HR Hv Hok Hp Hu).
  cbn [fst snd response_code].
  rewrite (update_first_fixed _ _ _ _ Hp' Hfix).
  rewrite (update_first_fixed _ _ _ _ Hp Hfix).
  repeat split.
  subst d'. cbn [users].
  rewrite <- Hid in Hu.
  apply (first_update_first _ _ _ _ Hu). rewrite by_id_set_premium.
  apply first_Some in Hu. tauto.
Qed.

Lemma success_again_keeps_ledger_rewrites_expiry_witness :
  let d := Example.db completed in
  let expires := 7 * Example.day + timedelta_days 30 in
  let d' := {| users := update_first (by_id "u1") (set_premium expires) (users d);
               payment_transactions := payment_transactions d |} in
  response_code (fst (verify_payment (Some Example.paystack)
                        Example.gateway_success (7 * Example.day)
                        Example.alice "R1" d)) = 200
  /\ snd (verify_payment (Some Example.paystack) Example.gateway_success
            (7 * Example.day) Example.alice "R1" d) = d'
  /\ payment_success (Some Example.paystack) Example.gateway_success
       (7 * Example.day) (Some "R1") d
     = ({| response_body :=
             render_template "index.html" [("payment_success", true)];
           response_code := 200 |}, d')
  /\ first (by_id "u1") (users d') = Some (set_premium expires Example.alice).
Proof.
  apply (success_again_keeps_ledger_rewrites_expiry
           Example.paystack Example.gateway_success (7 * Example.day) "R1"
           (Example.db completed)
           (JObj [ ("status", JBool true);
                   ("data", JObj [ ("status", JStr "success");
                                   ("amount", JInt 17982) ]) ])
           (Example.tx "R1" completed) Example.alice);
    reflexivity.
Defined.

(** ** The signature check *)

Lemma isascii_hex (bs : list byte) : isascii (SHA512.hex bs) = true.
Proof.
  induction bs as [|b rest IH]; [reflexivity|].
  cbn [SHA512.hex isascii]. rewrite IH.
  destruct b; reflexivity.
Qed.

(** [verify_webhook_signature] accepts exactly the lower-case hex
    HMAC-SHA512 of the bytes it is given, keyed by the secret key. *)
Lemma verify_webhook_signature_true ps payload signature :
  verify_webhook_signature ps payload signature = Return true
  <-> signature = Some (SHA512.hexdigest (encode_utf8 (secret_key ps)) payload).
Proof.
  unfold verify_webhook_signature, compare_digest. split.
  - destruct signature as [s|]; [|discriminate].
    destruct (isascii s); [|discriminate].
    intros [= H]. apply String.eqb_eq in H. now subst.
  - intros ->. unfold SHA512.hexdigest. rewrite isascii_hex.
    now rewrite String.eqb_refl.
Qed.

Lemma handle_paystack_webhook_accepted env utcnow webhook_data signature d ps :
  init_paystack_payment env = Return ps ->
  verify_webhook_signature ps (encode_utf8 (dumps webhook_data)) signature
  = Return true ->
  handle_paystack_webhook env utcnow webhook_data signature d
  = match dispatch utcnow webhook_data d with
    | Return r => r
    | Raise e => (status_dict "error" (str_exn e), d)
    end.
Proof.
  intros Hps Hsig. unfold handle_paystack_webhook.
  rewrite Hps. cbn [bind]. rewrite Hsig. reflexivity.
Qed.

(** Whatever the delivery, a handler that does not reach [dispatch] writes
    nothing. *)
Lemma handle_paystack_webhook_cases env utcnow webhook_data signature d :
  snd (handle_paystack_webhook env utcnow webhook_data signature d) = d
  \/ exists r, dispatch utcnow webhook_data d = Return r
               /\ handle_paystack_webhook env utcnow webhook_data signature d = r.
Proof.
  unfold handle_paystack_webhook.
  destruct (init_paystack_payment env) as [ps|e]; cbn [bind try_except_Exception];
    [|now left].
  destruct (verify_webhook_signature ps _ signature) as [[|]|e];
    cbn [bind try_except_Exception negb]; try (now left).
  destruct (dispatch utcnow webhook_data d) as [r|e]; [right|now left].
  now exists r.
Qed.

(** ** The webhook branches *)

Lemma charge_failed_writes data d r d' :
  charge_failed data d = Return (r, d') ->
  r = status_dict "failed" "Payment failed"
  /\ users d' = users d
  /\ (d' = d
      \/ exists reference p,
           dict_get data "reference" JNull = Return reference
           /\ bind_text reference = Return (Some (paystack_reference p))
           /\ first (by_reference (paystack_reference p)) (payment_transactions d)
              = Some p
           /\ payment_transactions d'
              = update_first (by_reference (paystack_reference p))
                             (set_status failed) (payment_transactions d)).
Proof.
  unfold charge_failed, first_payment_by_reference.
  destruct (dict_get data "reference" JNull) as [reference|e]; [|discriminate].
  cbn [bind].
  destruct (bind_text reference) as [[s|]|e] eqn:Hb; cbn [bind]; try discriminate.
  - destruct (first (by_reference s) (payment_transactions d)) as [p|] eqn:Hp.
    + intros [= <- <-]. repeat split. right.
      assert (Hs : paystack_reference p = s).
      { apply first_Some in Hp as [Hp _]. now apply String.eqb_eq in Hp. }
      exists reference, p. rewrite Hs. auto.
    + intros [= <- <-]. auto.
  - intros [= <- <-]. auto.
Qed.

(** A [charge.success] delivery that wrote something found a user by the
    customer's email, added a completed row for the reference, which no row
    held before, and made that user premium from [utcnow]. *)
Lemma charge_success_writes utcnow data d r d' :
  charge_success utcnow data d = Return (Some (r, d')) ->
  exists c user reference plan,
    read_charge data = Return c
    /\ first_user_by_email (cf_customer_email c) d = Return (Some user)
    /\ bind_text (cf_reference c) = Return (Some reference)
    /\ bind_text (cf_plan_type c) = Return plan
    /\ first (by_reference reference) (payment_transactions d) = None
    /\ r = status_dict "success" "Subscription activated"
    /\ users d'
       = update_first (by_id (id user))
           (set_premium
              (utcnow + timedelta_days
                          (if eq_str (cf_plan_type c) "annual" then 365 else 30)))
           (users d)
    /\ payment_transactions d'
       = (payment_transactions d
          ++ [ {| user_id := id user; paystack_reference := reference;
                  amount := cf_amount c; currency := "USD";
                  status := completed; plan_type := plan |} ])%list.
Proof.
  unfold charge_success.
  destruct (read_charge data) as [c|e] eqn:Hc; [|discriminate]. cbn [bind].
  destruct (first_user_by_email (cf_customer_email c) d) as [[user|]|e] eqn:Hu;
    cbn [bind]; try discriminate.
  destruct (bind_text (cf_reference c)) as [[reference|]|e] eqn:Hr; cbn [bind];
    try discriminate.
  - destruct (bind_text (cf_plan_type c)) as [plan|e] eqn:Hp; cbn [bind];
      try discriminate.
    unfold insert_transaction. cbn [paystack_reference].
    destruct (existsb (by_reference reference) (payment_transactions d)) eqn:Hex;
      cbn [bind]; try discriminate.
    intros [= <- <-]. exists c, user, reference, plan.
    cbn [users payment_transactions].
    split; [reflexivity|]. split; [assumption|]. split; [assumption|].
    split; [assumption|]. split; [|split; [reflexivity|split; [|reflexivity]]].
    + unfold first.
      destruct (find (by_reference reference) (payment_transactions d))
        as [t|] eqn:Hf; [|reflexivity].
      apply find_some in Hf as [Hin Ht].
      assert (existsb (by_reference reference) (payment_transactions d) = true)
        by (apply existsb_exists; eauto).
      congruence.
    + now destruct (eq_str (cf_plan_type c) "annual").
  - destruct (bind_text (cf_plan_type c)); discriminate.
Qed.

(** ** What each handler may write *)

Ltac split_cases :=
  repeat (unfold bind, try_except_Exception;
          cbn [fst snd payment_transactions users];
          match goal with
          | |- context [match ?x with _ => _ end] =>
              lazymatch x with
              | context [match _ with _ => _ end] => fail
              | _ => destruct x eqn:?
              end
          end).

Create HintDb steps.
#[local] Hint Constructors ledger_step users_step : steps.
#[local] Hint Extern 1 (terminal _ = true) => reflexivity : steps.

Lemma complete_payment_steps utcnow reference p d d' :
  complete_payment utcnow reference p d = Return d' ->
  ledger_step (payment_transactions d) (payment_transactions d')
  /\ users_step (users d) (users d').
Proof.
  unfold complete_payment. destruct (payment_user p d) as [u|e]; [|discriminate].
  cbn [bind]. intros [= <-]. cbn [users payment_transactions].
  auto with steps.
Qed.

Lemma payment_success_steps paystack get utcnow reference d :
  let d' := snd (payment_success paystack get utcnow reference d) in
  ledger_step (payment_transactions d) (payment_transactions d')
  /\ users_step (users d) (users d').
Proof.
  unfold payment_success. split_cases; auto with steps.
  eapply complete_payment_steps; eassumption.
Qed.

Lemma paystack_webhook_steps paystack utcnow request d :
  let d' := snd (paystack_webhook paystack utcnow request d) in
  ledger_step (payment_transactions d) (payment_transactions d')
  /\ users_step (users d) (users d').
Proof.
  unfold paystack_webhook, verify_webhook. split_cases; auto with steps.
Qed.

Lemma verify_payment_steps paystack get utcnow cu reference d :
  let d' := snd (verify_payment paystack get utcnow cu reference d) in
  ledger_step (payment_transactions d) (payment_transactions d')
  /\ users_step (users d) (users d').
Proof.
  unfold verify_payment. split_cases; auto with steps.
Qed.

Lemma insert_transaction_steps t d d' :
  insert_transaction t d = Return d' ->
  ledger_step (payment_transactions d) (payment_transactions d')
  /\ users d' = users d.
Proof.
  unfold insert_transaction.
  destruct (existsb (by_reference (paystack_reference t)) (payment_transactions d))
    eqn:Hex; [discriminate|].
  intros [= <-]. cbn [users payment_transactions]. split; [|reflexivity].
  apply ledger_insert. unfold first.
  destruct (find (by_reference (paystack_reference t)) (payment_transactions d))
    as [x|] eqn:Hf; [|reflexivity].
  apply find_some in Hf as [Hin Hx].
  assert (existsb (by_reference (paystack_reference t)) (payment_transactions d)
          = true) by (apply existsb_exists; eauto).
  congruence.
Qed.

Lemma initialize_payment_steps paystack post hash now cu data d :
  let d' := snd (initialize_payment paystack post hash now cu data d) in
  ledger_step (payment_transactions d) (payment_transactions d')
  /\ users_step (users d) (users d').
Proof.
  unfold initialize_payment. split_cases; auto with steps.
  match goal with H : insert_transaction _ _ = Return _ |- _ =>
    apply insert_transaction_steps in H as [H1 H2] end.
  cbn [snd]. rewrite H2. auto with steps.
Qed.

Lemma dispatch_steps utcnow webhook_data d r :
  dispatch utcnow webhook_data d = Return r ->
  ledger_step (payment_transactions d) (payment_transactions (snd r))
  /\ users_step (users d) (users (snd r)).
Proof.
  unfold dispatch.
  destruct (dict_get webhook_data "event" JNull) as [event|]; [|discriminate].
  destruct (dict_get webhook_data "data" (JObj [])) as [data|]; [|discriminate].
  cbn [bind].
  destruct (eq_str event "charge.success").
  - destruct (charge_success utcnow data d) as [[[r' d']|]|] eqn:Hs;
      cbn [bind]; try discriminate; intros [= <-]; cbn [snd];
      auto with steps.
    apply charge_success_writes in Hs
      as (c & user & reference & plan & _ & _ & _ & _ & Hnew & _ & Hu & Ht).
    rewrite Hu, Ht. split; [|auto with steps].
    apply (ledger_insert _ {| user_id := id user; paystack_reference := reference;
                              amount := cf_amount c; currency := "USD";
                              status := completed; plan_type := plan |}).
    exact Hnew.
  - destruct (eq_str event "charge.failed").
    + destruct r as [r' d']. intros H.
      apply charge_failed_writes in H as (_ & Hu & [-> | (ref & p & _ & _ & _ & Ht)]);
        cbn [snd]; [auto with steps|].
      rewrite Hu, Ht. auto with steps.
    + intros [= <-]. cbn [snd]. auto with steps.
Qed.

Lemma handle_paystack_webhook_steps env utcnow webhook_data signature d :
  let d' := snd (handle_paystack_webhook env utcnow webhook_data signature d) in
  ledger_step (payment_transactions d) (payment_transactions d')
  /\ users_step (users d) (users d').
Proof.
  cbv zeta.
  destruct (handle_paystack_webhook_cases env utcnow webhook_data signature d)
    as [-> | (r & Hr & ->)]; [auto with steps|].
  eapply dispatch_steps; eassumption.
Qed.

Lemma payment_webhook_steps paystack env utcnow request d :
  let d' := snd (payment_webhook paystack env utcnow request d) in
  ledger_step (payment_transactions d) (payment_transactions d')
  /\ users_step (users d) (users d').
Proof.
  unfold payment_webhook.
  destruct paystack; [|cbn; auto with steps].
  destruct (get_json request) as [v|e]; [|cbn; auto with steps].
  pose proof (handle_paystack_webhook_steps env utcnow v
                (X_Paystack_Signature request) d) as H.
  destruct (handle_paystack_webhook env utcnow v (X_Paystack_Signature request) d).
  exact H.
Qed.

(** Every request is one step of the ledger and one step of the users. *)
Lemma serve_steps paystack o d :
  ledger_step (payment_transactions d) (payment_transactions (snd (serve paystack o d)))
  /\ users_step (users d) (users (snd (serve paystack o d))).
Proof.
  destruct o; cbn [serve].
  - apply initialize_payment_steps.
  - apply payment_success_steps.
  - apply paystack_webhook_steps.
  - apply verify_payment_steps.
  - apply payment_webhook_steps.
Qed.

(** ** Consequences of a ledger step *)

Lemma ledger_step_nth_error before after i t :
  ledger_step before after ->
  nth_error before i = Some t ->
  nth_error after i = Some t
  \/ nth_error after i = Some (set_status completed t)
  \/ nth_error after i = Some (set_status failed t).
Proof.
  intros [ | q s Hs | t' Hnew ] Hi.
  - auto.
  - destruct (nth_error_update_first q (set_status s) _ _ _ Hi) as [H|H];
      [auto|]. destruct s; [discriminate|auto|auto].
  - left. rewrite nth_error_app1; [assumption|].
    apply nth_error_Some. congruence.
Qed.

Lemma NoDup_snoc {A : Type} (l : list A) (a : A) :
  NoDup l -> ~ In a l -> NoDup (l ++ [a]).
Proof.
  induction 1 as [|x l Hx Hl IH]; intros Ha; cbn [app].
  - constructor; [intros []|constructor].
  - constructor.
    + rewrite in_app_iff. cbn [In]. intros [H|[H|[]]]; [auto|].
      apply Ha. now left.
    + apply IH. intros H. apply Ha. now right.
Qed.

Lemma ledger_step_NoDup before after :
  ledger_step before after ->
  NoDup (map paystack_reference before) ->
  NoDup (map paystack_reference after).
Proof.
  intros [ | q s Hs | t Hnew ] Hnd.
  - assumption.
  - now rewrite map_update_first.
  - rewrite map_app. cbn [map].
    apply NoDup_snoc; [assumption|].
    intros Hin. apply in_map_iff in Hin as (x & Hx & Hin).
    unfold first in Hnew.
    pose proof (find_none _ _ Hnew x Hin) as Hf.
    unfold by_reference in Hf. rewrite Hx, String.eqb_refl in Hf.
    discriminate.
Qed.

(** ** C4: the transitions of a transaction's status *)

(** C4, the claim as stated fails: a [charge.failed] delivery moves a
    completed transaction to failed, and a poll verify moves a failed one to
    completed. *)
Lemma terminal_status_is_overwritten :
  map status
    (payment_transactions
       (snd (serve (Some Example.paystack)
               (PaymentWebhook Example.env 0
                  (Example.delivery
                     (Example.charge "charge.failed" "R1" "alice@x.com" [])))
               (Example.db completed))))
  = [failed]
  /\ map status
       (payment_transactions
          (snd (serve (Some Example.paystack)
                  (VerifyPayment Example.gateway_success 0 Example.alice "R1")
                  (Example.db failed))))
     = [completed].
Proof. vm_compute. split; reflexivity. Qed.

Lemma nth_error_update_first_at {A : Type} (q : A -> bool) (f : A -> A)
    (rows : list A) (i : nat) (r : A) :
  nth_error rows i = Some r ->
  nth_error (update_first q f rows) i = Some r
  \/ (nth_error (update_first q f rows) i = Some (f r) /\ q r = true).
Proof.
  revert i. induction rows as [|x rest IH]; intros [|i]; cbn [nth_error update_first];
    try discriminate.
  - intros [= ->]. destruct (q r) eqn:E; cbn [nth_error]; auto.
  - intros H. destruct (q x); cbn [nth_error]; auto.
Qed.

(** What each view may do to the ledger, with its answer when it writes. *)
Lemma verify_payment_ledger paystack get utcnow cu R d :
  let out := verify_payment paystack get utcnow cu R d in
  payment_transactions (snd out) = payment_transactions d
  \/ (payment_transactions (snd out)
      = update_first (by_reference_and_user R (id cu)) (set_status completed)
                     (payment_transactions d)
      /\ (exists ps v, paystack = Some ps
                       /\ verify_transaction ps get R = Return v
                       /\ gateway_says_success v = Return true)
      /\ response_code (fst out) = 200).
Proof.
  unfold verify_payment. destruct paystack as [ps|]; [|now left].
  destruct (verify_transaction ps get R) as [v|e] eqn:Hv;
    cbn [bind try_except_Exception]; [|now left].
  destruct (gateway_says_success v) as [[|]|e] eqn:Hok;
    cbn [bind try_except_Exception]; try (now left).
  destruct (first _ _) as [p|]; cbn [fst snd payment_transactions]; [|now left].
  right. split; [reflexivity|]. split; [|reflexivity]. now exists ps, v.
Qed.

Lemma payment_success_ledger paystack get utcnow reference d :
  let out := payment_success paystack get utcnow reference d in
  payment_transactions (snd out) = payment_transactions d
  \/ exists R,
       reference = Some R
       /\ payment_transactions (snd out)
          = update_first (by_reference R) (set_status completed)
                         (payment_transactions d)
       /\ (exists ps v, paystack = Some ps
                        /\ verify_transaction ps get R = Return v
                        /\ gateway_says_success v = Return true)
       /\ fst out
          = {| response_body :=
                 render_template "index.html" [("payment_success", true)];
               response_code := 200 |}.
Proof.
  unfold payment_success.
  destruct reference as [R|]; [|now left].
  destruct paystack as [ps|]; [|now left].
  destruct (String.eqb R EmptyString); [now left|].
  destruct (verify_transaction ps get R) as [v|e] eqn:Hv;
    cbn [bind try_except_Exception]; [|now left].
  destruct (gateway_says_success v) as [[|]|e] eqn:Hok;
    cbn [bind try_except_Exception]; try (now left).
  destruct (first _ _) as [p|]; cbn [fst snd payment_transactions]; [|now left].
  unfold complete_payment. destruct (payment_user p d) as [u|e];
    cbn [bind fst snd payment_transactions]; [|now left].
  right. exists R. split; [reflexivity|]. split; [reflexivity|].
  split; [|reflexivity]. now exists ps, v.
Qed.

Lemma paystack_webhook_writes_nothing paystack utcnow request d :
  snd (paystack_webhook paystack utcnow request d) = d.
Proof.
  unfold paystack_webhook, verify_webhook. split_cases; reflexivity.
Qed.

Lemma initialize_payment_ledger paystack post hash now cu data d :
  let out := initialize_payment paystack post hash now cu data d in
  payment_transactions (snd out) = payment_transactions d
  \/ exists t, payment_transactions (snd out)
               = (payment_transactions d ++ [t])%list.
Proof.
  unfold initialize_payment. split_cases; auto.
  match goal with H : insert_transaction _ _ = Return _ |- _ =>
    unfold insert_transaction in H;
    destruct (existsb _ _); [discriminate|]; injection H as <- end.
  right. eexists. reflexivity.
Qed.

(** The second webhook view writes a status only for a [charge.failed]
    event, and answers it with the [failed] dict. *)
Lemma payment_webhook_ledger paystack env utcnow request d :
  let out := payment_webhook paystack env utcnow request d in
  payment_transactions (snd out) = payment_transactions d
  \/ (exists t, payment_transactions (snd out)
                = (payment_transactions d ++ [t])%list)
  \/ exists webhook_data event data reference p,
       get_json request = Return webhook_data
       /\ dict_get webhook_data "event" JNull = Return event
       /\ eq_str event "charge.failed" = true
       /\ dict_get webhook_data "data" (JObj []) = Return data
       /\ dict_get data "reference" JNull = Return reference
       /\ bind_text reference = Return (Some (paystack_reference p))
       /\ first (by_reference (paystack_reference p)) (payment_transactions d)
          = Some p
       /\ payment_transactions (snd out)
          = update_first (by_reference (paystack_reference p))
                         (set_status failed) (payment_transactions d)
       /\ fst out
          = {| response_body := jsonify (status_dict "failed" "Payment failed");
               response_code := 200 |}.
Proof.
  unfold payment_webhook.
  destruct paystack as [client|]; [|now left].
  destruct (get_json request) as [v|e]; [|now left].
  destruct (handle_paystack_webhook_cases env utcnow v
              (X_Paystack_Signature request) d) as [H | (r & Hr & H)].
  - destruct (handle_paystack_webhook env utcnow v _ d) as [r d'].
    cbn [snd] in *. subst d'. now left.
  - rewrite H. destruct r as [r d']. cbn [fst snd].
    unfold dispatch in Hr.
    destruct (dict_get v "event" JNull) as [event|] eqn:He; [|discriminate].
    destruct (dict_get v "data" (JObj [])) as [data|] eqn:Hd; [|discriminate].
    cbn [bind] in Hr.
    destruct (eq_str event "charge.success").
    + destruct (charge_success utcnow data d) as [[[r' d'']|]|] eqn:Hs;
        cbn [bind] in Hr; try discriminate; injection Hr as <- <-;
        [|now left].
      apply charge_success_writes in Hs
        as (c & user & reference & plan & _ & _ & _ & _ & _ & _ & _ & Ht).
      right. left. eexists. exact Ht.
    + destruct (eq_str event "charge.failed") eqn:Hf.
      * apply charge_failed_writes in Hr
          as (-> & _ & [-> | (reference & p & Href & Hb & Hp & Ht)]);
          [now left|].
        right. right. exists v, event, data, reference, p. auto 10.
      * injection Hr as <- <-. now left.
Qed.

(** C4 (amended): under every operation a stored transaction keeps its
    place and is left as it is or has its status set to completed or to
    failed, whatever the status was; no operation writes pending, so a
    terminal transaction stays terminal, but it may change from one terminal
    status to the other.  Which status is written depends on the request
    only: [initialize_payment] and [paystack_webhook] change no stored row;
    the poll paths [verify_payment] and [payment_success] write completed,
    only on a row that holds the polled reference (and, for
    [verify_payment], belongs to the caller), only after the gateway has
    reported success, and they answer 200 when they do; [payment_webhook]
    writes failed, only for a [charge.failed] event and only on a row that
    holds the reference of the delivery, and answers it with the [failed]
    dict, so a success signal changes no stored row.  A request that writes
    a status is thus never answered with an error. *)
Theorem status_is_kept_or_set_terminal paystack o d i t :
  nth_error (payment_transactions d) i = Some t ->
  let out := serve paystack o d in
  let after := payment_transactions (snd out) in
  (exists t', nth_error after i = Some t'
              /\ (status t' = pending -> t' = t)
              /\ (terminal (status t) = true -> terminal (status t') = true))
  /\ match o with
     | InitializePayment _ _ _ _ _ | PaystackWebhook _ _ =>
         nth_error after i = Some t
     | VerifyPayment get _ cu reference =>
         nth_error after i = Some t
         \/ (nth_error after i = Some (set_status completed t)
             /\ paystack_reference t = reference
             /\ user_id t = id cu
             /\ (exists ps v, paystack = Some ps
                              /\ verify_transaction ps get reference = Return v
                              /\ gateway_says_success v = Return true)
             /\ response_code (fst out) = 200)
     | PaymentSuccess get _ reference =>
         nth_error after i = Some t
         \/ (nth_error after i = Some (set_status completed t)
             /\ reference = Some (paystack_reference t)
             /\ (exists ps v,
                   paystack = Some ps
                   /\ verify_transaction ps get (paystack_reference t) = Return v
                   /\ gateway_says_success v = Return true)
             /\ fst out
                = {| response_body :=
                       render_template "index.html" [("payment_success", true)];
                     response_code := 200 |})
     | PaymentWebhook _ _ request =>
         nth_error after i = Some t
         \/ (nth_error after i = Some (set_status failed t)
             /\ (exists webhook_data event data reference,
                   get_json request = Return webhook_data
                   /\ dict_get webhook_data "event" JNull = Return event
                   /\ eq_str event "charge.failed" = true
                   /\ dict_get webhook_data "data" (JObj []) = Return data
                   /\ dict_get data "reference" JNull = Return reference
                   /\ bind_text reference = Return (Some (paystack_reference t)))
             /\ fst out
                = {| response_body :=
                       jsonify (status_dict "failed" "Payment failed");
                     response_code := 200 |})
     end.
Proof.
  intros Hi out after.
  assert (Happ : forall x, nth_error (payment_transactions d ++ [x]) i = Some t).
  { intros x. rewrite nth_error_app1; [assumption|].
    apply nth_error_Some. congruence. }
  assert (Hmatch :
    match o with
    | InitializePayment _ _ _ _ _ | PaystackWebhook _ _ =>
        nth_error after i = Some t
    | VerifyPayment get _ cu reference =>
        nth_error after i = Some t
        \/ (nth_error after i = Some (set_status completed t)
            /\ paystack_reference t = reference
            /\ user_id t = id cu
            /\ (exists ps v, paystack = Some ps
                             /\ verify_transaction ps get reference = Return v
                             /\ gateway_says_success v = Return true)
            /\ response_code (fst out) = 200)
    | PaymentSuccess get _ reference =>
        nth_error after i = Some t
        \/ (nth_error after i = Some (set_status completed t)
            /\ reference = Some (paystack_reference t)
            /\ (exists ps v,
                  paystack = Some ps
                  /\ verify_transaction ps get (paystack_reference t) = Return v
                  /\ gateway_says_success v = Return true)
            /\ fst out
               = {| response_body :=
                      render_template "index.html" [("payment_success", true)];
                    response_code := 200 |})
    | PaymentWebhook _ _ request =>
        nth_error after i = Some t
        \/ (nth_error after i = Some (set_status failed t)
            /\ (exists webhook_data event data reference,
                  get_json request = Return webhook_data
                  /\ dict_get webhook_data "event" JNull = Return event
                  /\ eq_str event "charge.failed" = true
                  /\ dict_get webhook_data "data" (JObj []) = Return data
                  /\ dict_get data "reference" JNull = Return reference
                  /\ bind_text reference = Return (Some (paystack_reference t)))
            /\ fst out
               = {| response_body :=
                      jsonify (status_dict "failed" "Payment failed");
                    response_code := 200 |})
    end).
  { subst after out.
    destruct o as [post hash now cu data|get utcnow reference|utcnow request
                  |get utcnow cu reference|env utcnow request]; cbn [serve].
    - destruct (initialize_payment_ledger paystack post hash now cu data d)
        as [-> | (x & ->)]; [assumption|apply Happ].
    - destruct (payment_success_ledger paystack get utcnow reference d)
        as [-> | (R & -> & -> & Hg & Hr)]; [now left|].
      destruct (nth_error_update_first_at (by_reference R)
                  (set_status completed) _ _ _ Hi) as [H|[H Hq]]; [now left|].
      unfold by_reference in Hq. apply String.eqb_eq in Hq.
      right. rewrite Hq. auto.
    - now rewrite paystack_webhook_writes_nothing.
    - destruct (verify_payment_ledger paystack get utcnow cu reference d)
        as [-> | (-> & Hg & Hr)]; [now left|].
      destruct (nth_error_update_first_at
                  (by_reference_and_user reference (id cu))
                  (set_status completed) _ _ _ Hi) as [H|[H Hq]]; [now left|].
      unfold by_reference_and_user in Hq.
      apply andb_true_iff in Hq as [Hq1 Hq2].
      apply String.eqb_eq in Hq1, Hq2. right. auto.
    - destruct (payment_webhook_ledger paystack env utcnow request d)
        as [-> | [(x & ->) | (v & event & data & reference & p & Hj & He & Hf
                              & Hd & Href & Hb & Hp & -> & Hr)]];
        [now left|left; apply Happ|].
      destruct (nth_error_update_first_at (by_reference (paystack_reference p))
                  (set_status failed) _ _ _ Hi) as [H|[H Hq]]; [now left|].
      right. split; [exact H|]. split; [|exact Hr].
      exists v, event, data, reference. repeat (split; [assumption|]).
      unfold by_reference in Hq. apply String.eqb_eq in Hq. now rewrite Hq. }
  split; [|exact Hmatch].
  assert (H : nth_error after i = Some t
              \/ nth_error after i = Some (set_status completed t)
              \/ nth_error after i = Some (set_status failed t)).
  { destruct o; tauto. }
  destruct H as [H|[H|H]]; eexists; (split; [exact H|]);
    split; intros; try reflexivity; try discriminate; assumption.
Qed.

Lemma status_is_kept_or_set_terminal_witness :
  let t := Example.tx "R1" failed in
  let out :=
    serve (Some Example.paystack)
      (VerifyPayment Example.gateway_success 0 Example.alice "R1")
      (Example.db failed) in
  let after := payment_transactions (snd out) in
  (exists t', nth_error after 0 = Some t'
              /\ (status t' = pending -> t' = t)
              /\ (terminal (status t) = true -> terminal (status t') = true))
  /\ (nth_error after 0 = Some t
      \/ (nth_error after 0 = Some (set_status completed t)
          /\ paystack_reference t = "R1"
          /\ user_id t = id Example.alice
          /\ (exists ps v,
                Some Example.paystack = Some ps
                /\ verify_transaction ps Example.gateway_success "R1" = Return v
                /\ gateway_says_success v = Return true)
          /\ response_code (fst out) = 200)).
Proof.
  apply (status_is_kept_or_set_terminal (Some Example.paystack)
           (VerifyPayment Example.gateway_success 0 Example.alice "R1")
           (Example.db failed) 0%nat (Example.tx "R1" failed)).
  reflexivity.
Defined.

(** ** C9: the failure signal *)

(** C9, the claim as stated fails: a [charge.failed] delivery for a
    completed transaction sets it to failed, though it was not pending.  The
    users are as before. *)
Lemma failure_signal_fails_a_completed_transaction :
  let v := Example.charge "charge.failed" "R1" "alice@x.com" [] in
  let out := handle_paystack_webhook Example.env (3 * Example.day) v
               (Some (Example.sign (encode_utf8 (dumps v))))
               (Example.db completed) in
  map status (payment_transactions (Example.db completed)) = [completed]
  /\ fst out = status_dict "failed" "Payment failed"
  /\ map status (payment_transactions (snd out)) = [failed]
  /\ users (snd out) = users (Example.db completed).
Proof. vm_compute. repeat split; reflexivity. Qed.

(** C9 (amended): processing a failure signal (a delivery whose event is
    [charge.failed]) leaves every user as it was, and changes the ledger at
    most by setting the status of the first transaction that holds the
    reference of the delivery to failed; an accepted delivery does set it,
    whatever the status was. *)
Theorem failure_signal_keeps_users_sets_failed
    env utcnow webhook_data signature d :
  dict_get webhook_data "event" JNull = Return (JStr "charge.failed") ->
  let out := handle_paystack_webhook env utcnow webhook_data signature d in
  users (snd out) = users d
  /\ (payment_transactions (snd out) = payment_transactions d
      \/ exists data reference p,
           dict_get webhook_data "data" (JObj []) = Return data
           /\ dict_get data "reference" JNull = Return reference
           /\ bind_text reference = Return (Some (paystack_reference p))
           /\ first (by_reference (paystack_reference p)) (payment_transactions d)
              = Some p
           /\ payment_transactions (snd out)
              = update_first (by_reference (paystack_reference p))
                             (set_status failed) (payment_transactions d))
  /\ (forall ps data r p,
        init_paystack_payment env = Return ps ->
        verify_webhook_signature ps (encode_utf8 (dumps webhook_data)) signature
        = Return true ->
        dict_get webhook_data "data" (JObj []) = Return data ->
        dict_get data "reference" JNull = Return (JStr r) ->
        first (by_reference r) (payment_transactions d) = Some p ->
        out = (status_dict "failed" "Payment failed",
               {| users := users d;
                  payment_transactions :=
                    update_first (by_reference r) (set_status failed)
                                 (payment_transactions d) |})).
Proof.
  intros He out. subst out.
  assert (Hd : forall r0, dispatch utcnow webhook_data d = Return r0 ->
               exists data, dict_get webhook_data "data" (JObj []) = Return data
                            /\ charge_failed data d = Return r0).
  { unfold dispatch. rewrite He. cbn [bind].
    destruct (dict_get webhook_data "data" (JObj [])) as [data|e];
      [|discriminate].
    cbn. intros H. now exists data. }
  split; [|split].
  - destruct (handle_paystack_webhook_cases env utcnow webhook_data signature d)
      as [-> | (r0 & Hr & ->)]; [reflexivity|].
    apply Hd in Hr as (data & _ & Hr). destruct r0 as [r0 d0].
    now apply charge_failed_writes in Hr.
  - destruct (handle_paystack_webhook_cases env utcnow webhook_data signature d)
      as [-> | (r0 & Hr & ->)]; [now left|].
    apply Hd in Hr as (data & Hdata & Hr). destruct r0 as [r0 d0].
    apply charge_failed_writes in Hr
      as (_ & _ & [-> | (ref & p & Href & Hb & Hp & Ht)]); [now left|].
    right. exists data, ref, p. auto.
  - intros ps data r p Hps Hsig Hdata Hr Hp.
    rewrite (handle_paystack_webhook_accepted _ _ _ _ _ _ Hps Hsig).
    unfold dispatch. rewrite He, Hdata. cbn.
    unfold charge_failed, first_payment_by_reference. rewrite Hr. cbn.
    rewrite Hp. cbn.
    apply first_Some in Hp as [Hp _]. apply String.eqb_eq in Hp.
    now rewrite Hp.
Qed.

Lemma failure_signal_keeps_users_sets_failed_witness :
  let v := Example.charge "charge.failed" "R1" "alice@x.com" [] in
  let d := Example.db pending in
  let signature := Some (Example.sign (encode_utf8 (dumps v))) in
  let out := handle_paystack_webhook Example.env 0 v signature d in
  users (snd out) = users d
  /\ (payment_transactions (snd out) = payment_transactions d
      \/ exists data reference p,
           dict_get v "data" (JObj []) = Return data
           /\ dict_get data "reference" JNull = Return reference
           /\ bind_text reference = Return (Some (paystack_reference p))
           /\ first (by_reference (paystack_reference p)) (payment_transactions d)
              = Some p
           /\ payment_transactions (snd out)
              = update_first (by_reference (paystack_reference p))
                             (set_status failed) (payment_transactions d))
  /\ (forall ps data r p,
        init_paystack_payment Example.env = Return ps ->
        verify_webhook_signature ps (encode_utf8 (dumps v)) signature
        = Return true ->
        dict_get v "data" (JObj []) = Return data ->
        dict_get data "reference" JNull = Return (JStr r) ->
        first (by_reference r) (payment_transactions d) = Some p ->
        out = (status_dict "failed" "Payment failed",
               {| users := users d;
                  payment_transactions :=
                    update_first (by_reference r) (set_status failed)
                                 (payment_transactions d) |})).
Proof.
  apply (failure_signal_keeps_users_sets_failed Example.env 0
           (Example.charge "charge.failed" "R1" "alice@x.com" [])
           (Some (Example.sign
                    (encode_utf8
                       (dumps (Example.charge "charge.failed" "R1"
                                 "alice@x.com" [])))))
           (Example.db pending)).
  reflexivity.
Defined.

(** ** C6: the transaction reference *)

Lemma digit_inj (a b : Z) : digit a = digit b -> a mod 10 = b mod 10.
Proof.
  unfold digit. intros H. apply (f_equal nat_of_ascii) in H.
  pose proof (Z.mod_pos_bound a 10 eq_refl).
  pose proof (Z.mod_pos_bound b 10 eq_refl).
  rewrite !nat_ascii_embedding in H by lia. lia.
Qed.

Lemma pad2_inj (a b : Z) :
  0 <= a < 100 -> 0 <= b < 100 -> pad2 a = pad2 b -> a = b.
Proof.
  unfold pad2, char1. intros Ha Hb [= H1 H0].
  apply digit_inj in H1, H0. Z.div_mod_to_equations. lia.
Qed.

Lemma pad4_inj (a b : Z) :
  0 <= a < 10000 -> 0 <= b < 10000 -> pad4 a = pad4 b -> a = b.
Proof.
  unfold pad4, pad2, char1. intros Ha Hb [= H3 H2 H1 H0].
  apply digit_inj in H3, H2, H1, H0. Z.div_mod_to_equations. lia.
Qed.

Lemma str_int_inj (a b : Z) : str_int a = str_int b -> a = b.
Proof.
  unfold str_int. intros H.
  apply DecimalZ.to_int_inj.
  assert (Hz : forall z, NilZero.int_of_string (NilZero.string_of_int (Z.to_int z))
                         = Some (Z.to_int z)).
  { intros z. apply NilZero.isi; destruct z; cbn; try discriminate;
      intros [= E]; now apply DecimalPos.Unsigned.to_uint_nonnil in E. }
  apply (f_equal NilZero.int_of_string) in H. rewrite !Hz in H.
  now injection H.
Qed.

(** The reference, character by character. *)
Lemma make_reference_eq hash now e :
  make_reference hash now e
  = "eduhealth_"
    ++ pad4 (year now)
    ++ pad2 (month now) ++ pad2 (day now)
    ++ pad2 (hour now) ++ pad2 (minute now) ++ pad2 (second now)
    ++ String "_" (str_int (hash e mod 10000)).
Proof.
  unfold make_reference, strftime_YmdHMS, pad4, pad2, char1. reflexivity.
Qed.

Lemma make_reference_inj hash t1 t2 e1 e2 :
  valid_datetime t1 -> valid_datetime t2 ->
  make_reference hash t1 e1 = make_reference hash t2 e2 ->
  same_second t1 t2 /\ hash e1 mod 10000 = hash e2 mod 10000.
Proof.
  intros V1 V2. rewrite !make_reference_eq.
  unfold valid_datetime in V1, V2.
  intros H. cbn [append] in H.
  assert (Hy : pad4 (year t1) = pad4 (year t2)
               /\ pad2 (month t1) = pad2 (month t2)
               /\ pad2 (day t1) = pad2 (day t2)
               /\ pad2 (hour t1) = pad2 (hour t2)
               /\ pad2 (minute t1) = pad2 (minute t2)
               /\ pad2 (second t1) = pad2 (second t2)
               /\ str_int (hash e1 mod 10000) = str_int (hash e2 mod 10000)).
  { unfold pad4, pad2, char1 in *. cbn [append] in H.
    injection H as -> -> -> -> -> -> -> -> -> -> -> -> -> -> ->.
    repeat split; reflexivity. }
  destruct Hy as (Y & Mo & D & Ho & Mi & S & Hh).
  apply pad4_inj in Y; [|lia|lia].
  apply pad2_inj in Mo, D, Ho, Mi, S; try lia.
  apply str_int_inj in Hh.
  unfold same_second. auto 10.
Qed.

(** C6, the claim as stated fails: two calls for the same email within one
    second, 800 microseconds apart, build the same reference, whatever the
    hash function of the process is. *)
Lemma same_second_same_reference :
  let t1 := mkDatetime 2026 11 3 9 5 7 100 in
  let t2 := mkDatetime 2026 11 3 9 5 7 900 in
  (microsecond t1 =? microsecond t2) = false
  /\ (forall hash : string -> Z,
        make_reference hash t1 "alice@x.com"
        = make_reference hash t2 "alice@x.com").
Proof. split; reflexivity. Qed.

(** C6 (amended): the reference is made of the second of the call and of the
    email's hash modulo 10000, and of nothing else: two calls build the same
    reference exactly when they fall in the same second and their emails'
    hashes agree modulo 10000 (so always for one email within one second).
    The ledger still never holds two transactions with one reference: every
    operation keeps the stored references distinct, because the insert of a
    stored reference is refused. *)
Theorem reference_is_second_and_hash_residue hash t1 t2 e1 e2 :
  valid_datetime t1 -> valid_datetime t2 ->
  (make_reference hash t1 e1 = make_reference hash t2 e2
   <-> same_second t1 t2 /\ hash e1 mod 10000 = hash e2 mod 10000)
  /\ (forall paystack o d,
        NoDup (map paystack_reference (payment_transactions d)) ->
        NoDup (map paystack_reference
                 (payment_transactions (snd (serve paystack o d))))).
Proof.
  intros V1 V2. split; [split|].
  - now apply make_reference_inj.
  - intros [(Y & Mo & D & Ho & Mi & S) Hh].
    rewrite !make_reference_eq. now rewrite Y, Mo, D, Ho, Mi, S, Hh.
  - intros paystack o d. apply ledger_step_NoDup.
    apply (serve_steps paystack o d).
Qed.

Lemma reference_is_second_and_hash_residue_witness :
  let hash := fun _ : string => 1234567 in
  let t1 := mkDatetime 2026 11 3 9 5 7 100 in
  let t2 := mkDatetime 2026 11 3 9 5 8 100 in
  (make_reference hash t1 "alice@x.com" = make_reference hash t2 "bob@x.com"
   <-> same_second t1 t2
       /\ hash "alice@x.com" mod 10000 = hash "bob@x.com" mod 10000)
  /\ (forall paystack o d,
        NoDup (map paystack_reference (payment_transactions d)) ->
        NoDup (map paystack_reference
                 (payment_transactions (snd (serve paystack o d))))).
Proof.
  apply (reference_is_second_and_hash_residue (fun _ : string => 1234567)
           (mkDatetime 2026 11 3 9 5 7 100) (mkDatetime 2026 11 3 9 5 8 100)
           "alice@x.com" "bob@x.com");
    unfold valid_datetime; cbn; lia.
Defined.

(** ** The [success] answer of the webhook handler *)

(** The handler answers [success] only out of its [charge.success] branch. *)
Lemma handle_paystack_webhook_success env utcnow webhook_data signature d dw :
  handle_paystack_webhook env utcnow webhook_data signature d
  = (status_dict "success" "Subscription activated", dw) ->
  exists data,
    dict_get webhook_data "data" (JObj []) = Return data
    /\ charge_success utcnow data d
       = Return (Some (status_dict "success" "Subscription activated", dw)).
Proof.
  unfold handle_paystack_webhook.
  destruct (init_paystack_payment env) as [ps|e]; cbn [bind try_except_Exception];
    [|discriminate].
  destruct (verify_webhook_signature ps _ signature) as [[|]|e];
    cbn [bind try_except_Exception negb]; try discriminate.
  unfold dispatch.
  destruct (dict_get webhook_data "event" JNull) as [event|e]; cbn [bind];
    [|discriminate].
  destruct (dict_get webhook_data "data" (JObj [])) as [data|e]; cbn [bind];
    [|discriminate].
  destruct (eq_str event "charge.success").
  - destruct (charge_success utcnow data d) as [[[r' d']|]|e] eqn:Hs;
      cbn [bind]; try discriminate.
    intros [= -> ->]. now exists data.
  - destruct (eq_str event "charge.failed"); [|discriminate].
    destruct (charge_failed data d) as [[r' d']|e] eqn:Hf; [|discriminate].
    apply charge_failed_writes in Hf as (-> & _). discriminate.
Qed.

(** ** Reading a dict *)

(** [data.get(k, default)] on a dict. *)
Lemma dict_get_JObj items k default :
  dict_get (JObj items) k default
  = Return (match assoc k items with Some v => v | None => default end).
Proof. reflexivity. Qed.

(** ** C7: what leaves the gateway client *)

(** C7, the claim as stated fails: the gateway answers 200 with a JSON body
    that is not an object, and [initialize_transaction] raises
    [AttributeError] past its boundary. *)
Lemma initialize_transaction_raises :
  initialize_transaction Example.paystack
    (fun _ _ => Return {| status_code := 200;
                          response_json := Return (JArr []) |})
    Example.hash Example.now "bob@x.com" (999 # 100)%Q (JStr "monthly") JNull
  = Raise (AttributeError "object has no attribute 'get'").
Proof. reflexivity. Qed.

(** C7 (amended): the two client operations never let a
    [requests.exceptions.RequestException] past their boundary.  A network
    failure, an HTTP status from 400 to 599 in [verify_transaction], and in
    [initialize_transaction] a response with a JSON object whose code is not
    200 or whose [status] is falsy, all come back as a dict with [status]
    false and a [message]; on success the provider's response comes back.
    Exceptions of other classes are not caught. *)
Theorem gateway_client_contains_request_exceptions
    ps post get hash now email amount plan_type callback_url reference :
  let init :=
    initialize_transaction ps post hash now email amount plan_type callback_url in
  let verify := verify_transaction ps get reference in
  let payload :=
    initialize_payload hash now email amount plan_type callback_url in
  let url_i := base_url ++ "/transaction/initialize" in
  let url_v := base_url ++ "/transaction/verify/" ++ reference in
  let failure (message error : string) :=
    JObj [ ("status", JBool false); ("message", JStr message);
           ("error", JStr error) ] in
  (forall e, init = Raise e -> is_RequestException e = false)
  /\ (forall e, verify = Raise e -> is_RequestException e = false)
  /\ (forall m, post url_i payload = Raise (RequestException m) ->
        init = Return (failure "Payment initialization failed" m))
  /\ (forall m, get url_v = Raise (RequestException m) ->
        verify = Return (failure "Payment verification failed" m))
  /\ (forall resp, get url_v = Return resp ->
        400 <= status_code resp < 600 ->
        verify = Return (failure "Payment verification failed" "HTTPError"))
  /\ (forall resp items,
        post url_i payload = Return resp ->
        response_json resp = Return (JObj items) ->
        let entry k default :=
          match assoc k items with Some x => x | None => default end in
        init = Return
                 (if (status_code resp =? 200) && truthy (entry "status" JNull)
                  then JObj items
                  else JObj [ ("status", JBool false);
                              ("message", entry "message" (JStr "Unknown error"));
                              ("error", JObj items) ]))
  /\ (forall resp v, get url_v = Return resp ->
        ~ (400 <= status_code resp < 600) ->
        response_json resp = Return v ->
        verify = Return v).
Proof.
  cbv zeta. unfold initialize_transaction, verify_transaction.
  repeat split.
  - intros e. unfold try_except_RequestException.
    destruct (bind _ _) as [a|e']; [discriminate|].
    destruct (is_RequestException e') eqn:He; [discriminate|].
    now intros [= <-].
  - intros e. unfold try_except_RequestException.
    destruct (bind _ _) as [a|e']; [discriminate|].
    destruct (is_RequestException e') eqn:He; [discriminate|].
    now intros [= <-].
  - intros m ->. reflexivity.
  - intros m ->. reflexivity.
  - intros resp -> Hc. cbn [bind]. unfold raise_for_status.
    replace ((400 <=? status_code resp) && (status_code resp <? 600))
      with true by (symmetry; apply andb_true_iff; lia).
    reflexivity.
  - intros resp items -> Hj. cbn [bind]. rewrite Hj. cbn [bind dict_get].
    destruct (status_code resp =? 200); cbn [bind andb];
      [destruct (truthy _)|]; reflexivity.
  - intros resp v -> Hc Hj. cbn [bind]. unfold raise_for_status.
    replace ((400 <=? status_code resp) && (status_code resp <? 600))
      with false; [cbn [bind]; now rewrite Hj|].
    symmetry. apply andb_false_iff. lia.
Qed.

Lemma gateway_client_contains_request_exceptions_witness :
  initialize_transaction Example.paystack
    (fun _ _ => Raise (RequestException "Connection refused"))
    Example.hash Example.now "bob@x.com" (999 # 100)%Q (JStr "monthly") JNull
  = Return (JObj [ ("status", JBool false);
                   ("message", JStr "Payment initialization failed");
                   ("error", JStr "Connection refused") ])
  /\ verify_transaction Example.paystack
       (fun _ => Return {| status_code := 503;
                           response_json := Return JNull |}) "R1"
     = Return (JObj [ ("status", JBool false);
                      ("message", JStr "Payment verification failed");
                      ("error", JStr "HTTPError") ])
  /\ verify_transaction Example.paystack Example.gateway_success "R1"
     = Return (JObj [ ("status", JBool true);
                      ("data", JObj [ ("status", JStr "success");
                                      ("amount", JInt 17982) ]) ]).
Proof.
  pose proof (gateway_client_contains_request_exceptions Example.paystack
                (fun _ _ => Raise (RequestException "Connection refused"))
                (fun _ => Return {| status_code := 503;
                                    response_json := Return JNull |})
                Example.hash Example.now "bob@x.com" (999 # 100)%Q
                (JStr "monthly") JNull "R1") as H1.
  pose proof (gateway_client_contains_request_exceptions Example.paystack
                (fun _ _ => Raise (RequestException "Connection refused"))
                Example.gateway_success
                Example.hash Example.now "bob@x.com" (999 # 100)%Q
                (JStr "monthly") JNull "R1") as H2.
  cbv zeta in H1, H2.
  destruct H1 as (_ & _ & Hnet & _ & Hhttp & _ & _).
  destruct H2 as (_ & _ & _ & _ & _ & _ & Hok).
  split; [|split].
  - apply Hnet. reflexivity.
  - apply (Hhttp {| status_code := 503; response_json := Return JNull |}).
    + reflexivity.
    + cbn. lia.
  - apply (Hok {| status_code := 200;
                  response_json :=
                    Return (JObj [ ("status", JBool true);
                                   ("data", JObj [ ("status", JStr "success");
                                                   ("amount", JInt 17982) ]) ]) |}).
    + reflexivity.
    + cbn. lia.
    + reflexivity.
Defined.

(** ** The two webhook views *)

(** [paystack_webhook] calls a method the client does not have: with a
    configured client it answers 500 to every request and writes nothing. *)
Lemma paystack_webhook_answers_500 ps utcnow request d :
  paystack_webhook (Some ps) utcnow request d
  = ({| response_body := jsonify (error_dict "Webhook processing failed");
        response_code := 500 |}, d).
Proof. reflexivity. Qed.

(** [payment_webhook] answers 200 to every delivery whose body is JSON,
    whatever [handle_paystack_webhook] found. *)
Lemma payment_webhook_answers_200 ps env utcnow request d v :
  get_json request = Return v ->
  payment_webhook (Some ps) env utcnow request d
  = ({| response_body :=
          jsonify (fst (handle_paystack_webhook env utcnow v
                          (X_Paystack_Signature request) d));
        response_code := 200 |},
     snd (handle_paystack_webhook env utcnow v (X_Paystack_Signature request) d)).
Proof.
  intros H. unfold payment_webhook. rewrite H.
  now destruct (handle_paystack_webhook env utcnow v _ d).
Qed.

Lemma payment_webhook_answers_200_witness :
  let v := Example.charge "charge.failed" "R1" "alice@x.com" [] in
  let request := Example.delivery v in
  payment_webhook (Some Example.paystack) Example.env 0 request
    (Example.db pending)
  = ({| response_body :=
          jsonify (fst (handle_paystack_webhook Example.env 0 v
                          (X_Paystack_Signature request) (Example.db pending)));
        response_code := 200 |},
     snd (handle_paystack_webhook Example.env 0 v
            (X_Paystack_Signature request) (Example.db pending))).
Proof.
  apply (payment_webhook_answers_200 Example.paystack Example.env 0
           (Example.delivery
              (Example.charge "charge.failed" "R1" "alice@x.com" []))
           (Example.db pending)
           (Example.charge "charge.failed" "R1" "alice@x.com" [])).
  reflexivity.
Defined.

(** With the keys in the environment, [handle_paystack_webhook] goes on to
    the event exactly when the header is the hex HMAC-SHA512 of the compact
    serialization of the parsed body; the bytes that were received do not
    enter the check. *)
Lemma handle_paystack_webhook_checks_the_reserialization
    env ps utcnow webhook_data signature d :
  init_paystack_payment env = Return ps ->
  let expected :=
    SHA512.hexdigest (encode_utf8 (secret_key ps))
                     (encode_utf8 (dumps webhook_data)) in
  (signature = Some expected ->
   handle_paystack_webhook env utcnow webhook_data signature d
   = match dispatch utcnow webhook_data d with
     | Return r => r
     | Raise e => (status_dict "error" (str_exn e), d)
     end)
  /\ (signature <> Some expected ->
      snd (handle_paystack_webhook env utcnow webhook_data signature d) = d
      /\ exists m,
           fst (handle_paystack_webhook env utcnow webhook_data signature d)
           = status_dict "error" m).
Proof.
  intros Hps expected. split.
  - intros Hs. apply (handle_paystack_webhook_accepted _ _ _ _ _ _ Hps).
    now apply verify_webhook_signature_true.
  - intros Hs. unfold handle_paystack_webhook. rewrite Hps. cbn [bind].
    destruct (verify_webhook_signature ps _ signature) as [[|]|e] eqn:Hv;
      cbn [bind try_except_Exception negb fst snd].
    + apply verify_webhook_signature_true in Hv. contradiction.
    + split; [reflexivity|]. now eexists.
    + split; [reflexivity|]. now eexists.
Qed.

Lemma handle_paystack_webhook_checks_the_reserialization_witness :
  let v := Example.charge "charge.failed" "R1" "alice@x.com" [] in
  let expected := Example.sign (encode_utf8 (dumps v)) in
  let signature := Some "00" in
  (signature = Some expected ->
   handle_paystack_webhook Example.env 0 v signature (Example.db pending)
   = match dispatch 0 v (Example.db pending) with
     | Return r => r
     | Raise e => (status_dict "error" (str_exn e), Example.db pending)
     end)
  /\ (signature <> Some expected ->
      snd (handle_paystack_webhook Example.env 0 v signature
             (Example.db pending)) = Example.db pending
      /\ exists m,
           fst (handle_paystack_webhook Example.env 0 v signature
                  (Example.db pending))
           = status_dict "error" m).
Proof.
  apply (handle_paystack_webhook_checks_the_reserialization
           Example.env Example.paystack 0
           (Example.charge "charge.failed" "R1" "alice@x.com" [])
           (Some "00") (Example.db pending)).
  reflexivity.
Defined.

(** ** C2: a success signal for a reference the ledger does not hold *)

(** C2, at the failing input: the ledger holds no transaction for [R404];
    a signed [charge.success] delivery for it, naming bob's email, is
    answered [success], makes bob premium for a year and adds a completed
    row. *)
Lemma unknown_reference_upgrades_the_user_of_the_email :
  let v := Example.charge "charge.success" "R404" "bob@x.com"
             [("plan_type", JStr "annual")] in
  let d := Example.db pending in
  let out := handle_paystack_webhook Example.env (2 * Example.day) v
               (Some (Example.sign (encode_utf8 (dumps v)))) d in
  first (by_reference "R404") (payment_transactions d) = None
  /\ map subscription_type (users d) = [free; free]
  /\ fst out = status_dict "success" "Subscription activated"
  /\ map subscription_type (users (snd out)) = [free; premium]
  /\ map subscription_expires (users (snd out))
     = [None; Some (367 * Example.day)]
  /\ map (fun t => (paystack_reference t, user_id t, status t))
         (payment_transactions (snd out))
     = [("R1", "u1", pending); ("R404", "u2", completed)].
Proof. vm_compute. repeat split; reflexivity. Qed.

(** The views of [src/app.py] do refuse such a signal: with the gateway
    reporting success for a reference no row holds, [verify_payment] answers
    400 and writes nothing, and [payment_success] writes nothing. *)
Lemma poll_paths_leave_unknown_reference_alone ps get utcnow cu R d v :
  String.eqb R EmptyString = false ->
  verify_transaction ps get R = Return v ->
  gateway_says_success v = Return true ->
  first (by_reference R) (payment_transactions d) = None ->
  verify_payment (Some ps) get utcnow cu R d
  = ({| response_body := jsonify (error_dict "Payment verification failed");
        response_code := 400 |}, d)
  /\ snd (payment_success (Some ps) get utcnow (Some R) d) = d.
Proof.
  intros HR Hv Hok Hnone. split.
  - apply (verify_payment_not_found _ _ _ _ _ _ _ Hv Hok).
    unfold first in *. 
    destruct (find (by_reference_and_user R (id cu)) (payment_transactions d))
      as [t|] eqn:Hf; [|reflexivity].
    apply find_some in Hf as [Hin Ht].
    unfold by_reference_and_user in Ht. apply andb_true_iff in Ht as [Ht _].
    pose proof (find_none _ _ Hnone t Hin) as Hn. unfold by_reference in Hn.
    congruence.
  - now rewrite (payment_success_not_found _ _ utcnow _ _ _ HR Hv Hok Hnone).
Qed.

Lemma poll_paths_leave_unknown_reference_alone_witness :
  verify_payment (Some Example.paystack) Example.gateway_success 0
    Example.alice "R404" (Example.db pending)
  = ({| response_body := jsonify (error_dict "Payment verification failed");
        response_code := 400 |}, Example.db pending)
  /\ snd (payment_success (Some Example.paystack) Example.gateway_success 0
            (Some "R404") (Example.db pending))
     = Example.db pending.
Proof.
  apply (poll_paths_leave_unknown_reference_alone Example.paystack
           Example.gateway_success 0 Example.alice "R404" (Example.db pending)
           (JObj [ ("status", JBool true);
                   ("data", JObj [ ("status", JStr "success");
                                   ("amount", JInt 17982) ]) ]));
    reflexivity.
Defined.

(** ** C3: the bytes the signature is checked against *)

(** C3, at the failing input: the gateway signed the compact body; a line
    feed is appended to the bytes on their way.  The header is no longer the
    HMAC of the bytes received, yet the delivery is accepted and bob is
    upgraded.  A delivery signed over the very bytes received, line feed
    included, is refused. *)
Lemma altered_body_is_accepted :
  let v := Example.charge "charge.success" "R2" "bob@x.com"
             [("plan_type", JStr "monthly")] in
  let signed := encode_utf8 (dumps v) in
  let received := (signed ++ [x0a])%list in
  let altered :=
    {| X_Paystack_Signature := Some (Example.sign signed);
       get_data := received;
       get_json := Return v |} in
  let exact :=
    {| X_Paystack_Signature := Some (Example.sign received);
       get_data := received;
       get_json := Return v |} in
  let serve_it request :=
    payment_webhook (Some Example.paystack) Example.env 0 request
      (Example.db pending) in
  String.eqb (Example.sign signed) (Example.sign received) = false
  /\ response_body (fst (serve_it altered))
     = jsonify (status_dict "success" "Subscription activated")
  /\ map subscription_type (users (snd (serve_it altered))) = [free; premium]
  /\ response_body (fst (serve_it exact))
     = jsonify (status_dict "error" "Invalid signature")
  /\ snd (serve_it exact) = Example.db pending.
Proof. vm_compute. repeat split; reflexivity. Qed.

(** ** C8: the status code of a webhook answer *)

(** C8, at the failing input: a delivery with a wrong signature, and one
    without the header (a [TypeError] inside the handler).  [payment_webhook]
    answers both with 200; [paystack_webhook] answers the first with 500. *)
Lemma signature_failure_is_answered_200 :
  let v := Example.charge "charge.success" "R1" "alice@x.com" [] in
  let forged := {| X_Paystack_Signature := Some "00";
                   get_data := encode_utf8 (dumps v);
                   get_json := Return v |} in
  let unsigned := {| X_Paystack_Signature := None;
                     get_data := encode_utf8 (dumps v);
                     get_json := Return v |} in
  payment_webhook (Some Example.paystack) Example.env 0 forged
    (Example.db pending)
  = ({| response_body := jsonify (status_dict "error" "Invalid signature");
        response_code := 200 |}, Example.db pending)
  /\ payment_webhook (Some Example.paystack) Example.env 0 unsigned
       (Example.db pending)
     = ({| response_body :=
             jsonify (status_dict "error"
                        "unsupported operand types(s) or combination of types");
           response_code := 200 |}, Example.db pending)
  /\ paystack_webhook (Some Example.paystack) 0 forged (Example.db pending)
     = ({| response_body := jsonify (error_dict "Webhook processing failed");
           response_code := 500 |}, Example.db pending).
Proof. vm_compute. repeat split; reflexivity. Qed.

(** ** Further properties of the handlers *)

(** [verify_webhook_signature] returns [True] for one header only: the
    lower-case hex HMAC-SHA512, under the secret key, of the bytes passed. *)
Theorem verify_webhook_signature_accepts_exactly_the_hmac ps payload signature :
  verify_webhook_signature ps payload signature = Return true
  <-> signature = Some (SHA512.hexdigest (encode_utf8 (secret_key ps)) payload).
Proof. apply verify_webhook_signature_true. Qed.

Lemma users_step_map {B : Type} (g : User -> B) before after :
  (forall e u, g (set_premium e u) = g u) ->
  users_step before after -> map g after = map g before.
Proof.
  intros Hg [ | uid e ]; [reflexivity|].
  apply map_update_first. intros u. apply Hg.
Qed.

(** No operation adds, removes or renames a user: the ids and emails of the
    users are the same, in the same order, after every request. *)
Theorem users_keep_id_and_email paystack o d :
  map id (users (snd (serve paystack o d))) = map id (users d)
  /\ map email (users (snd (serve paystack o d))) = map email (users d).
Proof.
  destruct (serve_steps paystack o d) as [_ Hu].
  split.
  - apply (users_step_map id _ _ (fun _ _ => eq_refl) Hu).
  - apply (users_step_map email _ _ (fun _ _ => eq_refl) Hu).
Qed.

(** The invariant of the subscription fields: if every premium user has an
    expiry before a request, every premium user has one after it. *)
Theorem premium_has_expiry paystack o d :
  Forall (fun u => subscription_type u = premium ->
                   subscription_expires u <> None) (users d) ->
  Forall (fun u => subscription_type u = premium ->
                   subscription_expires u <> None)
         (users (snd (serve paystack o d))).
Proof.
  destruct (serve_steps paystack o d) as [_ [ | uid e ]]; [auto|].
  induction (users d) as [|u rest IH]; cbn [update_first]; [auto|].
  intros H. inversion H as [|? ? Hu Hrest]; subst.
  destruct (by_id uid u).
  - constructor; [discriminate|assumption].
  - constructor; auto.
Qed.

Lemma premium_has_expiry_witness :
  Forall (fun u => subscription_type u = premium ->
                   subscription_expires u <> None)
         (users (snd (serve (Some Example.paystack)
                        (VerifyPayment Example.gateway_success 0
                           Example.alice "R1")
                        (Example.db pending)))).
Proof.
  apply (premium_has_expiry (Some Example.paystack)
           (VerifyPayment Example.gateway_success 0 Example.alice "R1")
           (Example.db pending)).
  repeat constructor; discriminate.
Defined.

Lemma first_by_email_update (e uid : string) (x : timestamp) (rows : list User)
    (u : User) :
  first (by_email e) rows = Some u ->
  exists u', first (by_email e)
               (update_first (by_id uid) (set_premium x) rows) = Some u'
             /\ id u' = id u.
Proof.
  unfold first. induction rows as [|r rest IH]; cbn [find update_first];
    [discriminate|].
  destruct (by_id uid r) eqn:Hid; cbn [find].
  - unfold by_email at 1 3. cbn [email set_premium].
    destruct (String.eqb (email r) e).
    + intros [= <-]. now eexists.
    + intros H. now exists u.
  - destruct (by_email e r).
    + intros [= <-]. now eexists.
    + apply IH.
Qed.

(** A [charge.success] delivery that [handle_paystack_webhook] answered with
    [success] is refused when it is delivered again: the reference is now
    stored, the insert fails, the answer is [error] and nothing is written. *)
Theorem second_delivery_is_refused env utcnow utcnow' webhook_data signature d d1 :
  handle_paystack_webhook env utcnow webhook_data signature d
  = (status_dict "success" "Subscription activated", d1) ->
  handle_paystack_webhook env utcnow' webhook_data signature d1
  = (status_dict "error"
       "UNIQUE constraint failed: payment_transactions.paystack_reference", d1).
Proof.
  intros H. pose proof H as H0.
  apply handle_paystack_webhook_success in H as (data & Hdata & Hs).
  apply charge_success_writes in Hs
    as (c & user & reference & plan & Hc & Hu & Hr & Hp & _ & _ & Husers & Htx).
  revert H0. unfold handle_paystack_webhook.
  destruct (init_paystack_payment env) as [ps|e]; cbn [bind try_except_Exception];
    [|discriminate].
  destruct (verify_webhook_signature ps _ signature) as [[|]|e];
    cbn [bind try_except_Exception negb]; try discriminate.
  unfold dispatch. rewrite Hdata.
  destruct (dict_get webhook_data "event" JNull) as [event|e]; cbn [bind];
    [|discriminate].
  destruct (eq_str event "charge.success").
  - intros _. unfold charge_success. rewrite Hc. cbn [bind].
    unfold first_user_by_email in *.
    destruct (bind_text (cf_customer_email c)) as [[e|]|]; cbn [bind] in *;
      try discriminate.
    injection Hu as Hu.
    destruct (first_by_email_update e (id user)
                (utcnow + timedelta_days
                            (if eq_str (cf_plan_type c) "annual"
                             then 365 else 30))
                _ _ Hu) as (u' & Hu' & _).
    rewrite Husers, Hu'. rewrite Hr, Hp. cbn [bind].
    unfold insert_transaction. cbn [paystack_reference].
    rewrite Htx, existsb_app. cbn [existsb]. unfold by_reference at 2.
    cbn [paystack_reference]. rewrite String.eqb_refl. cbn [orb].
    rewrite orb_true_r. reflexivity.
  - destruct (eq_str event "charge.failed"); [|discriminate].
    destruct (charge_failed data d) as [[r' d']|e] eqn:Hf; [|discriminate].
    apply charge_failed_writes in Hf as (-> & _). discriminate.
Qed.

Lemma second_delivery_is_refused_witness :
  let v := Example.charge "charge.success" "R2" "bob@x.com"
             [("plan_type", JStr "monthly")] in
  let signature := Some (Example.sign (encode_utf8 (dumps v))) in
  let d1 := snd (handle_paystack_webhook Example.env 0 v signature
                   (Example.db pending)) in
  handle_paystack_webhook Example.env (9 * Example.day) v signature d1
  = (status_dict "error"
       "UNIQUE constraint failed: payment_transactions.paystack_reference", d1).
Proof.
  apply (second_delivery_is_refused Example.env 0 (9 * Example.day)
           (Example.charge "charge.success" "R2" "bob@x.com"
              [("plan_type", JStr "monthly")])
           (Some (Example.sign
                    (encode_utf8
                       (dumps (Example.charge "charge.success" "R2" "bob@x.com"
                                 [("plan_type", JStr "monthly")])))))
           (Example.db pending)).
  vm_compute. reflexivity.
Defined.

(** ** Amounts in floating point *)

Lemma all_prices_spec (check : Z -> bool) (n : nat) (c0 : Z) :
  all_prices check n c0 = true ->
  forall c, c0 <= c < c0 + Z.of_nat n -> check c = true.
Proof.
  revert c0. induction n as [|k IH]; intros c0 H c Hc; [lia|].
  cbn [all_prices] in H. apply andb_true_iff in H as [H0 Hk].
  destruct (Z.eq_dec c c0) as [->|Hne]; [assumption|].
  apply (IH (c0 + 1) Hk). lia.
Qed.

Lemma cents_checked :
  all_prices cents_lose_at_most_one (Z.to_nat 20001) 0 = true.
Proof. vm_compute. reflexivity. Qed.

Lemma kobo_checked :
  all_prices kobo_lose_at_most_one (Z.to_nat 20001) 0 = true.
Proof. vm_compute. reflexivity. Qed.

(** For every price of up to 200.00 written with two decimals, the minor
    units [initialize_transaction] sends ([int(amount * 18 * 100)], computed
    in binary64) are the exact [18 * cents] or one unit less, never more; the
    kobo of [create_plan] are [cents] or one less.  Both prices of the
    application convert exactly, to the amount the payload holds; a price of
    0.47 loses a unit, and so does a plan of 0.29. *)
Theorem float_amounts_lose_at_most_one_unit plan_type cents :
  0 <= cents <= 20000 ->
  (exists a, amount_cents (float_of_cents cents) = Return a
             /\ 18 * cents - 1 <= a <= 18 * cents)
  /\ (exists k, amount_kobo (float_of_cents cents) = Return k
                /\ cents - 1 <= k <= cents)
  /\ amount_cents
       (float_of_cents (if eq_str plan_type "annual" then 9999 else 999))
     = Return (int_of_Q (plan_amount plan_type * 18 * 100)%Q)
  /\ amount_cents (float_of_cents 47) = Return (18 * 47 - 1)
  /\ amount_kobo (float_of_cents 29) = Return 28.
Proof.
  intros Hc. split; [|split; [|split; [|split]]].
  - pose proof (all_prices_spec _ _ _ cents_checked cents) as H.
    rewrite Z2Nat.id in H by lia. specialize (H ltac:(lia)).
    unfold cents_lose_at_most_one in H.
    destruct (amount_cents (float_of_cents cents)) as [a|e]; [|discriminate].
    exists a. split; [reflexivity|].
    apply orb_true_iff in H as [H|H]; apply Z.eqb_eq in H; lia.
  - pose proof (all_prices_spec _ _ _ kobo_checked cents) as H.
    rewrite Z2Nat.id in H by lia. specialize (H ltac:(lia)).
    unfold kobo_lose_at_most_one in H.
    destruct (amount_kobo (float_of_cents cents)) as [a|e]; [|discriminate].
    exists a. split; [reflexivity|].
    apply orb_true_iff in H as [H|H]; apply Z.eqb_eq in H; lia.
  - unfold plan_amount. destruct (eq_str plan_type "annual");
      vm_compute; reflexivity.
  - vm_compute. reflexivity.
  - vm_compute. reflexivity.
Qed.

Lemma float_amounts_lose_at_most_one_unit_witness :
  (exists a, amount_cents (float_of_cents 94) = Return a
             /\ 18 * 94 - 1 <= a <= 18 * 94)
  /\ (exists k, amount_kobo (float_of_cents 94) = Return k
                /\ 94 - 1 <= k <= 94)
  /\ amount_cents
       (float_of_cents (if eq_str (JStr "weekly") "annual" then 9999 else 999))
     = Return (int_of_Q (plan_amount (JStr "weekly") * 18 * 100)%Q)
  /\ amount_cents (float_of_cents 47) = Return (18 * 47 - 1)
  /\ amount_kobo (float_of_cents 29) = Return 28.
Proof.
  apply (float_amounts_lose_at_most_one_unit (JStr "weekly") 94). lia.
Defined.

(** ** The premium gate and the course list *)

(** After [verify_payment] has upgraded its caller, [premium_required]
    lets that user through at every time up to the expiry written, the
    expiry itself included, and answers 403 [Subscription expired] at every
    later time. *)
Theorem upgrade_admits_until_expiry ps get utcnow R d v p u f t :
  verify_transaction ps get R = Return v ->
  gateway_says_success v = Return true ->
  first (by_reference_and_user R (id u)) (payment_transactions d) = Some p ->
  first (by_id (id u)) (users d) = Some u ->
  let d' := snd (verify_payment (Some ps) get utcnow u R d) in
  let expires := utcnow + timedelta_days (plan_days (plan_type p)) in
  exists u',
    first (by_id (id u)) (users d') = Some u'
    /\ (t <= expires -> premium_required f t (Some u') = f tt)
    /\ (expires < t ->
        premium_required f t (Some u')
        = {| response_body := jsonify (error_dict "Subscription expired");
             response_code := 403 |}).
Proof.
  intros Hv Hok Hp Hu d' expires. subst d'.
  rewrite (verify_payment_found _ _ utcnow _ _ _ _ _ Hv Hok Hp).
  cbn [snd users]. fold expires.
  exists (set_premium expires u). split; [|split].
  - apply (first_update_first _ _ _ _ Hu). rewrite by_id_set_premium.
    apply first_Some in Hu. tauto.
  - intros Ht. unfold premium_required. cbn.
    destruct (expires <? t) eqn:E; [|reflexivity].
    apply Z.ltb_lt in E. lia.
  - intros Ht. unfold premium_required. cbn.
    apply Z.ltb_lt in Ht. now rewrite Ht.
Qed.

Lemma upgrade_admits_until_expiry_witness :
  let d' := snd (verify_payment (Some Example.paystack) Example.gateway_success
                   0 Example.alice "R1" (Example.db pending)) in
  let f := fun _ : unit =>
             {| response_body := jsonify JNull; response_code := 200 |} in
  exists u',
    first (by_id "u1") (users d') = Some u'
    /\ (30 * Example.day <= 0 + timedelta_days 30 ->
        premium_required f (30 * Example.day) (Some u') = f tt)
    /\ (0 + timedelta_days 30 < 30 * Example.day ->
        premium_required f (30 * Example.day) (Some u')
        = {| response_body := jsonify (error_dict "Subscription expired");
             response_code := 403 |}).
Proof.
  apply (upgrade_admits_until_expiry Example.paystack Example.gateway_success
           0 "R1" (Example.db pending)
           (JObj [ ("status", JBool true);
                   ("data", JObj [ ("status", JStr "success");
                                   ("amount", JInt 17982) ]) ])
           (Example.tx "R1" pending) Example.alice
           (fun _ : unit =>
              {| response_body := jsonify JNull; response_code := 200 |})
           (30 * Example.day));
    reflexivity.
Defined.

Lemma fold_left_skip_or_append {A B : Type} (skip : A -> bool) (h : A -> B)
    (l : list A) (acc : list B) :
  fold_left (fun acc x => if skip x then acc else acc ++ [h x])%list l acc
  = (acc ++ flat_map (fun x => if skip x then [] else [h x]) l)%list.
Proof.
  revert acc. induction l as [|x rest IH]; intros acc; cbn [fold_left flat_map].
  - now rewrite app_nil_r.
  - rewrite IH. destruct (skip x); cbn [app]; [reflexivity|].
    now rewrite <- app_assoc.
Qed.

(** The course list as one pass over the courses. *)
Lemma get_courses_flat_map cu courses progress :
  get_courses cu courses progress
  = flat_map
      (fun course =>
         if is_true (Course.premium_required course) && is_free cu
         then []
         else [ {| cd_id := Course.id course;
                   cd_title := Course.title course;
                   cd_description := Course.description course;
                   cd_category := Course.category course;
                   cd_difficulty_level := Course.difficulty_level course;
                   cd_estimated_hours := Course.estimated_hours course;
                   cd_premium_required := Course.premium_required course;
                   cd_progress_percentage :=
                     progress_of (id cu) (Course.id course) progress |} ])
      courses.
Proof.
  unfold get_courses.
  exact (fold_left_skip_or_append
           (fun course => is_true (Course.premium_required course) && is_free cu)
           (fun course =>
              {| cd_id := Course.id course;
                 cd_title := Course.title course;
                 cd_description := Course.description course;
                 cd_category := Course.category course;
                 cd_difficulty_level := Course.difficulty_level course;
                 cd_estimated_hours := Course.estimated_hours course;
                 cd_premium_required := Course.premium_required course;
                 cd_progress_percentage :=
                   progress_of (id cu) (Course.id course) progress |})
           courses []).
Qed.

(** [get_courses] lists, in table order, the courses that are not premium
    and, unless the user is free, the premium ones too.  A free user is never
    shown a premium course, and every entry carries the percentage of the
    user's first progress row for the course, or 0 when there is none. *)
Theorem get_courses_hides_premium_from_free_users cu courses progress :
  let listed := get_courses cu courses progress in
  map cd_id listed
  = map Course.id
      (filter (fun c => negb (is_true (Course.premium_required c) && is_free cu))
              courses)
  /\ (forall cd, In cd listed -> is_free cu = true ->
        is_true (cd_premium_required cd) = false)
  /\ (forall cd, In cd listed ->
        cd_progress_percentage cd = progress_of (id cu) (cd_id cd) progress)
  /\ (forall c, In c courses -> is_true (Course.premium_required c) = false ->
        In (Course.id c) (map cd_id listed)).
Proof.
  cbv zeta. rewrite get_courses_flat_map.
  split; [|split; [|split]].
  - induction courses as [|c rest IH]; [reflexivity|].
    cbn [flat_map filter].
    destruct (is_true (Course.premium_required c) && is_free cu);
      cbn [negb app map]; now rewrite IH.
  - intros cd Hin Hfree. apply in_flat_map in Hin as (c & _ & Hc).
    rewrite Hfree, andb_true_r in Hc.
    destruct (is_true (Course.premium_required c)) eqn:E; [destruct Hc|].
    destruct Hc as [<-|[]]. exact E.
  - intros cd Hin. apply in_flat_map in Hin as (c & _ & Hc).
    destruct (is_true (Course.premium_required c) && is_free cu);
      [destruct Hc|]. now destruct Hc as [<-|[]].
  - intros c Hin Hc. apply in_map_iff.
    eexists. split; [|apply in_flat_map; exists c; split; [exact Hin|]].
    2:{ rewrite Hc. cbn [andb]. left. reflexivity. }
    reflexivity.
Qed.

(** A premium user whose subscription has expired is refused by
    [premium_required], yet [get_courses] still lists every course for that
    user, premium ones included: the list looks at the subscription type
    only. *)
Theorem expired_premium_still_lists_every_course u e t courses progress f :
  subscription_type u = premium ->
  subscription_expires u = Some e ->
  e < t ->
  map cd_id (get_courses u courses progress) = map Course.id courses
  /\ premium_required f t (Some u)
     = {| response_body := jsonify (error_dict "Subscription expired");
          response_code := 403 |}.
Proof.
  intros Hs He Ht. split.
  - rewrite get_courses_flat_map. unfold is_free. rewrite Hs.
    induction courses as [|c rest IH]; [reflexivity|].
    cbn [flat_map]. rewrite andb_false_r. cbn [app map]. now rewrite IH.
  - unfold premium_required. rewrite Hs, He.
    apply Z.ltb_lt in Ht. now rewrite Ht.
Qed.

Lemma expired_premium_still_lists_every_course_witness :
  map cd_id (get_courses Sample.carol Sample.courses Sample.progress)
  = map Course.id Sample.courses
  /\ premium_required
       (fun _ => {| response_body := jsonify JNull; response_code := 200 |})
       (11 * Example.day) (Some Sample.carol)
     = {| response_body := jsonify (error_dict "Subscription expired");
          response_code := 403 |}.
Proof.
  apply (expired_premium_still_lists_every_course Sample.carol
           (10 * Example.day) (11 * Example.day) Sample.courses Sample.progress
           (fun _ => {| response_body := jsonify JNull; response_code := 200 |}));
    reflexivity.
Defined.

(** ** The wellness summary *)

Lemma activity_breakdown_snoc logs log :
  activity_breakdown (logs ++ [log])
  = count_activity (WellnessLog.activity_type log) (minutes_or_0 log)
                   (activity_breakdown logs).
Proof. unfold activity_breakdown. now rewrite fold_left_app. Qed.

Lemma total_minutes_snoc logs log :
  total_minutes (logs ++ [log]) = total_minutes logs + minutes_or_0 log.
Proof. unfold total_minutes. now rewrite fold_left_app. Qed.

Lemma count_activity_sums a m bd :
  fold_right Z.add 0 (map (fun e => fst (snd e)) (count_activity a m bd))
  = fold_right Z.add 0 (map (fun e => fst (snd e)) bd) + 1
  /\ fold_right Z.add 0 (map (fun e => snd (snd e)) (count_activity a m bd))
     = fold_right Z.add 0 (map (fun e => snd (snd e)) bd) + m.
Proof.
  induction bd as [|[k [c t]] rest [IH1 IH2]]; cbn; [lia|].
  destruct (String.eqb k a); cbn; lia.
Qed.

Lemma count_activity_keys a m bd :
  map fst (count_activity a m bd)
  = if existsb (fun k => String.eqb k a) (map fst bd)
    then map fst bd else (map fst bd ++ [a])%list.
Proof.
  induction bd as [|[k [c t]] rest IH]; cbn; [reflexivity|].
  destruct (String.eqb k a); cbn; [reflexivity|].
  rewrite IH. now destruct (existsb _ _).
Qed.

Lemma existsb_eqb_In a keys :
  existsb (fun k => String.eqb k a) keys = true <-> In a keys.
Proof.
  rewrite existsb_exists. split.
  - intros (k & Hin & Hk). apply String.eqb_eq in Hk. now subst.
  - intros Hin. exists a. split; [assumption|apply String.eqb_refl].
Qed.

(** The entry of an activity after one more log. *)
Lemma count_activity_entry a m bd b c t :
  NoDup (map fst bd) ->
  In (b, (c, t)) (count_activity a m bd) ->
  if String.eqb b a
  then (In (b, (c - 1, t - m)) bd
        \/ (~ In a (map fst bd) /\ c = 1 /\ t = m))
  else In (b, (c, t)) bd.
Proof.
  induction bd as [|[k [c0 t0]] rest IH]; cbn [count_activity map]; intros Hnd Hin.
  - destruct Hin as [[= -> -> ->]|[]]. rewrite String.eqb_refl. right.
    cbn. intuition lia.
  - inversion Hnd as [|? ? Hk Hrest]; subst.
    destruct (String.eqb k a) eqn:Hka.
    + apply String.eqb_eq in Hka. subst k.
      destruct Hin as [[= <- <- <-]|Hin].
      * rewrite String.eqb_refl. left. left.
        f_equal. f_equal; lia.
      * destruct (String.eqb b a) eqn:Hba; [|now right].
        apply String.eqb_eq in Hba. subst b. exfalso. apply Hk.
        apply in_map_iff. now exists (a, (c, t)).
    + destruct Hin as [[= <- <- <-]|Hin].
      * rewrite Hka. now left.
      * specialize (IH Hrest Hin).
        destruct (String.eqb b a) eqn:Hba.
        -- destruct IH as [IH|(Hn & -> & ->)]; [left; now right|].
           right. split; [|split; reflexivity].
           cbn [fst]. intros [Hx|Hx]; [|auto].
           apply String.eqb_neq in Hka. congruence.
        -- now right.
Qed.

Lemma activity_breakdown_NoDup logs : NoDup (map fst (activity_breakdown logs)).
Proof.
  induction logs as [|log logs IH] using rev_ind; [constructor|].
  rewrite activity_breakdown_snoc, count_activity_keys.
  destruct (existsb _ _) eqn:E; [assumption|].
  apply NoDup_snoc; [assumption|].
  intros Hin. apply existsb_eqb_In in Hin. congruence.
Qed.

Lemma activity_breakdown_keys logs a :
  In a (map fst (activity_breakdown logs))
  <-> In a (map WellnessLog.activity_type logs).
Proof.
  induction logs as [|log logs IH] using rev_ind; [reflexivity|].
  rewrite activity_breakdown_snoc, count_activity_keys, map_app, in_app_iff.
  cbn [map In].
  destruct (existsb _ _) eqn:E.
  - apply existsb_eqb_In in E. rewrite IH. split; [auto|].
    intros [H|[<-|[]]]; [assumption|]. now apply IH.
  - rewrite in_app_iff, IH. cbn [In]. tauto.
Qed.

Lemma filter_snoc {A : Type} (q : A -> bool) (l : list A) (x : A) :
  filter q (l ++ [x]) = (filter q l ++ if q x then [x] else [])%list.
Proof. rewrite filter_app. cbn [filter]. now destruct (q x). Qed.

(** The entry of an activity holds the number and the minutes of the logs
    of that activity. *)
Lemma activity_breakdown_entry logs a c t :
  In (a, (c, t)) (activity_breakdown logs) ->
  c = Z.of_nat (List.length (filter (of_type a) logs))
  /\ t = total_minutes (filter (of_type a) logs).
Proof.
  revert c t. induction logs as [|log logs IH] using rev_ind; intros c t Hin;
    [destruct Hin|].
  rewrite activity_breakdown_snoc in Hin.
  apply count_activity_entry in Hin; [|apply activity_breakdown_NoDup].
  rewrite filter_snoc.
  assert (Hq : of_type a log = String.eqb a (WellnessLog.activity_type log))
    by apply String.eqb_sym.
  rewrite Hq.
  destruct (String.eqb a (WellnessLog.activity_type log)) eqn:E.
  - apply String.eqb_eq in E. subst a.
    rewrite length_app, total_minutes_snoc. cbn [List.length].
    destruct Hin as [Hin|(Hn & -> & ->)].
    + apply IH in Hin as [H1 H2]. lia.
    + rewrite activity_breakdown_keys in Hn.
      assert (Hnil : filter (of_type (WellnessLog.activity_type log)) logs = []).
      { destruct (filter _ logs) as [|x rest] eqn:Hf; [reflexivity|].
        exfalso. apply Hn.
        assert (Hx : In x (filter (of_type (WellnessLog.activity_type log)) logs))
          by (rewrite Hf; now left).
        apply filter_In in Hx as [Hx Ht]. apply String.eqb_eq in Ht.
        rewrite <- Ht. now apply in_map. }
      rewrite Hnil. cbn. split; reflexivity.
  - rewrite app_nil_r. now apply IH.
Qed.

Lemma activity_breakdown_sums logs :
  fold_right Z.add 0 (map (fun e => fst (snd e)) (activity_breakdown logs))
  = Z.of_nat (List.length logs)
  /\ fold_right Z.add 0 (map (fun e => snd (snd e)) (activity_breakdown logs))
     = total_minutes logs.
Proof.
  induction logs as [|log logs [IH1 IH2]] using rev_ind; [split; reflexivity|].
  rewrite activity_breakdown_snoc, total_minutes_snoc, length_app.
  destruct (count_activity_sums (WellnessLog.activity_type log)
              (minutes_or_0 log) (activity_breakdown logs)) as [H1 H2].
  rewrite H1, H2, IH1, IH2. cbn [List.length]. lia.
Qed.

(** In the wellness summary the breakdown adds up to the totals: the counts
    of the activity types sum to [total_activities] and their minutes to
    [total_minutes] (a log without a duration counts for 0 minutes); every
    activity type of the week has exactly one entry, holding the number and
    the minutes of that type's logs.  Logs of other users, and logs older
    than seven days, do not enter the summary. *)
Theorem wellness_breakdown_adds_up utcnow cu logs :
  let week := last_week utcnow (id cu) logs in
  let breakdown := activity_breakdown week in
  fold_right Z.add 0 (map (fun e => fst (snd e)) breakdown)
  = Z.of_nat (List.length week)
  /\ fold_right Z.add 0 (map (fun e => snd (snd e)) breakdown)
     = total_minutes week
  /\ NoDup (map fst breakdown)
  /\ (forall a, In a (map fst breakdown)
                <-> In a (map WellnessLog.activity_type week))
  /\ (forall a c t, In (a, (c, t)) breakdown ->
        c = Z.of_nat (List.length (filter (of_type a) week))
        /\ t = total_minutes (filter (of_type a) week))
  /\ (forall log, In log week ->
        WellnessLog.user_id log = id cu
        /\ utcnow - timedelta_days 7 <= WellnessLog.logged_at log)
  /\ (forall others,
        (forall log, In log others ->
           WellnessLog.user_id log <> id cu
           \/ WellnessLog.logged_at log < utcnow - timedelta_days 7) ->
        get_wellness_summary utcnow cu (logs ++ others)
        = get_wellness_summary utcnow cu logs).
Proof.
  cbv zeta.
  destruct (activity_breakdown_sums (last_week utcnow (id cu) logs)) as [H1 H2].
  split; [exact H1|]. split; [exact H2|].
  split; [apply activity_breakdown_NoDup|].
  split; [apply activity_breakdown_keys|].
  split; [intros a c t; apply activity_breakdown_entry|].
  split.
  - intros log Hin. unfold last_week in Hin.
    apply filter_In in Hin as [_ Hin]. apply andb_true_iff in Hin as [Hu Ht].
    apply String.eqb_eq in Hu. apply Z.leb_le in Ht. now split.
  - intros others Ho.
    assert (Hnil : last_week utcnow (id cu) others = []).
    { unfold last_week. induction others as [|o rest IH]; [reflexivity|].
      cbn [filter].
      replace (String.eqb (WellnessLog.user_id o) (id cu)
               && (utcnow - timedelta_days 7 <=? WellnessLog.logged_at o))
        with false.
      - apply IH. intros log Hin. apply Ho. now right.
      - symmetry. apply andb_false_iff.
        destruct (Ho o (or_introl eq_refl)) as [H|H].
        + left. now apply String.eqb_neq.
        + right. apply Z.leb_gt. exact H. }
    unfold get_wellness_summary.
    replace (last_week utcnow (id cu) (logs ++ others))
      with (last_week utcnow (id cu) logs); [reflexivity|].
    unfold last_week in *. now rewrite filter_app, Hnil, app_nil_r.
Qed.

(** ** The kind of a chat message *)

Lemma lower_char_idem (c : ascii) : lower_char (lower_char c) = lower_char c.
Proof. destruct c as [[] [] [] [] [] [] [] []]; reflexivity. Qed.

Lemma lower_idem (s : string) : lower (lower s) = lower s.
Proof.
  induction s as [|c s IH]; [reflexivity|].
  cbn [lower]. now rewrite lower_char_idem, IH.
Qed.

Lemma lower_app (a b : string) : lower (a ++ b) = lower a ++ lower b.
Proof.
  induction a as [|c a IH]; [reflexivity|].
  cbn [append lower]. now rewrite IH.
Qed.

Lemma prefix_app (w m b : string) :
  String.prefix w m = true -> String.prefix w (m ++ b) = true.
Proof.
  revert m. induction w as [|c w IH]; intros m.
  - intros _. now destruct (m ++ b).
  - destruct m as [|c' m]; cbn [String.prefix append]; [discriminate|].
    destruct (ascii_dec c c'); [apply IH|discriminate].
Qed.

Lemma contains_app_r (w m b : string) :
  contains w m = true -> contains w (m ++ b) = true.
Proof.
  induction m as [|c m IH]; cbn [contains append]; intros H.
  - rewrite orb_false_r in H. destruct w; [|discriminate].
    destruct b; reflexivity.
  - apply orb_true_iff in H as [H|H].
    + apply (prefix_app _ _ b) in H. cbn [append] in H. now rewrite H.
    + rewrite (IH H). apply orb_true_r.
Qed.

Lemma contains_app_l (w a m : string) :
  contains w m = true -> contains w (a ++ m) = true.
Proof.
  intros H. induction a as [|c a IH]; [exact H|].
  cbn [append contains]. rewrite IH. apply orb_true_r.
Qed.

Lemma any_in_app (words : list string) (a m b : string) :
  any_in words m = true -> any_in words (a ++ m ++ b) = true.
Proof.
  unfold any_in. rewrite !existsb_exists.
  intros (w & Hin & Hw). exists w. split; [assumption|].
  now apply contains_app_l, contains_app_r.
Qed.

(** The kind [ai_chat] gives a message looks at its lower-case form only,
    and a keyword counts wherever it occurs: text added before or after a
    message of kind [learning] leaves it [learning], and text added around a
    message of kind [wellness] leaves it [wellness] or makes it [learning],
    never [general].  The learning keywords win over the wellness ones. *)
Theorem chat_kind_survives_added_text a m b :
  (interaction_type m = "learning" ->
   interaction_type (a ++ m ++ b) = "learning")
  /\ (interaction_type m = "wellness" ->
      interaction_type (a ++ m ++ b) = "learning"
      \/ interaction_type (a ++ m ++ b) = "wellness")
  /\ interaction_type (lower m) = interaction_type m
  /\ (any_in ["learn"; "study"; "course"; "progress"] (lower m) = true ->
      interaction_type m = "learning").
Proof.
  unfold interaction_type. rewrite lower_idem, !lower_app.
  split; [|split; [|split]].
  - destruct (any_in ["learn"; "study"; "course"; "progress"] (lower m)) eqn:E.
    + intros _. now rewrite (any_in_app _ (lower a) _ (lower b) E).
    + destruct (any_in ["stress"; "wellness"; "exercise"; "meditation"]
                       (lower m)); intros H; discriminate H.
  - destruct (any_in ["learn"; "study"; "course"; "progress"] (lower m));
      [intros H; discriminate H|].
    destruct (any_in ["stress"; "wellness"; "exercise"; "meditation"] (lower m))
      eqn:E; [|intros H; discriminate H].
    intros _. rewrite (any_in_app _ (lower a) _ (lower b) E).
    destruct (any_in _ (lower a ++ lower m ++ lower b)); auto.
  - reflexivity.
  - now intros ->.
Qed.

(** ** The other calls of the gateway client *)

(** The block the three calls share: the request, [raise_for_status], the
    JSON of the response, under [except RequestException]. *)
Lemma guarded_request (outcome : http_outcome) (message : string) :
  answers_failures_with message outcome
    (try_except_RequestException
       (response <- outcome ;;
        _ <- raise_for_status response ;;
        response_json response)
       (fun e => Return (failure_dict message e))).
Proof.
  unfold answers_failures_with. repeat split.
  - intros m ->. reflexivity.
  - intros resp -> Hc. cbn [bind]. unfold raise_for_status.
    replace ((400 <=? status_code resp) && (status_code resp <? 600))
      with true by (symmetry; apply andb_true_iff; lia).
    eexists. reflexivity.
  - intros resp v -> Hc Hj. cbn [bind]. unfold raise_for_status.
    replace ((400 <=? status_code resp) && (status_code resp <? 600))
      with false by (symmetry; apply andb_false_iff; lia).
    cbn [bind]. now rewrite Hj.
  - intros e. unfold try_except_RequestException.
    destruct (bind _ _) as [x|e']; [discriminate|].
    destruct (is_RequestException e') eqn:He; [discriminate|].
    now intros [= <-].
Qed.

(** [create_plan], [create_subscription] and [get_banks] each answer a
    network failure, and an HTTP status from 400 to 599, with their own
    failure dict; any other response comes back as its JSON, a status
    such as 304 included; none lets a [RequestException] out.  [create_plan]
    raises before any request when the amount has no integer (an infinity
    or a NaN). *)
Theorem other_gateway_calls_answer_failures_with_a_dict
    ps post getp name amount interval customer plan authorization country :
  (forall e, amount_kobo amount = Raise e ->
     create_plan ps post name amount interval = Raise e)
  /\ (forall k, amount_kobo amount = Return k ->
        answers_failures_with "Plan creation failed"
          (post (base_url ++ "/plan")
                (JObj [ ("name", name); ("amount", JInt k);
                        ("interval", interval); ("currency", JStr "USD") ]))
          (create_plan ps post name amount interval))
  /\ answers_failures_with "Subscription creation failed"
       (post (base_url ++ "/subscription")
             (JObj [ ("customer", customer); ("plan", plan);
                     ("authorization", authorization) ]))
       (create_subscription ps post customer plan authorization)
  /\ answers_failures_with "Failed to fetch banks"
       (getp (base_url ++ "/bank") (JObj [ ("country", country) ]))
       (get_banks ps getp country).
Proof.
  split; [|split; [|split]].
  - intros e He. unfold create_plan. now rewrite He.
  - intros k Hk. unfold create_plan. rewrite Hk. cbn [bind].
    apply guarded_request.
  - unfold create_subscription. apply guarded_request.
  - unfold get_banks. apply guarded_request.
Qed.

(** ** The payment views together *)

(** When a Paystack key is unset or empty the application starts with no
    client, and then no payment view writes anything: four of them answer 500
    [Payment system not configured], and [payment_success] shows the error
    page.  With both keys set the client holds them. *)
Theorem missing_keys_disable_the_payment_views env o d :
  (env_missing (PAYSTACK_PUBLIC_KEY env)
   || env_missing (PAYSTACK_SECRET_KEY env) = true ->
   app_paystack env = Return None)
  /\ (env_missing (PAYSTACK_PUBLIC_KEY env)
      || env_missing (PAYSTACK_SECRET_KEY env) = false ->
      app_paystack env
      = Return (Some {| public_key := getenv_str (PAYSTACK_PUBLIC_KEY env);
                        secret_key := getenv_str (PAYSTACK_SECRET_KEY env) |}))
  /\ snd (serve None o d) = d
  /\ fst (serve None o d)
     = match o with
       | PaymentSuccess _ _ _ =>
           {| response_body :=
                render_template "index.html" [("payment_error", true)];
              response_code := 200 |}
       | _ =>
           {| response_body :=
                jsonify (error_dict "Payment system not configured");
              response_code := 500 |}
       end.
Proof.
  unfold app_paystack, init_paystack_payment.
  split; [|split; [|split]].
  - now intros ->.
  - now intros ->.
  - destruct o as [? ? ? ? ?|? ? [?|]|? ?|? ? ? ?|? ? ?]; reflexivity.
  - destruct o as [? ? ? ? ?|? ? [?|]|? ?|? ? ? ?|? ? ?]; reflexivity.
Qed.

Lemma reference_names_one_row (rows : list PaymentTransaction)
    (p t : PaymentTransaction) :
  NoDup (map paystack_reference rows) ->
  In p rows -> In t rows ->
  paystack_reference t = paystack_reference p -> t = p.
Proof.
  induction rows as [|x rest IH]; intros Hnd Hp Ht Heq; [destruct Hp|].
  inversion Hnd as [|? ? Hx Hrest]; subst.
  destruct Hp as [->|Hp], Ht as [->|Ht]; auto.
  - exfalso. apply Hx. rewrite <- Heq. now apply in_map.
  - exfalso. apply Hx. rewrite Heq. now apply in_map.
Qed.

(** [verify_payment] completes a transaction for its owner only.  When the
    reference belongs to another user, the caller gets 400 and nothing is
    written, even though the gateway reports success; [payment_success],
    which asks for no login, completes the same transaction and upgrades its
    owner for whoever opens the link. *)
Theorem verify_payment_needs_the_owner ps get utcnow cu R d v p owner :
  String.eqb R EmptyString = false ->
  verify_transaction ps get R = Return v ->
  gateway_says_success v = Return true ->
  NoDup (map paystack_reference (payment_transactions d)) ->
  first (by_reference R) (payment_transactions d) = Some p ->
  String.eqb (user_id p) (id cu) = false ->
  first (by_id (user_id p)) (users d) = Some owner ->
  verify_payment (Some ps) get utcnow cu R d
  = ({| response_body := jsonify (error_dict "Payment verification failed");
        response_code := 400 |}, d)
  /\ payment_success (Some ps) get utcnow (Some R) d
     = ({| response_body :=
             render_template "index.html" [("payment_success", true)];
           response_code := 200 |},
        {| users :=
             update_first (by_id (id owner))
               (set_premium (utcnow + timedelta_days (plan_days (plan_type p))))
               (users d);
           payment_transactions :=
             update_first (by_reference R) (set_status completed)
                          (payment_transactions d) |}).
Proof.
  intros HR Hv Hok Hnd Hp Hne Ho. split.
  - apply (verify_payment_not_found _ _ _ _ _ _ _ Hv Hok).
    unfold first.
    destruct (find (by_reference_and_user R (id cu)) (payment_transactions d))
      as [t|] eqn:Hf; [|reflexivity].
    apply find_some in Hf as [Hin Ht].
    unfold by_reference_and_user in Ht. apply andb_true_iff in Ht as [Hr Hu].
    apply first_Some in Hp as [Hpr Hpin].
    unfold by_reference in Hpr.
    apply String.eqb_eq in Hr, Hpr.
    assert (t = p) by (apply (reference_names_one_row _ _ _ Hnd Hpin Hin);
                       congruence).
    subst t. congruence.
  - apply (payment_success_found _ _ utcnow _ _ _ _ _ HR Hv Hok Hp Ho).
Qed.

Lemma verify_payment_needs_the_owner_witness :
  let d := Example.db pending in
  verify_payment (Some Example.paystack) Example.gateway_success 0
    Example.bob "R1" d
  = ({| response_body := jsonify (error_dict "Payment verification failed");
        response_code := 400 |}, d)
  /\ payment_success (Some Example.paystack) Example.gateway_success 0
       (Some "R1") d
     = ({| response_body :=
             render_template "index.html" [("payment_success", true)];
           response_code := 200 |},
        {| users :=
             update_first (by_id "u1")
               (set_premium (0 + timedelta_days (plan_days (Some "monthly"))))
               (users d);
           payment_transactions :=
             update_first (by_reference "R1") (set_status completed)
                          (payment_transactions d) |}).
Proof.
  apply (verify_payment_needs_the_owner Example.paystack
           Example.gateway_success 0 Example.bob "R1" (Example.db pending)
           (JObj [ ("status", JBool true);
                   ("data", JObj [ ("status", JStr "success");
                                   ("amount", JInt 17982) ]) ])
           (Example.tx "R1" pending) Example.alice);
    try reflexivity.
  repeat constructor. intros [].
Defined.

(** No payment request takes a subscription away: after any operation a
    user is as before or has been made premium with a new expiry; a premium
    user stays premium, also once the expiry has passed. *)
Theorem no_request_downgrades_a_user paystack o d i u :
  nth_error (users d) i = Some u ->
  exists u',
    nth_error (users (snd (serve paystack o d))) i = Some u'
    /\ (u' = u \/ exists expires, u' = set_premium expires u)
    /\ (subscription_type u = premium -> subscription_type u' = premium).
Proof.
  intros Hi. destruct (serve_steps paystack o d) as [_ [ | uid e ]].
  - exists u. auto.
  - destruct (nth_error_update_first (by_id uid) (set_premium e) _ _ _ Hi)
      as [H|H].
    + exists u. auto.
    + exists (set_premium e u). split; [exact H|]. split; [|reflexivity].
      right. now exists e.
Qed.

Lemma no_request_downgrades_a_user_witness :
  exists u',
    nth_error
      (users (snd (serve (Some Example.paystack)
                     (PaymentSuccess Example.gateway_success 0 (Some "R1"))
                     (Example.db pending)))) 0
    = Some u'
    /\ (u' = Example.alice \/ exists expires, u' = set_premium expires Example.alice)
    /\ (subscription_type Example.alice = premium ->
        subscription_type u' = premium).
Proof.
  apply (no_request_downgrades_a_user (Some Example.paystack)
           (PaymentSuccess Example.gateway_success 0 (Some "R1"))
           (Example.db pending) 0%nat Example.alice).
  reflexivity.
Defined.

(** A verification the gateway does not report as a success writes nothing:
    [verify_payment] answers 400 and [payment_success] shows the error page.
    A network failure is such a case, since [verify_transaction] turns it
    into a dict whose [status] is false. *)
Theorem unsuccessful_verification_writes_nothing ps get utcnow cu R d v :
  String.eqb R EmptyString = false ->
  verify_transaction ps get R = Return v ->
  gateway_says_success v = Return false ->
  verify_payment (Some ps) get utcnow cu R d
  = ({| response_body := jsonify (error_dict "Payment verification failed");
        response_code := 400 |}, d)
  /\ payment_success (Some ps) get utcnow (Some R) d
     = ({| response_body :=
             render_template "index.html" [("payment_error", true)];
           response_code := 200 |}, d).
Proof.
  intros HR Hv Hok. split.
  - unfold verify_payment. rewrite Hv. cbn [bind try_except_Exception].
    now rewrite Hok.
  - unfold payment_success. rewrite HR, Hv. cbn [bind try_except_Exception].
    now rewrite Hok.
Qed.

Lemma unsuccessful_verification_writes_nothing_witness :
  let unreachable := fun _ : string =>
                       @Raise Response (RequestException "Connection refused") in
  verify_payment (Some Example.paystack) unreachable 0 Example.alice "R1"
    (Example.db pending)
  = ({| response_body := jsonify (error_dict "Payment verification failed");
        response_code := 400 |}, Example.db pending)
  /\ payment_success (Some Example.paystack) unreachable 0 (Some "R1")
       (Example.db pending)
     = ({| response_body :=
             render_template "index.html" [("payment_error", true)];
           response_code := 200 |}, Example.db pending).
Proof.
  apply (unsuccessful_verification_writes_nothing Example.paystack
           (fun _ => Raise (RequestException "Connection refused"))
           0 Example.alice "R1" (Example.db pending)
           (JObj [ ("status", JBool false);
                   ("message", JStr "Payment verification failed");
                   ("error", JStr "Connection refused") ]));
    reflexivity.
Defined.

(** ** Initialization and what follows it *)

Lemma insert_transaction_new t d :
  first (by_reference (paystack_reference t)) (payment_transactions d) = None ->
  insert_transaction t d
  = Return {| users := users d;
              payment_transactions := (payment_transactions d ++ [t])%list |}.
Proof.
  intros Hnew. unfold insert_transaction.
  replace (existsb (by_reference (paystack_reference t)) (payment_transactions d))
    with false; [reflexivity|].
  symmetry. apply not_true_is_false. intros Hex.
  apply existsb_exists in Hex as (x & Hin & Hx).
  pose proof (find_none _ _ Hnew x Hin). congruence.
Qed.

Lemma insert_transaction_stored t d p :
  first (by_reference (paystack_reference t)) (payment_transactions d) = Some p ->
  insert_transaction t d
  = Raise (IntegrityError
             "UNIQUE constraint failed: payment_transactions.paystack_reference").
Proof.
  intros Hp. unfold insert_transaction.
  replace (existsb (by_reference (paystack_reference t)) (payment_transactions d))
    with true; [reflexivity|].
  symmetry. apply existsb_exists. exists p. apply first_Some in Hp. tauto.
Qed.

(** [initialize_payment] once the gateway has answered 200 with a truthy
    [status] and a reference. *)
Lemma initialize_payment_accepted ps post hash now cu items resp s rdata r d :
  let plan_type :=
    match assoc "plan_type" items with Some x => x | None => JStr "monthly" end in
  let callback_url :=
    match assoc "callback_url" items with Some x => x | None => JNull end in
  post (base_url ++ "/transaction/initialize")
       (initialize_payload hash now (email cu) (plan_amount plan_type) plan_type
          callback_url)
  = Return {| status_code := 200; response_json := Return resp |} ->
  dict_get resp "status" JNull = Return s ->
  truthy s = true ->
  getitem resp "data" = Return rdata ->
  getitem rdata "reference" = Return (JStr r) ->
  initialize_payment (Some ps) post hash now cu (Return (JObj items)) d
  = try_except_Exception
      (p <- bind_text plan_type ;;
       d' <- insert_transaction
               {| user_id := id cu; paystack_reference := r;
                  amount := plan_amount plan_type; currency := "USD";
                  status := pending; plan_type := p |} d ;;
       Return ({| response_body := jsonify resp; response_code := 200 |}, d'))
      (fun x => x)
      (fun e =>
         ({| response_body := jsonify (error_dict "Payment initialization failed");
             response_code := 500 |}, d)).
Proof.
  intros plan_type callback_url Hpost Hs Hts Hrd Hr.
  unfold initialize_payment. cbn [bind]. rewrite dict_get_JObj.
  fold plan_type. cbn [bind try_except_Exception].
  rewrite dict_get_JObj. fold callback_url. cbn [bind].
  unfold initialize_transaction. rewrite Hpost.
  cbn [bind try_except_RequestException response_json status_code].
  rewrite Z.eqb_refl, Hs. cbn [bind]. rewrite Hts.
  cbn [bind try_except_RequestException].
  rewrite Hs. cbn [bind]. rewrite Hts, Hrd. cbn [bind]. rewrite Hr.
  cbn [bind bind_text].
  destruct (bind_text plan_type) as [p|e]; reflexivity.
Qed.

(** What [initialize_payment] does when the payment cannot be started.  A
    refusal by the gateway (a JSON object that is not a 200 with a truthy
    [status]) is answered 400 with the gateway's message; a network failure
    is answered 400 with [Payment initialization failed]; a reference the
    ledger already holds is answered 500.  In all three cases nothing is
    stored. *)
Theorem failed_initialization_stores_nothing
    ps post hash now cu items d :
  let plan_type :=
    match assoc "plan_type" items with Some x => x | None => JStr "monthly" end in
  let callback_url :=
    match assoc "callback_url" items with Some x => x | None => JNull end in
  let outcome :=
    post (base_url ++ "/transaction/initialize")
         (initialize_payload hash now (email cu) (plan_amount plan_type)
            plan_type callback_url) in
  let served :=
    initialize_payment (Some ps) post hash now cu (Return (JObj items)) d in
  (forall code body,
     outcome = Return {| status_code := code;
                         response_json := Return (JObj body) |} ->
     (code =? 200)
     && truthy (match assoc "status" body with Some x => x | None => JNull end)
     = false ->
     served
     = ({| response_body :=
             jsonify (JObj [ ("error",
                              match assoc "message" body with
                              | Some x => x
                              | None => JStr "Unknown error"
                              end) ]);
           response_code := 400 |}, d))
  /\ (forall m, outcome = Raise (RequestException m) ->
        served
        = ({| response_body :=
                jsonify (error_dict "Payment initialization failed");
              response_code := 400 |}, d))
  /\ (forall resp s rdata r p,
        outcome = Return {| status_code := 200; response_json := Return resp |} ->
        dict_get resp "status" JNull = Return s ->
        truthy s = true ->
        getitem resp "data" = Return rdata ->
        getitem rdata "reference" = Return (JStr r) ->
        first (by_reference r) (payment_transactions d) = Some p ->
        served
        = ({| response_body :=
                jsonify (error_dict "Payment initialization failed");
              response_code := 500 |}, d)).
Proof.
  intros plan_type callback_url outcome served. split; [|split].
  - intros code body Ho Hrefused. subst served outcome.
    unfold initialize_payment. cbn [bind]. rewrite dict_get_JObj.
    fold plan_type. cbn [bind try_except_Exception].
    rewrite dict_get_JObj. fold callback_url. cbn [bind].
    unfold initialize_transaction. rewrite Ho.
    cbn [bind try_except_RequestException response_json status_code dict_get].
    destruct (code =? 200); cbn [bind andb] in *.
    + rewrite Hrefused. reflexivity.
    + reflexivity.
  - intros m Ho. subst served outcome.
    unfold initialize_payment. cbn [bind]. rewrite dict_get_JObj.
    fold plan_type. cbn [bind try_except_Exception].
    rewrite dict_get_JObj. fold callback_url. cbn [bind].
    unfold initialize_transaction. rewrite Ho. reflexivity.
  - intros resp s rdata r p Ho Hs Hts Hrd Hr Hp. subst served outcome.
    rewrite (initialize_payment_accepted _ _ _ _ _ _ _ _ _ _ d Ho Hs Hts Hrd Hr).
    fold plan_type.
    destruct (bind_text plan_type) as [q|e]; cbn [bind try_except_Exception];
      [|reflexivity].
    erewrite insert_transaction_stored; [reflexivity|exact Hp].
Qed.

Lemma first_app_new {A : Type} (q : A -> bool) (l : list A) (x : A) :
  first q l = None -> q x = true -> first q (l ++ [x]) = Some x.
Proof.
  unfold first. induction l as [|y rest IH]; cbn [find app]; intros Hn Hx.
  - now rewrite Hx.
  - destruct (q y); [discriminate|]. now apply IH.
Qed.

Lemma update_first_app_new {A : Type} (q : A -> bool) (f : A -> A)
    (l : list A) (x : A) :
  first q l = None -> q x = true ->
  update_first q f (l ++ [x]) = (l ++ [f x])%list.
Proof.
  unfold first. induction l as [|y rest IH]; cbn [find app update_first];
    intros Hn Hx.
  - now rewrite Hx.
  - destruct (q y); [discriminate|]. now rewrite IH.
Qed.

Lemma first_by_reference_and_user_none reference uid rows :
  first (by_reference reference) rows = None ->
  first (by_reference_and_user reference uid) rows = None.
Proof.
  unfold first, by_reference_and_user, by_reference.
  induction rows as [|x rest IH]; cbn [find]; [reflexivity|].
  destruct (String.eqb (paystack_reference x) reference); [discriminate|].
  cbn [andb]. exact IH.
Qed.

(** A payment that [initialize_payment] has stored can be completed by
    [verify_payment]: once the gateway reports success for the reference it
    returned, the same user's call answers 200, turns the stored pending row
    into a completed one and makes the user premium for the days of the plan
    type that was stored. *)
Theorem initialized_payment_can_be_verified
    ps post get hash now utcnow cu items resp s rdata r p d v :
  let plan_type :=
    match assoc "plan_type" items with Some x => x | None => JStr "monthly" end in
  let callback_url :=
    match assoc "callback_url" items with Some x => x | None => JNull end in
  post (base_url ++ "/transaction/initialize")
       (initialize_payload hash now (email cu) (plan_amount plan_type) plan_type
          callback_url)
  = Return {| status_code := 200; response_json := Return resp |} ->
  dict_get resp "status" JNull = Return s ->
  truthy s = true ->
  getitem resp "data" = Return rdata ->
  getitem rdata "reference" = Return (JStr r) ->
  bind_text plan_type = Return p ->
  first (by_reference r) (payment_transactions d) = None ->
  verify_transaction ps get r = Return v ->
  gateway_says_success v = Return true ->
  let stored (st : Status) :=
    {| user_id := id cu; paystack_reference := r;
       amount := plan_amount plan_type; currency := "USD";
       status := st; plan_type := p |} in
  let d1 := snd (initialize_payment (Some ps) post hash now cu
                   (Return (JObj items)) d) in
  let expires := utcnow + timedelta_days (plan_days p) in
  payment_transactions d1 = (payment_transactions d ++ [stored pending])%list
  /\ users d1 = users d
  /\ verify_payment (Some ps) get utcnow cu r d1
     = ({| response_body :=
             jsonify
               (JObj [ ("message",
                          JStr "Payment verified and subscription activated!");
                       ("subscription_type", JStr "premium");
                       ("expires", JInt expires) ]);
           response_code := 200 |},
        {| users := update_first (by_id (id cu)) (set_premium expires) (users d);
           payment_transactions :=
             (payment_transactions d ++ [stored completed])%list |}).
Proof.
  intros plan_type callback_url Hpost Hs Hts Hrd Hr Hb Hnew Hv Hok
         stored d1 expires.
  assert (Hd1 : d1 = {| users := users d;
                        payment_transactions :=
                          (payment_transactions d ++ [stored pending])%list |}).
  { subst d1.
    rewrite (initialize_payment_accepted _ _ _ _ _ _ _ _ _ _ d Hpost Hs Hts Hrd Hr).
    fold plan_type. rewrite Hb. cbn [bind].
    rewrite insert_transaction_new by exact Hnew. reflexivity. }
  rewrite Hd1. cbn [users payment_transactions].
  split; [reflexivity|]. split; [reflexivity|].
  assert (Hq : by_reference_and_user r (id cu) (stored pending) = true).
  { unfold by_reference_and_user, stored. cbn. now rewrite !String.eqb_refl. }
  pose proof (first_by_reference_and_user_none r (id cu) _ Hnew) as Hnone.
  rewrite (verify_payment_found ps get utcnow cu r
             {| users := users d;
                payment_transactions :=
                  (payment_transactions d ++ [stored pending])%list |}
             v (stored pending) Hv Hok (first_app_new _ _ _ Hnone Hq)).
  cbn [users payment_transactions].
  rewrite (update_first_app_new _ (set_status completed) _ _ Hnone Hq).
  reflexivity.
Qed.

Lemma initialized_payment_can_be_verified_witness :
  let d := Example.db pending in
  let r := "eduhealth_20261103090507_4242" in
  let stored (st : Status) :=
    {| user_id := "u2"; paystack_reference := r;
       amount := plan_amount (JStr "annual"); currency := "USD";
       status := st; plan_type := Some "annual" |} in
  let d1 := snd (initialize_payment (Some Example.paystack)
                   Example.gateway_accepts Example.hash Example.now Example.bob
                   (Return (JObj [("plan_type", JStr "annual")])) d) in
  let expires := 0 + timedelta_days (plan_days (Some "annual")) in
  payment_transactions d1 = (payment_transactions d ++ [stored pending])%list
  /\ users d1 = users d
  /\ verify_payment (Some Example.paystack) Example.gateway_success 0
       Example.bob r d1
     = ({| response_body :=
             jsonify
               (JObj [ ("message",
                          JStr "Payment verified and subscription activated!");
                       ("subscription_type", JStr "premium");
                       ("expires", JInt expires) ]);
           response_code := 200 |},
        {| users := update_first (by_id "u2") (set_premium expires) (users d);
           payment_transactions :=
             (payment_transactions d ++ [stored completed])%list |}).
Proof.
  apply (initialized_payment_can_be_verified Example.paystack
           Example.gateway_accepts Example.gateway_success Example.hash
           Example.now 0 Example.bob [("plan_type", JStr "annual")]
           (Example.accepted
              (initialize_payload Example.hash Example.now "bob@x.com"
                 (9999 # 100)%Q (JStr "annual") JNull))
           (JBool true)
           (JObj [ ("authorization_url", JStr "https://checkout.paystack.com/0");
                   ("reference", JStr "eduhealth_20261103090507_4242") ])
           "eduhealth_20261103090507_4242" (Some "annual")
           (Example.db pending)
           (JObj [ ("status", JBool true);
                   ("data", JObj [ ("status", JStr "success");
                                   ("amount", JInt 17982) ]) ]));
    reflexivity.
Defined.

Lemma read_charge_reference data c :
  read_charge data = Return c ->
  dict_get data "reference" JNull = Return (cf_reference c).
Proof.
  unfold read_charge.
  destruct (dict_get data "reference" JNull) as [reference|]; [|discriminate].
  cbn [bind].
  destruct (dict_get data "customer" (JObj [])) as [cust|]; [|discriminate].
  cbn [bind].
  destruct (dict_get cust "email" JNull); [|discriminate]. cbn [bind].
  destruct (dict_get data "amount" (JInt 0)) as [am|]; [|discriminate].
  cbn [bind]. destruct (div_100 am); [|discriminate]. cbn [bind].
  destruct (dict_get data "metadata" (JObj [])) as [md|]; [|discriminate].
  cbn [bind]. destruct (dict_get md "plan_type" (JStr "monthly"));
    [|discriminate].
  cbn [bind]. now intros [= <-].
Qed.

(** [handle_paystack_webhook] cannot complete a payment the ledger already
    holds, such as one [initialize_payment] has stored: a [charge.success]
    delivery for a stored reference never answers [success] and never writes.
    When the signature is right and the customer's email is a user's, the
    answer is the error of the UNIQUE constraint. *)
Theorem webhook_cannot_complete_a_stored_reference
    env utcnow webhook_data signature d data r p :
  dict_get webhook_data "event" JNull = Return (JStr "charge.success") ->
  dict_get webhook_data "data" (JObj []) = Return data ->
  dict_get data "reference" JNull = Return (JStr r) ->
  first (by_reference r) (payment_transactions d) = Some p ->
  let out := handle_paystack_webhook env utcnow webhook_data signature d in
  snd out = d
  /\ (fst out = JObj [ ("status", JStr "processed") ]
      \/ exists m, fst out = status_dict "error" m)
  /\ (forall ps c user q,
        init_paystack_payment env = Return ps ->
        signature
        = Some (SHA512.hexdigest (encode_utf8 (secret_key ps))
                  (encode_utf8 (dumps webhook_data))) ->
        read_charge data = Return c ->
        first_user_by_email (cf_customer_email c) d = Return (Some user) ->
        bind_text (cf_plan_type c) = Return q ->
        out = (status_dict "error"
                 "UNIQUE constraint failed: payment_transactions.paystack_reference",
               d)).
Proof.
  intros He Hd Hr Hp out.
  assert (Hcs : forall c, read_charge data = Return c ->
                cf_reference c = JStr r).
  { intros c Hc. apply read_charge_reference in Hc. congruence. }
  assert (Hdisp :
    dispatch utcnow webhook_data d
    = (x <- charge_success utcnow data d ;;
       Return (match x with
               | Some y => y
               | None => (JObj [ ("status", JStr "processed") ], d)
               end))).
  { unfold dispatch. rewrite He, Hd. reflexivity. }
  assert (Hcharge :
    charge_success utcnow data d = Return None
    \/ exists e, charge_success utcnow data d = Raise e).
  { unfold charge_success.
    destruct (read_charge data) as [c|e] eqn:Hc; cbn [bind]; [|eauto].
    destruct (first_user_by_email (cf_customer_email c) d) as [[user|]|e];
      cbn [bind]; [|auto|eauto].
    rewrite (Hcs c eq_refl). cbn [bind_text bind].
    destruct (bind_text (cf_plan_type c)) as [q|e]; cbn [bind]; [|eauto].
    erewrite insert_transaction_stored; [|exact Hp]. cbn [bind]. eauto. }
  split; [|split].
  - subst out. unfold handle_paystack_webhook.
    destruct (init_paystack_payment env) as [ps|e];
      cbn [bind try_except_Exception]; [|reflexivity].
    destruct (verify_webhook_signature ps _ signature) as [[|]|e];
      cbn [bind try_except_Exception negb]; try reflexivity.
    rewrite Hdisp. destruct Hcharge as [->|(e & ->)]; reflexivity.
  - subst out. unfold handle_paystack_webhook.
    destruct (init_paystack_payment env) as [ps|e];
      cbn [bind try_except_Exception]; [|right; now eexists].
    destruct (verify_webhook_signature ps _ signature) as [[|]|e];
      cbn [bind try_except_Exception negb]; try (right; now eexists).
    rewrite Hdisp. destruct Hcharge as [->|(e & ->)];
      [left; reflexivity|right; now eexists].
  - intros ps c user q Hps Hsig Hc Hu Hq. subst out.
    apply verify_webhook_signature_true in Hsig.
    rewrite (handle_paystack_webhook_accepted _ _ _ _ _ _ Hps Hsig), Hdisp.
    unfold charge_success. rewrite Hc. cbn [bind]. rewrite Hu. cbn [bind].
    rewrite (Hcs c Hc). cbn [bind_text bind]. rewrite Hq. cbn [bind].
    erewrite insert_transaction_stored; [reflexivity|exact Hp].
Qed.



(** An accepted delivery the handler has no branch for is acknowledged and
    dropped: an event other than [charge.success] and [charge.failed], and a
    [charge.success] whose customer email is no user's, are both answered
    [processed] with nothing written. *)
Theorem unhandled_delivery_is_acknowledged
    env ps utcnow webhook_data signature d event data :
  init_paystack_payment env = Return ps ->
  signature
  = Some (SHA512.hexdigest (encode_utf8 (secret_key ps))
            (encode_utf8 (dumps webhook_data))) ->
  dict_get webhook_data "event" JNull = Return event ->
  dict_get webhook_data "data" (JObj []) = Return data ->
  let out := handle_paystack_webhook env utcnow webhook_data signature d in
  (eq_str event "charge.success" = false ->
   eq_str event "charge.failed" = false ->
   out = (JObj [ ("status", JStr "processed") ], d))
  /\ (forall c,
        eq_str event "charge.success" = true ->
        read_charge data = Return c ->
        first_user_by_email (cf_customer_email c) d = Return None ->
        out = (JObj [ ("status", JStr "processed") ], d)).
Proof.
  intros Hps Hsig He Hd out. subst out.
  apply verify_webhook_signature_true in Hsig.
  rewrite (handle_paystack_webhook_accepted _ _ _ _ _ _ Hps Hsig).
  unfold dispatch. rewrite He, Hd. cbn [bind]. split.
  - now intros -> ->.
  - intros c -> Hc Hu. unfold charge_success. rewrite Hc. cbn [bind].
    now rewrite Hu.
Qed.


Lemma webhook_cannot_complete_a_stored_reference_witness :
  let v := Example.charge "charge.success" "R1" "alice@x.com"
             [("plan_type", JStr "monthly")] in
  let d := Example.db pending in
  handle_paystack_webhook Example.env 0 v
    (Some (Example.sign (encode_utf8 (dumps v)))) d
  = (status_dict "error"
       "UNIQUE constraint failed: payment_transactions.paystack_reference",
     d).
Proof.
  intros v d.
  pose proof
    (webhook_cannot_complete_a_stored_reference Example.env 0 v
       (Some (Example.sign (encode_utf8 (dumps v)))) d
       (JObj [ ("reference", JStr "R1");
               ("amount", JInt 17982);
               ("customer", JObj [ ("email", JStr "alice@x.com") ]);
               ("metadata", JObj [ ("plan_type", JStr "monthly") ]) ])
       "R1" (Example.tx "R1" pending)
       eq_refl eq_refl eq_refl eq_refl) as H.
  cbv zeta in H. destruct H as (_ & _ & H).
  apply (H Example.paystack
           {| cf_reference := JStr "R1";
              cf_customer_email := JStr "alice@x.com";
              cf_amount := (inject_Z 17982 / 100)%Q;
              cf_plan_type := JStr "monthly" |}
           Example.alice (Some "monthly")); reflexivity.
Defined.
Lemma unhandled_delivery_is_acknowledged_witness :
  let other := Example.charge "transfer.success" "R1" "alice@x.com" [] in
  let stranger := Example.charge "charge.success" "R9" "eve@x.com" [] in
  let d := Example.db pending in
  handle_paystack_webhook Example.env 0 other
    (Some (Example.sign (encode_utf8 (dumps other)))) d
  = (JObj [ ("status", JStr "processed") ], d)
  /\ handle_paystack_webhook Example.env 0 stranger
       (Some (Example.sign (encode_utf8 (dumps stranger)))) d
     = (JObj [ ("status", JStr "processed") ], d).
Proof.
  intros other stranger d.
  assert (Hps : init_paystack_payment Example.env = Return Example.paystack)
    by reflexivity.
  assert (Hsig : forall v,
            Some (Example.sign (encode_utf8 (dumps v)))
            = Some (SHA512.hexdigest (encode_utf8 (secret_key Example.paystack))
                      (encode_utf8 (dumps v))))
    by reflexivity.
  split.
  - pose proof
      (unhandled_delivery_is_acknowledged Example.env Example.paystack 0 other
         (Some (Example.sign (encode_utf8 (dumps other)))) d
         (JStr "transfer.success")
         (JObj [ ("reference", JStr "R1");
                 ("amount", JInt 17982);
                 ("customer", JObj [ ("email", JStr "alice@x.com") ]);
                 ("metadata", JObj []) ])
         Hps (Hsig other) eq_refl eq_refl) as H.
    cbv zeta in H. destruct H as (H & _). apply H; reflexivity.
  - pose proof
      (unhandled_delivery_is_acknowledged Example.env Example.paystack 0
         stranger
         (Some (Example.sign (encode_utf8 (dumps stranger)))) d
         (JStr "charge.success")
         (JObj [ ("reference", JStr "R9");
                 ("amount", JInt 17982);
                 ("customer", JObj [ ("email", JStr "eve@x.com") ]);
                 ("metadata", JObj []) ])
         Hps (Hsig stranger) eq_refl eq_refl) as H.
    cbv zeta in H. destruct H as (_ & H).
    apply (H {| cf_reference := JStr "R9";
                cf_customer_email := JStr "eve@x.com";
                cf_amount := (inject_Z 17982 / 100)%Q;
                cf_plan_type := JStr "monthly" |}); reflexivity.
Defined.

(** ** The success transition of the webhook handler, from its inputs *)

(** The fields [read_charge] returns, from the entries of [data]. *)
Lemma read_charge_fields data r cust e am q metadata pt :
  dict_get data "reference" JNull = Return r ->
  dict_get data "customer" (JObj []) = Return cust ->
  dict_get cust "email" JNull = Return e ->
  dict_get data "amount" (JInt 0) = Return am ->
  div_100 am = Return q ->
  dict_get data "metadata" (JObj []) = Return metadata ->
  dict_get metadata "plan_type" (JStr "monthly") = Return pt ->
  read_charge data
  = Return {| cf_reference := r; cf_customer_email := e;
              cf_amount := q; cf_plan_type := pt |}.
Proof.
  intros Hr Hc He Ha Hq Hm Hp. unfold read_charge.
  rewrite Hr. cbn [bind]. rewrite Hc. cbn [bind]. rewrite He. cbn [bind].
  rewrite Ha. cbn [bind]. rewrite Hq. cbn [bind]. rewrite Hm. cbn [bind].
  now rewrite Hp.
Qed.

(** An accepted [charge.success] delivery whose customer email is a user's
    and whose reference is a string no stored row holds: the handler answers
    [success], adds a completed row and makes that user premium. *)
Lemma handle_paystack_webhook_charge_success
    env ps utcnow webhook_data signature d data r e q pt p user :
  init_paystack_payment env = Return ps ->
  signature
  = Some (SHA512.hexdigest (encode_utf8 (secret_key ps))
            (encode_utf8 (dumps webhook_data))) ->
  dict_get webhook_data "event" JNull = Return (JStr "charge.success") ->
  dict_get webhook_data "data" (JObj []) = Return data ->
  read_charge data
  = Return {| cf_reference := JStr r; cf_customer_email := JStr e;
              cf_amount := q; cf_plan_type := pt |} ->
  bind_text pt = Return p ->
  first (by_email e) (users d) = Some user ->
  first (by_reference r) (payment_transactions d) = None ->
  handle_paystack_webhook env utcnow webhook_data signature d
  = (status_dict "success" "Subscription activated",
     {| users :=
          update_first (by_id (id user))
            (set_premium
               (utcnow
                + timedelta_days (if eq_str pt "annual" then 365 else 30)))
            (users d);
        payment_transactions :=
          (payment_transactions d
           ++ [ {| user_id := id user; paystack_reference := r;
                   amount := q; currency := "USD";
                   status := completed; plan_type := p |} ])%list |}).
Proof.
  intros Hps Hsig He Hd Hc Hp Hu Hnew.
  apply verify_webhook_signature_true in Hsig.
  rewrite (handle_paystack_webhook_accepted _ _ _ _ _ _ Hps Hsig).
  unfold dispatch. rewrite He, Hd. cbn [bind eq_str].
  replace (String.eqb "charge.success" "charge.success") with true
    by reflexivity.
  unfold charge_success. rewrite Hc. cbn [bind cf_customer_email].
  unfold first_user_by_email. cbn [bind_text bind]. rewrite Hu.
  cbn [bind cf_reference bind_text cf_plan_type]. rewrite Hp. cbn [bind].
  rewrite insert_transaction_new by exact Hnew.
  cbn [bind users payment_transactions cf_amount].
  now destruct (eq_str pt "annual").
Qed.

(** With unique ids, a stored user is the first row with its id. *)
Lemma first_by_id_unique (rows : list User) (u : User) :
  NoDup (map id rows) -> In u rows -> first (by_id (id u)) rows = Some u.
Proof.
  unfold first, by_id.
  induction rows as [|x rest IH]; intros Hnd Hin; [destruct Hin|].
  cbn [find]. inversion Hnd as [|? ? Hx Hrest]; subst.
  destruct Hin as [->|Hin]; [now rewrite String.eqb_refl|].
  destruct (String.eqb (id x) (id u)) eqn:E; [|now apply IH].
  apply String.eqb_eq in E. exfalso. apply Hx. rewrite E. now apply in_map.
Qed.

(** The first row with an id, once made premium. *)
Lemma first_by_id_upgraded (rows : list User) (u : User) (expires : timestamp) :
  first (by_id (id u)) rows = Some u ->
  first (by_id (id u)) (update_first (by_id (id u)) (set_premium expires) rows)
  = Some (set_premium expires u).
Proof.
  intros Hu. apply (first_update_first _ _ _ _ Hu).
  rewrite by_id_set_premium. apply first_Some in Hu. tauto.
Qed.

(** ** C5: the expiry a success transition writes *)

(** C5: for a plan type [plan] that is monthly or annual, each success
    transition answers with success and leaves the user it upgrades premium
    with an expiry of exactly the time of the call plus 365 days (annual) or
    30 days (monthly), whatever subscription the user had before.  Each path
    under its own conditions: [verify_payment] for a caller who owns a row
    with the reference, [payment_success] for the owner of the row with the
    reference, both once the gateway reports success; and
    [handle_paystack_webhook] for the user with the customer's email, on a
    correctly signed [charge.success] delivery whose reference is not stored
    yet (the ledger may be empty). *)
Theorem success_sets_expiry_from_now utcnow d plan :
  plan = "monthly" \/ plan = "annual" ->
  let expires :=
    utcnow + timedelta_days (if String.eqb plan "annual" then 365 else 30) in
  let upgraded (x : User) :=
    {| id := id x; email := email x;
       subscription_type := premium; subscription_expires := Some expires |} in
  (forall ps get cu R v p,
     verify_transaction ps get R = Return v ->
     gateway_says_success v = Return true ->
     first (by_reference_and_user R (id cu)) (payment_transactions d) = Some p ->
     plan_type p = Some plan ->
     first (by_id (id cu)) (users d) = Some cu ->
     let out := verify_payment (Some ps) get utcnow cu R d in
     fst out
     = {| response_body :=
            jsonify
              (JObj [ ("message",
                         JStr "Payment verified and subscription activated!");
                      ("subscription_type", JStr "premium");
                      ("expires", JInt expires) ]);
          response_code := 200 |}
     /\ first (by_id (id cu)) (users (snd out)) = Some (upgraded cu))
  /\ (forall ps get R v p u,
        String.eqb R EmptyString = false ->
        verify_transaction ps get R = Return v ->
        gateway_says_success v = Return true ->
        first (by_reference R) (payment_transactions d) = Some p ->
        plan_type p = Some plan ->
        first (by_id (user_id p)) (users d) = Some u ->
        let out := payment_success (Some ps) get utcnow (Some R) d in
        fst out
        = {| response_body :=
               render_template "index.html" [("payment_success", true)];
             response_code := 200 |}
        /\ first (by_id (id u)) (users (snd out)) = Some (upgraded u))
  /\ (forall env ps webhook_data signature data r cust e am q metadata user,
        init_paystack_payment env = Return ps ->
        signature
        = Some (SHA512.hexdigest (encode_utf8 (secret_key ps))
                  (encode_utf8 (dumps webhook_data))) ->
        dict_get webhook_data "event" JNull = Return (JStr "charge.success") ->
        dict_get webhook_data "data" (JObj []) = Return data ->
        dict_get data "reference" JNull = Return (JStr r) ->
        dict_get data "customer" (JObj []) = Return cust ->
        dict_get cust "email" JNull = Return (JStr e) ->
        dict_get data "amount" (JInt 0) = Return am ->
        div_100 am = Return q ->
        dict_get data "metadata" (JObj []) = Return metadata ->
        dict_get metadata "plan_type" (JStr "monthly") = Return (JStr plan) ->
        first (by_email e) (users d) = Some user ->
        first (by_reference r) (payment_transactions d) = None ->
        NoDup (map id (users d)) ->
        let out := handle_paystack_webhook env utcnow webhook_data signature d in
        fst out = status_dict "success" "Subscription activated"
        /\ first (by_id (id user)) (users (snd out)) = Some (upgraded user)).
Proof.
  intros _ expires upgraded. split; [|split].
  - intros ps get cu R v p Hv Hok Hp Hplan Hcu out. subst out.
    rewrite (verify_payment_found _ _ utcnow _ _ _ _ _ Hv Hok Hp).
    cbn [fst snd users]. unfold plan_days, is_annual. rewrite Hplan.
    replace (utcnow + timedelta_days (if String.eqb plan "annual" then 365 else 30))
      with expires by reflexivity.
    split; [reflexivity|]. now apply first_by_id_upgraded.
  - intros ps get R v p u HR Hv Hok Hp Hplan Hu out. subst out.
    rewrite (payment_success_found _ _ utcnow _ _ _ _ _ HR Hv Hok Hp Hu).
    cbn [fst snd users]. unfold plan_days, is_annual. rewrite Hplan.
    replace (utcnow + timedelta_days (if String.eqb plan "annual" then 365 else 30))
      with expires by reflexivity.
    split; [reflexivity|]. apply first_by_id_upgraded.
    now rewrite (first_by_id_id _ _ _ Hu).
  - intros env ps webhook_data signature data r cust e am q metadata user
           Hps Hsig He Hd Hr Hc Hem Ha Hq Hm Hp Hu Hnew Hnd out. subst out.
    rewrite (handle_paystack_webhook_charge_success env ps utcnow webhook_data
               signature d data r e q (JStr plan) (Some plan) user
               Hps Hsig He Hd
               (read_charge_fields _ _ _ _ _ _ _ _ Hr Hc Hem Ha Hq Hm Hp)
               eq_refl Hu Hnew).
    cbn [fst snd users eq_str]. split; [reflexivity|].
    apply first_by_id_upgraded. apply first_by_id_unique; [exact Hnd|].
    now apply first_Some in Hu.
Qed.

Lemma success_sets_expiry_from_now_witness :
  let utcnow := 5 * Example.day in
  let row :=
    {| user_id := "u3"; paystack_reference := "R3";
       amount := (9999 # 100)%Q; currency := "USD";
       status := pending; plan_type := Some "annual" |} in
  let d := {| users := [Example.alice; Sample.carol];
              payment_transactions := [row] |} in
  let empty := {| users := [Example.alice; Sample.carol];
                  payment_transactions := [] |} in
  let webhook_data :=
    Example.charge "charge.success" "R4" "carol@x.com"
      [("plan_type", JStr "annual")] in
  let upgraded :=
    {| id := "u3"; email := "carol@x.com";
       subscription_type := premium;
       subscription_expires := Some (utcnow + timedelta_days 365) |} in
  subscription_expires Sample.carol = Some (10 * Example.day)
  /\ first (by_id "u3")
       (users (snd (verify_payment (Some Example.paystack)
                      Example.gateway_success utcnow Sample.carol "R3" d)))
     = Some upgraded
  /\ first (by_id "u3")
       (users (snd (payment_success (Some Example.paystack)
                      Example.gateway_success utcnow (Some "R3") d)))
     = Some upgraded
  /\ first (by_id "u3")
       (users (snd (handle_paystack_webhook Example.env utcnow webhook_data
                      (Some (Example.sign (encode_utf8 (dumps webhook_data))))
                      empty)))
     = Some upgraded.
Proof.
  intros utcnow row d empty webhook_data upgraded.
  pose proof (success_sets_expiry_from_now utcnow d "annual"
                (or_intror eq_refl)) as H.
  cbv zeta in H. destruct H as (H1 & H2 & _).
  pose proof (success_sets_expiry_from_now utcnow empty "annual"
                (or_intror eq_refl)) as H.
  cbv zeta in H. destruct H as (_ & _ & H3).
  split; [reflexivity|]. split; [|split].
  - refine (proj2 (H1 Example.paystack Example.gateway_success Sample.carol
                     "R3"
                     (JObj [ ("status", JBool true);
                             ("data", JObj [ ("status", JStr "success");
                                             ("amount", JInt 17982) ]) ])
                     row _ _ _ _ _)); reflexivity.
  - refine (proj2 (H2 Example.paystack Example.gateway_success "R3"
                     (JObj [ ("status", JBool true);
                             ("data", JObj [ ("status", JStr "success");
                                             ("amount", JInt 17982) ]) ])
                     row Sample.carol _ _ _ _ _ _)); reflexivity.
  - refine (proj2 (H3 Example.env Example.paystack webhook_data
                     (Some (Example.sign (encode_utf8 (dumps webhook_data))))
                     (JObj [ ("reference", JStr "R4");
                             ("amount", JInt 17982);
                             ("customer", JObj [ ("email", JStr "carol@x.com") ]);
                             ("metadata", JObj [ ("plan_type", JStr "annual") ]) ])
                     "R4" (JObj [ ("email", JStr "carol@x.com") ])
                     "carol@x.com" (JInt 17982) (inject_Z 17982 / 100)%Q
                     (JObj [ ("plan_type", JStr "annual") ]) Sample.carol
                     _ _ _ _ _ _ _ _ _ _ _ _ _ _)); try reflexivity.
    repeat constructor; cbn; intuition discriminate.
Defined.

(** ** C10: the plan type is not validated *)

(** C10: a plan type that is absent, or any string but ['annual'], is taken
    as it is, on every path and under that path's own conditions.
    Initialization sends the gateway the monthly price 9.99 and, when the
    gateway accepts, answers 200 and stores a pending row with that price and
    with the plan type as given (['monthly'] when absent), whatever the ledger
    held, an empty one included.  [verify_payment] and [payment_success] on a
    row with such a plan type answer with success and grant 30 days.
    [handle_paystack_webhook], on a correctly signed [charge.success]
    delivery for the user with the customer's email, reads a missing
    [metadata.plan_type] as ['monthly'], answers [success], stores the plan
    type as given and grants 30 days. *)
Theorem plan_type_other_than_annual_is_monthly utcnow d plan :
  is_annual plan = false ->
  let given := match plan with Some x => x | None => "monthly" end in
  let expires := utcnow + timedelta_days 30 in
  (forall ps post hash now cu items resp s rdata r,
     assoc "plan_type" items = option_map JStr plan ->
     post (base_url ++ "/transaction/initialize")
          (initialize_payload hash now (email cu) (999 # 100)%Q (JStr given)
             (match assoc "callback_url" items with
              | Some x => x
              | None => JNull
              end))
     = Return {| status_code := 200; response_json := Return resp |} ->
     dict_get resp "status" JNull = Return s ->
     truthy s = true ->
     getitem resp "data" = Return rdata ->
     getitem rdata "reference" = Return (JStr r) ->
     first (by_reference r) (payment_transactions d) = None ->
     initialize_payment (Some ps) post hash now cu (Return (JObj items)) d
     = ({| response_body := jsonify resp; response_code := 200 |},
        {| users := users d;
           payment_transactions :=
             (payment_transactions d
              ++ [ {| user_id := id cu; paystack_reference := r;
                      amount := (999 # 100)%Q; currency := "USD";
                      status := pending; plan_type := Some given |} ])%list |}))
  /\ (forall ps get cu R v p,
        verify_transaction ps get R = Return v ->
        gateway_says_success v = Return true ->
        first (by_reference_and_user R (id cu)) (payment_transactions d)
        = Some p ->
        plan_type p = plan ->
        verify_payment (Some ps) get utcnow cu R d
        = ({| response_body :=
                jsonify
                  (JObj [ ("message",
                             JStr "Payment verified and subscription activated!");
                          ("subscription_type", JStr "premium");
                          ("expires", JInt expires) ]);
              response_code := 200 |},
           {| users := update_first (by_id (id cu)) (set_premium expires)
                                    (users d);
              payment_transactions :=
                update_first (by_reference_and_user R (id cu))
                             (set_status completed) (payment_transactions d) |}))
  /\ (forall ps get R v p u,
        String.eqb R EmptyString = false ->
        verify_transaction ps get R = Return v ->
        gateway_says_success v = Return true ->
        first (by_reference R) (payment_transactions d) = Some p ->
        plan_type p = plan ->
        first (by_id (user_id p)) (users d) = Some u ->
        payment_success (Some ps) get utcnow (Some R) d
        = ({| response_body :=
                render_template "index.html" [("payment_success", true)];
              response_code := 200 |},
           {| users := update_first (by_id (id u)) (set_premium expires)
                                    (users d);
              payment_transactions :=
                update_first (by_reference R) (set_status completed)
                             (payment_transactions d) |}))
  /\ (forall env ps webhook_data signature data r cust e am q metadata user,
        init_paystack_payment env = Return ps ->
        signature
        = Some (SHA512.hexdigest (encode_utf8 (secret_key ps))
                  (encode_utf8 (dumps webhook_data))) ->
        dict_get webhook_data "event" JNull = Return (JStr "charge.success") ->
        dict_get webhook_data "data" (JObj []) = Return data ->
        dict_get data "reference" JNull = Return (JStr r) ->
        dict_get data "customer" (JObj []) = Return cust ->
        dict_get cust "email" JNull = Return (JStr e) ->
        dict_get data "amount" (JInt 0) = Return am ->
        div_100 am = Return q ->
        dict_get data "metadata" (JObj []) = Return (JObj metadata) ->
        assoc "plan_type" metadata = option_map JStr plan ->
        first (by_email e) (users d) = Some user ->
        first (by_reference r) (payment_transactions d) = None ->
        handle_paystack_webhook env utcnow webhook_data signature d
        = (status_dict "success" "Subscription activated",
           {| users := update_first (by_id (id user)) (set_premium expires)
                                    (users d);
              payment_transactions :=
                (payment_transactions d
                 ++ [ {| user_id := id user; paystack_reference := r;
                         amount := q; currency := "USD";
                         status := completed;
                         plan_type := Some given |} ])%list |})).
Proof.
  intros Hplan given expires.
  assert (Hgiven : eq_str (JStr given) "annual" = false).
  { subst given. destruct plan as [x|]; [exact Hplan|reflexivity]. }
  assert (Hget : forall items,
            assoc "plan_type" items = option_map JStr plan ->
            match assoc "plan_type" items with
            | Some x => x
            | None => JStr "monthly"
            end = JStr given).
  { intros items ->. subst given. now destruct plan. }
  split; [|split; [|split]].
  - intros ps post hash now cu items resp s rdata r Hitems Hpost Hs Hts Hrd Hr
           Hnew.
    pose proof (initialize_payment_accepted ps post hash now cu items resp s
                  rdata r d) as H.
    cbv zeta in H. rewrite (Hget items Hitems) in H.
    unfold plan_amount in H. rewrite Hgiven in H.
    rewrite (H Hpost Hs Hts Hrd Hr). cbn [bind_text bind].
    rewrite insert_transaction_new by exact Hnew. reflexivity.
  - intros ps get cu R v p Hv Hok Hp Hpp.
    rewrite (verify_payment_found _ _ utcnow _ _ _ _ _ Hv Hok Hp).
    unfold plan_days. now rewrite Hpp, Hplan.
  - intros ps get R v p u HR Hv Hok Hp Hpp Hu.
    rewrite (payment_success_found _ _ utcnow _ _ _ _ _ HR Hv Hok Hp Hu).
    unfold plan_days. now rewrite Hpp, Hplan.
  - intros env ps webhook_data signature data r cust e am q metadata user
           Hps Hsig He Hd Hr Hc Hem Ha Hq Hm Hmp Hu Hnew.
    assert (Hp : dict_get (JObj metadata) "plan_type" (JStr "monthly")
                 = Return (JStr given)).
    { rewrite dict_get_JObj. now rewrite (Hget metadata Hmp). }
    rewrite (handle_paystack_webhook_charge_success env ps utcnow webhook_data
               signature d data r e q (JStr given) (Some given) user
               Hps Hsig He Hd
               (read_charge_fields _ _ _ _ _ _ _ _ Hr Hc Hem Ha Hq Hm Hp)
               eq_refl Hu Hnew).
    now rewrite Hgiven.
Qed.

Lemma plan_type_other_than_annual_is_monthly_witness :
  let utcnow := 4 * Example.day in
  let expires := utcnow + timedelta_days 30 in
  let empty := {| users := [Example.alice; Example.bob];
                  payment_transactions := [] |} in
  let d := Example.db_weekly in
  let r := "eduhealth_20261103090507_4242" in
  let resp :=
    Example.accepted
      (initialize_payload Example.hash Example.now "bob@x.com"
         (999 # 100)%Q (JStr "weekly") JNull) in
  let webhook_data := Example.charge "charge.success" "R7" "bob@x.com" [] in
  initialize_payment (Some Example.paystack) Example.gateway_accepts
    Example.hash Example.now Example.bob
    (Return (JObj [("plan_type", JStr "weekly")])) empty
  = ({| response_body := jsonify resp; response_code := 200 |},
     {| users := [Example.alice; Example.bob];
        payment_transactions :=
          [ {| user_id := "u2"; paystack_reference := r;
               amount := (999 # 100)%Q; currency := "USD";
               status := pending; plan_type := Some "weekly" |} ] |})
  /\ users (snd (verify_payment (Some Example.paystack)
                   Example.gateway_success utcnow Example.alice "R1" d))
     = update_first (by_id "u1") (set_premium expires) (users d)
  /\ users (snd (payment_success (Some Example.paystack)
                   Example.gateway_success utcnow (Some "R1") d))
     = update_first (by_id "u1") (set_premium expires) (users d)
  /\ handle_paystack_webhook Example.env utcnow webhook_data
       (Some (Example.sign (encode_utf8 (dumps webhook_data)))) empty
     = (status_dict "success" "Subscription activated",
        {| users := update_first (by_id "u2") (set_premium expires)
                                 [Example.alice; Example.bob];
           payment_transactions :=
             [ {| user_id := "u2"; paystack_reference := "R7";
                  amount := (inject_Z 17982 / 100)%Q; currency := "USD";
                  status := completed; plan_type := Some "monthly" |} ] |}).
Proof.
  intros utcnow expires empty d r resp webhook_data.
  pose proof (plan_type_other_than_annual_is_monthly utcnow empty
                (Some "weekly") eq_refl) as H.
  cbv zeta in H. destruct H as (H1 & _).
  pose proof (plan_type_other_than_annual_is_monthly utcnow d
                (Some "weekly") eq_refl) as H.
  cbv zeta in H. destruct H as (_ & H2 & H3 & _).
  pose proof (plan_type_other_than_annual_is_monthly utcnow empty
                None eq_refl) as H.
  cbv zeta in H. destruct H as (_ & _ & _ & H4).
  split; [|split; [|split]].
  - apply (H1 Example.paystack Example.gateway_accepts Example.hash Example.now
              Example.bob [("plan_type", JStr "weekly")] resp (JBool true)
              (JObj [ ("authorization_url",
                         JStr "https://checkout.paystack.com/0");
                      ("reference", JStr r) ])
              r); reflexivity.
  - rewrite (H2 Example.paystack Example.gateway_success Example.alice "R1"
               (JObj [ ("status", JBool true);
                       ("data", JObj [ ("status", JStr "success");
                                       ("amount", JInt 17982) ]) ])
               Example.tx_weekly); reflexivity.
  - rewrite (H3 Example.paystack Example.gateway_success "R1"
               (JObj [ ("status", JBool true);
                       ("data", JObj [ ("status", JStr "success");
                                       ("amount", JInt 17982) ]) ])
               Example.tx_weekly Example.alice); reflexivity.
  - apply (H4 Example.env Example.paystack webhook_data
              (Some (Example.sign (encode_utf8 (dumps webhook_data))))
              (JObj [ ("reference", JStr "R7");
                      ("amount", JInt 17982);
                      ("customer", JObj [ ("email", JStr "bob@x.com") ]);
                      ("metadata", JObj []) ])
              "R7" (JObj [ ("email", JStr "bob@x.com") ])
              "bob@x.com" (JInt 17982) (inject_Z 17982 / 100)%Q
              [] Example.bob); reflexivity.
Defined.
